(** * Devnovate blog platform: moderation workflow, engagement and listing

    A shallow embedding of the server side of the platform
    (models/Blog.js, middleware/auth.js, routes/blogs.js, routes/admin.js,
    routes/users.js, utils/emailService.js)
    and the properties of its post life cycle, engagement bookkeeping and
    paginated listing.

    Conventions of the embedding.
    - An ObjectId is a 96-bit value, here a natural number [N]; the
      handlers only ever compare two ids (through [toString]).
    - A [Date] is a number of milliseconds, an integer.
    - JavaScript numbers that count things (views, page numbers, lengths)
      are integers [Z]; the quotient under [Math.ceil] is an exact
      rational, which agrees with the double-precision quotient for every
      count below 2^53.
    - Strings are sequences of bytes.  [toLowerCase] is the ASCII one; a
      byte outside ASCII is not in [a-z0-9], exactly as the non-ASCII
      characters of a JavaScript string (the two code points whose
      lower-case form contains an ASCII letter, U+0130 and U+212A, are not
      represented).
    - A collection is a finite map from [_id] to document.  The record of
      a post holds the paths declared in [blogSchema] that the server code
      reads or writes; the [seo] block, the two analytics ratios and the
      [createdAt]/[updatedAt] columns that the [timestamps] option lets the
      persistence library maintain are not part of it.
    - [save()] validates the document against the schema, then runs the
      pre-save hook, then writes; a document that fails validation is not
      written and the request ends in a ValidationError.  The update
      route does not save: it asks for validators explicitly
      ([runValidators: true]), and they are a parameter of that handler.
    - A reply that holds documents is serialised with their virtuals
      ([toJSON: { virtuals: true }]); a getter that throws ends the
      request in a TypeError. *)

From Stdlib Require Import ZArith QArith Qround String Ascii List.
From stdpp Require Import gmap strings list fin_maps.

Open Scope Z_scope.

Abbreviation ObjectId := N (only parsing).
Abbreviation Date := Z (only parsing).

(** ** JavaScript helpers *)

(** [Math.ceil(a / b)] on two integer-valued numbers. *)
Definition Math_ceil_div (a b : Z) : Z := Qceiling (inject_Z a / inject_Z b).

(** [parseInt(q) || d] for an optional query parameter that holds an
    integer: a missing parameter parses to NaN, and NaN and 0 are falsy. *)
Definition parseInt_or (q : option Z) (d : Z) : Z :=
  match q with
  | Some n => if n =? 0 then d else n
  | None => d
  end.

(** Truthiness of an optional string: [undefined] and [''] are falsy. *)
Definition truthy (s : option string) : bool :=
  match s with
  | Some EmptyString | None => false
  | Some _ => true
  end.

(** The character class [[a-z0-9]]. *)
Definition is_lower_or_digit (c : ascii) : bool :=
  let n := nat_of_ascii c in
  ((97 <=? n) && (n <=? 122) || (48 <=? n) && (n <=? 57))%nat.

(** [String.prototype.toLowerCase], ASCII letters. *)
Definition toLowerCase_ascii (c : ascii) : ascii :=
  let n := nat_of_ascii c in
  if ((65 <=? n) && (n <=? 90))%nat then ascii_of_nat (n + 32) else c.

(** Tab, line feed, vertical tab, form feed, carriage return, space. *)
Definition is_space (c : ascii) : bool :=
  let n := nat_of_ascii c in
  ((9 <=? n) && (n <=? 13) || (n =? 32))%nat.

(** [String.prototype.trim], ASCII white space. *)
Definition trim_chars (l : list ascii) : list ascii :=
  let drop_front := fix go (l : list ascii) : list ascii :=
    match l with
    | c :: r => if is_space c then go r else l
    | [] => []
    end in
  rev (drop_front (rev (drop_front l))).

Definition trim (s : string) : string :=
  string_of_list_ascii (trim_chars (list_ascii_of_string s)).

(** [isLength({min, max})] of express-validator. *)
Definition isLength (lo : nat) (hi : option nat) (s : string) : bool :=
  let n := String.length s in
  ((lo <=? n) && match hi with Some h => n <=? h | None => true end)%nat.

(** [s.split(' ').length]: one more than the number of spaces. *)
Definition split_space_length (s : string) : Z :=
  Z.of_nat (length (List.filter (Ascii.eqb " "%char) (list_ascii_of_string s))) + 1.

Module BlogModel.

(** The [status] enum of the schema. *)
Inductive Status : Type := draft | pending | published | rejected | hidden.

#[global] Instance Status_eq_dec : EqDecision Status.
Proof. solve_decision. Defined.

Definition status_of_string (s : string) : option Status :=
  if String.eqb s "draft" then Some draft
  else if String.eqb s "pending" then Some pending
  else if String.eqb s "published" then Some published
  else if String.eqb s "rejected" then Some rejected
  else if String.eqb s "hidden" then Some hidden
  else None.

Definition categories : list string :=
  ["Technology"; "Business"; "Lifestyle"; "Health"; "Education";
   "Entertainment"; "Sports"; "Politics"; "Science"; "Other"]%string.

(** [commentSchema]: the author, the text and the edited flag. *)
Record Comment : Type := mkComment {
  comment_user : ObjectId;
  comment_content : string;
  comment_isEdited : bool
}.

(** [blogSchema]. *)
Record Blog : Type := mkBlog {
  title : string;
  slug : option string;
  content : string;
  excerpt : string;
  author : ObjectId;
  status : Status;
  category : string;
  tags : list string;
  featuredImage : string;
  readTime : Z;
  views : Z;
  likes : list ObjectId;
  comments : list Comment;
  shares : Z;
  isFeatured : bool;
  isTrending : bool;
  publishedAt : option Date;
  approvedBy : option ObjectId;
  approvedAt : option Date;
  rejectionReason : option string;
  uniqueVisitors : Z
}.

(** Assignment to one path of a document. *)
Definition set_title (v : string) (b : Blog) : Blog :=
  mkBlog v (slug b) (content b) (excerpt b) (author b) (status b) (category b)
    (tags b) (featuredImage b) (readTime b) (views b) (likes b) (comments b)
    (shares b) (isFeatured b) (isTrending b) (publishedAt b) (approvedBy b)
    (approvedAt b) (rejectionReason b) (uniqueVisitors b).

Definition set_slug (v : option string) (b : Blog) : Blog :=
  mkBlog (title b) v (content b) (excerpt b) (author b) (status b)
    (category b) (tags b) (featuredImage b) (readTime b) (views b) (likes b)
    (comments b) (shares b) (isFeatured b) (isTrending b) (publishedAt b)
    (approvedBy b) (approvedAt b) (rejectionReason b) (uniqueVisitors b).

Definition set_content (v : string) (b : Blog) : Blog :=
  mkBlog (title b) (slug b) v (excerpt b) (author b) (status b) (category b)
    (tags b) (featuredImage b) (readTime b) (views b) (likes b) (comments b)
    (shares b) (isFeatured b) (isTrending b) (publishedAt b) (approvedBy b)
    (approvedAt b) (rejectionReason b) (uniqueVisitors b).

Definition set_excerpt (v : string) (b : Blog) : Blog :=
  mkBlog (title b) (slug b) (content b) v (author b) (status b) (category b)
    (tags b) (featuredImage b) (readTime b) (views b) (likes b) (comments b)
    (shares b) (isFeatured b) (isTrending b) (publishedAt b) (approvedBy b)
    (approvedAt b) (rejectionReason b) (uniqueVisitors b).

Definition set_author (v : ObjectId) (b : Blog) : Blog :=
  mkBlog (title b) (slug b) (content b) (excerpt b) v (status b) (category b)
    (tags b) (featuredImage b) (readTime b) (views b) (likes b) (comments b)
    (shares b) (isFeatured b) (isTrending b) (publishedAt b) (approvedBy b)
    (approvedAt b) (rejectionReason b) (uniqueVisitors b).

Definition set_status (v : Status) (b : Blog) : Blog :=
  mkBlog (title b) (slug b) (content b) (excerpt b) (author b) v (category b)
    (tags b) (featuredImage b) (readTime b) (views b) (likes b) (comments b)
    (shares b) (isFeatured b) (isTrending b) (publishedAt b) (approvedBy b)
    (approvedAt b) (rejectionReason b) (uniqueVisitors b).

Definition set_category (v : string) (b : Blog) : Blog :=
  mkBlog (title b) (slug b) (content b) (excerpt b) (author b) (status b) v
    (tags b) (featuredImage b) (readTime b) (views b) (likes b) (comments b)
    (shares b) (isFeatured b) (isTrending b) (publishedAt b) (approvedBy b)
    (approvedAt b) (rejectionReason b) (uniqueVisitors b).

Definition set_tags (v : list string) (b : Blog) : Blog :=
  mkBlog (title b) (slug b) (content b) (excerpt b) (author b) (status b)
    (category b) v (featuredImage b) (readTime b) (views b) (likes b)
    (comments b) (shares b) (isFeatured b) (isTrending b) (publishedAt b)
    (approvedBy b) (approvedAt b) (rejectionReason b) (uniqueVisitors b).

Definition set_featuredImage (v : string) (b : Blog) : Blog :=
  mkBlog (title b) (slug b) (content b) (excerpt b) (author b) (status b)
    (category b) (tags b) v (readTime b) (views b) (likes b) (comments b)
    (shares b) (isFeatured b) (isTrending b) (publishedAt b) (approvedBy b)
    (approvedAt b) (rejectionReason b) (uniqueVisitors b).

Definition set_readTime (v : Z) (b : Blog) : Blog :=
  mkBlog (title b) (slug b) (content b) (excerpt b) (author b) (status b)
    (category b) (tags b) (featuredImage b) v (views b) (likes b) (comments b)
    (shares b) (isFeatured b) (isTrending b) (publishedAt b) (approvedBy b)
    (approvedAt b) (rejectionReason b) (uniqueVisitors b).

Definition set_views (v : Z) (b : Blog) : Blog :=
  mkBlog (title b) (slug b) (content b) (excerpt b) (author b) (status b)
    (category b) (tags b) (featuredImage b) (readTime b) v (likes b)
    (comments b) (shares b) (isFeatured b) (isTrending b) (publishedAt b)
    (approvedBy b) (approvedAt b) (rejectionReason b) (uniqueVisitors b).

Definition set_likes (v : list ObjectId) (b : Blog) : Blog :=
  mkBlog (title b) (slug b) (content b) (excerpt b) (author b) (status b)
    (category b) (tags b) (featuredImage b) (readTime b) (views b) v
    (comments b) (shares b) (isFeatured b) (isTrending b) (publishedAt b)
    (approvedBy b) (approvedAt b) (rejectionReason b) (uniqueVisitors b).

Definition set_comments (v : list Comment) (b : Blog) : Blog :=
  mkBlog (title b) (slug b) (content b) (excerpt b) (author b) (status b)
    (category b) (tags b) (featuredImage b) (readTime b) (views b) (likes b) v
    (shares b) (isFeatured b) (isTrending b) (publishedAt b) (approvedBy b)
    (approvedAt b) (rejectionReason b) (uniqueVisitors b).

Definition set_shares (v : Z) (b : Blog) : Blog :=
  mkBlog (title b) (slug b) (content b) (excerpt b) (author b) (status b)
    (category b) (tags b) (featuredImage b) (readTime b) (views b) (likes b)
    (comments b) v (isFeatured b) (isTrending b) (publishedAt b)
    (approvedBy b) (approvedAt b) (rejectionReason b) (uniqueVisitors b).

Definition set_isFeatured (v : bool) (b : Blog) : Blog :=
  mkBlog (title b) (slug b) (content b) (excerpt b) (author b) (status b)
    (category b) (tags b) (featuredImage b) (readTime b) (views b) (likes b)
    (comments b) (shares b) v (isTrending b) (publishedAt b) (approvedBy b)
    (approvedAt b) (rejectionReason b) (uniqueVisitors b).

Definition set_isTrending (v : bool) (b : Blog) : Blog :=
  mkBlog (title b) (slug b) (content b) (excerpt b) (author b) (status b)
    (category b) (tags b) (featuredImage b) (readTime b) (views b) (likes b)
    (comments b) (shares b) (isFeatured b) v (publishedAt b) (approvedBy b)
    (approvedAt b) (rejectionReason b) (uniqueVisitors b).

Definition set_publishedAt (v : option Date) (b : Blog) : Blog :=
  mkBlog (title b) (slug b) (content b) (excerpt b) (author b) (status b)
    (category b) (tags b) (featuredImage b) (readTime b) (views b) (likes b)
    (comments b) (shares b) (isFeatured b) (isTrending b) v (approvedBy b)
    (approvedAt b) (rejectionReason b) (uniqueVisitors b).

Definition set_approvedBy (v : option ObjectId) (b : Blog) : Blog :=
  mkBlog (title b) (slug b) (content b) (excerpt b) (author b) (status b)
    (category b) (tags b) (featuredImage b) (readTime b) (views b) (likes b)
    (comments b) (shares b) (isFeatured b) (isTrending b) (publishedAt b) v
    (approvedAt b) (rejectionReason b) (uniqueVisitors b).

Definition set_approvedAt (v : option Date) (b : Blog) : Blog :=
  mkBlog (title b) (slug b) (content b) (excerpt b) (author b) (status b)
    (category b) (tags b) (featuredImage b) (readTime b) (views b) (likes b)
    (comments b) (shares b) (isFeatured b) (isTrending b) (publishedAt b)
    (approvedBy b) v (rejectionReason b) (uniqueVisitors b).

Definition set_rejectionReason (v : option string) (b : Blog) : Blog :=
  mkBlog (title b) (slug b) (content b) (excerpt b) (author b) (status b)
    (category b) (tags b) (featuredImage b) (readTime b) (views b) (likes b)
    (comments b) (shares b) (isFeatured b) (isTrending b) (publishedAt b)
    (approvedBy b) (approvedAt b) v (uniqueVisitors b).

Definition set_uniqueVisitors (v : Z) (b : Blog) : Blog :=
  mkBlog (title b) (slug b) (content b) (excerpt b) (author b) (status b)
    (category b) (tags b) (featuredImage b) (readTime b) (views b) (likes b)
    (comments b) (shares b) (isFeatured b) (isTrending b) (publishedAt b)
    (approvedBy b) (approvedAt b) (rejectionReason b) v.

(** *** Virtuals *)

Definition likesCount (b : Blog) : Z := Z.of_nat (length (likes b)).
Definition commentsCount (b : Blog) : Z := Z.of_nat (length (comments b)).

Definition estimatedReadTime (b : Blog) : Z :=
  let wordsPerMinute := 200 in
  let wordCount := split_space_length (content b) in
  Math_ceil_div wordCount wordsPerMinute.

(** *** Slug computation

    [title.toLowerCase().replace(/[^a-z0-9]+/g, '-').replace(/(^-|-$)/g, '')] *)

(** [replace(/[^a-z0-9]+/g, '-')]: every maximal run of characters outside
    [a-z0-9] becomes one hyphen; [in_run] tells that the run has started. *)
Fixpoint replace_runs (in_run : bool) (l : list ascii) : list ascii :=
  match l with
  | [] => []
  | c :: r =>
      if is_lower_or_digit c then c :: replace_runs false r
      else if in_run then replace_runs true r
      else "-"%char :: replace_runs true r
  end.

(** [replace(/(^-|-$)/g, '')]: a hyphen at the start and a hyphen at the
    end are removed. *)
Definition strip_leading (l : list ascii) : list ascii :=
  match l with
  | c :: r => if Ascii.eqb c "-" then r else l
  | [] => []
  end.

Definition strip_trailing (l : list ascii) : list ascii :=
  rev (strip_leading (rev l)).

Definition slugify_chars (l : list ascii) : list ascii :=
  strip_trailing (strip_leading (replace_runs false (map toLowerCase_ascii l))).

Definition slugify (t : string) : string :=
  string_of_list_ascii (slugify_chars (list_ascii_of_string t)).

(** *** Documents and the pre-save hook *)

(** A document in memory: the state it was loaded in ([None] for a
    document built by [Blog.create]) and its current state. *)
Record Doc : Type := mkDoc {
  snapshot : option Blog;
  cur : Blog
}.

Inductive Path : Type := P_title | P_content | P_status.

(** [this.isModified(path)]: every path given to the constructor of a new
    document is modified; on a loaded document a path is modified when it
    holds another value than the one loaded. *)
Definition isModified (p : Path) (d : Doc) : bool :=
  match snapshot d with
  | None => true
  | Some o =>
      match p with
      | P_title => negb (String.eqb (title o) (title (cur d)))
      | P_content => negb (String.eqb (content o) (content (cur d)))
      | P_status => negb (bool_decide (status o = status (cur d)))
      end
  end.

(** [blogSchema.pre('save', ...)]; [now] is the value of [new Date()]. *)
Definition pre_save (now : Date) (d : Doc) : Blog :=
  let b := cur d in
  let b :=
    if isModified P_title d && negb (truthy (slug b))
    then set_slug (Some (slugify (title b))) b else b in
  let b :=
    if isModified P_content d
    then set_readTime (estimatedReadTime b) b else b in
  let b :=
    if isModified P_status d && bool_decide (status b = published)
       && negb (bool_decide (is_Some (publishedAt b)))
    then set_publishedAt (Some now) b else b in
  b.

(** *** Validation

    What the validators of [blogSchema] and [commentSchema] accept.  A
    [required] string path refuses [undefined] and the empty string. *)

Definition valid_comment (c : Comment) : bool :=
  negb (String.eqb (comment_content c) EmptyString)
  && (String.length (comment_content c) <=? 1000)%nat.

Definition validate (b : Blog) : bool :=
  isLength 10 (Some 200%nat) (title b)
  && truthy (slug b)
  && isLength 100 None (content b)
  && isLength 1 (Some 300%nat) (excerpt b)
  && bool_decide (category b ∈ categories)
  && forallb (fun t => (String.length t <=? 20)%nat) (tags b)
  && match rejectionReason b with
     | Some reason => (String.length reason <=? 500)%nat
     | None => true
     end
  && forallb valid_comment (comments b).

(** *** Methods (the assignments; [this.save()] is done by the caller) *)

Definition incrementViews (b : Blog) : Blog := set_views (views b + 1) b.

(** [Array.prototype.indexOf]: the first index, or -1. *)
Fixpoint indexOf (l : list ObjectId) (u : ObjectId) : Z :=
  match l with
  | [] => -1
  | x :: r =>
      if N.eqb x u then 0
      else let i := indexOf r u in if i =? -1 then -1 else i + 1
  end.

Definition toggleLike (userId : ObjectId) (b : Blog) : Blog :=
  let likeIndex := indexOf (likes b) userId in
  if likeIndex =? -1
  then set_likes (likes b ++ [userId]) b
  else set_likes (delete (Z.to_nat likeIndex) (likes b)) b.

(** The pushed object is cast to a comment subdocument, whose [content]
    is declared with [trim: true]. *)
Definition addComment (userId : ObjectId) (text : string) (b : Blog) : Blog :=
  set_comments (comments b ++ [mkComment userId (trim text) false]) b.

End BlogModel.
Import BlogModel.

(** ** Users, the database and replies *)

Inductive Role : Type := user | admin.

#[global] Instance Role_eq_dec : EqDecision Role.
Proof. solve_decision. Defined.

Definition role_of_string (s : string) : option Role :=
  if String.eqb s "user" then Some user
  else if String.eqb s "admin" then Some admin
  else None.

(** Modelled from the spec: the [User] record of models/User.js, which is
    not among the sources.  It has the role and the active flag of the
    spec's data model, and the two profile fields that the admin routes
    read for the notification. *)
Record User : Type := mkUser {
  email : string;
  firstName : string;
  role : Role;
  isActive : bool
}.

Definition set_role (v : Role) (u : User) : User :=
  mkUser (email u) (firstName u) v (isActive u).

Definition set_isActive (v : bool) (u : User) : User :=
  mkUser (email u) (firstName u) (role u) v.

Inductive MailKind : Type := approved | rejected_mail.

(** One call of [sendBlogStatusEmail]. *)
Record Mail : Type := mkMail {
  mail_to : string;
  mail_firstName : string;
  mail_blogTitle : string;
  mail_kind : MailKind;
  mail_reason : option string
}.

Record World : Type := mkWorld {
  blogs : gmap ObjectId Blog;
  users : gmap ObjectId User;
  outbox : list Mail
}.

Definition set_blogs (m : gmap ObjectId Blog) (w : World) : World :=
  mkWorld m (users w) (outbox w).

Definition set_users (m : gmap ObjectId User) (w : World) : World :=
  mkWorld (blogs w) m (outbox w).

Definition send (m : Mail) (w : World) : World :=
  mkWorld (blogs w) (users w) (outbox w ++ [m]).

Record Pagination : Type := mkPagination {
  currentPage : Z;
  totalPages : Z;
  total : Z;
  hasNext : bool;
  hasPrev : bool
}.

Inductive Payload : Type :=
| Data_blog (b : option Blog)
| Data_page (data : list (ObjectId * Blog)) (pagination : Pagination)
| Data_like (likesCount : Z) (isLiked : bool)
| Data_user (u : User)
| Data_none.

(** What a handler sends: [res.status(code).json(...)] with
    [success: true] and data, with [success: false] and a message, with
    the array of validation errors (status 400), or an exception left to
    the error-handling middleware. *)
Inductive Reply : Type :=
| Success (code : N) (data : Payload)
| Failure (code : N) (message : string)
| ValidationErrors (errors : list string)
| Thrown (error : string).

(** The error kinds of the spec, read off the reply. *)
Inductive ErrorKind : Type := NotFound | InvalidState | Unauthorized | ValidationFailed.

Definition error_kind (r : Reply) : option ErrorKind :=
  match r with
  | Failure 404 _ => Some NotFound
  | Failure 400 _ => Some InvalidState
  | Failure 403 _ => Some Unauthorized
  | ValidationErrors _ => Some ValidationFailed
  | _ => None
  end.

(** A handler either returns early, leaving the database as it is, or
    runs to its end with a reply and a database. *)
Definition Handler : Type := (Reply + Reply * World)%type.

Definition run (w : World) (h : Handler) : Reply * World :=
  match h with
  | inl r => (r, w)
  | inr rw => rw
  end.

Notation "'let*' x ':=' e 'in' k" :=
  (match e with inl r => inl r | inr x => k end)
  (at level 10, x pattern, e at level 100, k at level 200, only parsing).

Definition require (ok : bool) (otherwise : Reply) : Reply + unit :=
  if ok then inr tt else inl otherwise.

Definition no_errors (errors : list string) : Reply + unit :=
  match errors with
  | [] => inr tt
  | _ :: _ => inl (ValidationErrors errors)
  end.

Definition found {A : Type} (o : option A) (message : string) : Reply + A :=
  match o with
  | Some a => inr a
  | None => inl (Failure 404 message)
  end.

Definition expect (ok : bool) (message : string) : list string :=
  if ok then [] else [message].

(** [new Date()]: the k-th reading of the clock within one request. *)
Definition Clock : Type := nat -> Date.

(** [doc.save()] of a loaded blog document: the document is validated,
    every path of it, and a failure is thrown before any hook runs and
    before anything is written; then the pre-save hook runs and the
    document is written. *)
Definition save (now : Date) (id : ObjectId) (d : Doc) (w : World)
  : Reply + Blog * World :=
  if validate (cur d) then
    let b := pre_save now d in
    inr (b, set_blogs (<[id := b]> (blogs w)) w)
  else inl (Thrown "ValidationError").

Definition load (b : Blog) : Doc := mkDoc (Some b) b.

(** ** middleware/auth.js *)

(** The [Authorization] header after [jwt.verify]: no bearer token, a token
    that does not verify, or a token that decodes to a user id. *)
Inductive Authorization : Type :=
| NoBearer
| InvalidToken
| ValidToken (id : ObjectId).

Definition protect (w : World) (a : Authorization) : Reply + ObjectId * User :=
  match a with
  | NoBearer => inl (Failure 401 "Not authorized, no token")
  | InvalidToken => inl (Failure 401 "Not authorized, token failed")
  | ValidToken id =>
      match users w !! id with
      | None => inl (Failure 401 "User not found")
      | Some u =>
          if isActive u then inr (id, u)
          else inl (Failure 401 "User account is deactivated")
      end
  end.

Definition admin_only (caller : ObjectId * User) : Reply + unit :=
  if bool_decide (role (snd caller) = admin) then inr tt
  else inl (Failure 403 "Access denied. Admin role required.").

(** [optionalAuth]: [req.user] is set when the token verifies and the user
    exists; nothing else is looked at. *)
Definition optionalAuth (w : World) (a : Authorization) : option (ObjectId * User) :=
  match a with
  | ValidToken id => (fun u => (id, u)) <$> users w !! id
  | _ => None
  end.

(** [Model.findOne(filter)] on the blog collection. *)
Definition findOne (p : Blog -> bool) (w : World) : option (ObjectId * Blog) :=
  List.find (fun ib => p (snd ib)) (map_to_list (blogs w)).

(** The unique index on [slug]: is the value held by another document? *)
Definition slug_taken (self : ObjectId) (s : option string) (w : World) : bool :=
  existsb (fun ib => negb (N.eqb (fst ib) self) && bool_decide (slug (snd ib) = s))
          (map_to_list (blogs w)).

(** [Blog.create(b)]: a new document is saved.  It is validated as it was
    built, before the pre-save hook; the insert is refused when the [_id]
    or the slug is already in use (unique indexes). *)
Definition Blog_create (now : Date) (fresh_id : ObjectId) (b : Blog) (w : World)
  : Reply + Blog * World :=
  if validate b then
    let b := pre_save now (mkDoc None b) in
    if bool_decide (is_Some (blogs w !! fresh_id)) || slug_taken fresh_id (slug b) w
    then inl (Thrown "E11000 duplicate key error")
    else inr (b, set_blogs (<[fresh_id := b]> (blogs w)) w)
  else inl (Thrown "ValidationError").

(** A document as a query hands it to a handler.  [fetched_content] is
    the value of its [content] path, [None] for [undefined] when the query
    left the path out; [fetched_doc] holds the other paths. *)
Record Fetched : Type := mkFetched {
  fetched_id : ObjectId;
  fetched_content : option string;
  fetched_doc : Blog
}.

(** A query without projection. *)
Definition fetched (ib : ObjectId * Blog) : Fetched :=
  mkFetched (fst ib) (Some (content (snd ib))) (snd ib).

(** [.select('-content')]: the body text is left out of the result. *)
Definition select_minus_content (ib : ObjectId * Blog) : Fetched :=
  mkFetched (fst ib) None (set_content EmptyString (snd ib)).

(** The getter of the virtual [estimatedReadTime] on a fetched document:
    [this.content.split(' ')] throws when the content is [undefined]. *)
Definition get_estimatedReadTime (d : Fetched) : option Z :=
  match fetched_content d with
  | Some c => Some (estimatedReadTime (set_content c (fetched_doc d)))
  | None => None
  end.

(** [doc.toJSON()] under [toJSON: { virtuals: true }]: the getters of the
    virtuals are evaluated; [None] when one of them throws. *)
Definition toJSON (d : Fetched) : option (ObjectId * Blog) :=
  match get_estimatedReadTime d with
  | Some _ => Some (fetched_id d, fetched_doc d)
  | None => None
  end.

(** [res.json] of a list of documents: each one is serialised, and a
    getter that throws ends the request. *)
Definition res_json_docs (docs : list Fetched) : Reply + list (ObjectId * Blog) :=
  match mapM toJSON docs with
  | Some data => inr data
  | None => inl (Thrown "TypeError")
  end.

(** ** routes/blogs.js *)

Module BlogRoutes.

Record ListQuery : Type := mkListQuery {
  q_page : option Z;
  q_limit : option Z;
  q_category : option string;
  q_search : option string;
  q_sort : option string
}.

Inductive SortPath : Type :=
| by_publishedAt
| by_views
| by_likes_length
| by_comments_length
| by_uniqueVisitors.

(** A sort document: paths with their direction, in order. *)
Definition SortSpec : Type := list (SortPath * Z).

(** The query filter built by the listing route. *)
Record Filter : Type := mkFilter {
  f_status : Status;
  f_category : option string;
  f_or : option (string -> bool)
}.

Definition matches (f : Filter) (b : Blog) : bool :=
  bool_decide (status b = f_status f)
  && match f_category f with
     | Some c => String.eqb (category b) c
     | None => true
     end
  && match f_or f with
     | Some re => re (title b) || re (content b) || existsb re (tags b)
     | None => true
     end.

Definition find_all (f : Filter) (w : World) : list (ObjectId * Blog) :=
  List.filter (fun ib => matches f (snd ib)) (map_to_list (blogs w)).

Definition countDocuments (f : Filter) (w : World) : Z :=
  Z.of_nat (length (find_all f w)).

Record CreateBody : Type := mkCreateBody {
  c_title : string;
  c_content : string;
  c_excerpt : string;
  c_category : string;
  c_tags : option (list string);
  c_featuredImage : option string
}.

(** The request body of the update route: any path of the schema may be
    present, since the handler hands the whole body to the update. *)
Record UpdateBody : Type := mkUpdateBody {
  u_title : option string;
  u_slug : option string;
  u_content : option string;
  u_excerpt : option string;
  u_author : option ObjectId;
  u_status : option string;
  u_category : option string;
  u_tags : option (list string);
  u_featuredImage : option string;
  u_readTime : option Z;
  u_views : option Z;
  u_likes : option (list ObjectId);
  u_comments : option (list Comment);
  u_shares : option Z;
  u_isFeatured : option bool;
  u_isTrending : option bool;
  u_publishedAt : option Date;
  u_approvedBy : option ObjectId;
  u_approvedAt : option Date;
  u_rejectionReason : option string;
  u_uniqueVisitors : option Z
}.

(** [req.body.status = v] *)
Definition set_u_status (v : string) (r : UpdateBody) : UpdateBody :=
  mkUpdateBody (u_title r) (u_slug r) (u_content r) (u_excerpt r) (u_author r)
    (Some v) (u_category r) (u_tags r) (u_featuredImage r) (u_readTime r)
    (u_views r) (u_likes r) (u_comments r) (u_shares r) (u_isFeatured r)
    (u_isTrending r) (u_publishedAt r) (u_approvedBy r) (u_approvedAt r)
    (u_rejectionReason r) (u_uniqueVisitors r).

Definition assign {A : Type} (set : A -> Blog -> Blog) (o : option A) (b : Blog) : Blog :=
  match o with
  | Some v => set v b
  | None => b
  end.

(** The [$set] of every path present in the body; [st] is the status
    after casting.  Paths declared with [trim: true] are trimmed. *)
Definition apply_update (r : UpdateBody) (st : option Status) (b : Blog) : Blog :=
  let b := assign set_title (trim <$> u_title r) b in
  let b := assign set_slug (Some <$> u_slug r) b in
  let b := assign set_content (u_content r) b in
  let b := assign set_excerpt (u_excerpt r) b in
  let b := assign set_author (u_author r) b in
  let b := assign set_status st b in
  let b := assign set_category (u_category r) b in
  let b := assign set_tags (map trim <$> u_tags r) b in
  let b := assign set_featuredImage (u_featuredImage r) b in
  let b := assign set_readTime (u_readTime r) b in
  let b := assign set_views (u_views r) b in
  let b := assign set_likes (u_likes r) b in
  let b := assign set_comments (u_comments r) b in
  let b := assign set_shares (u_shares r) b in
  let b := assign set_isFeatured (u_isFeatured r) b in
  let b := assign set_isTrending (u_isTrending r) b in
  let b := assign set_publishedAt (Some <$> u_publishedAt r) b in
  let b := assign set_approvedBy (Some <$> u_approvedBy r) b in
  let b := assign set_approvedAt (Some <$> u_approvedAt r) b in
  let b := assign set_rejectionReason (Some <$> u_rejectionReason r) b in
  let b := assign set_uniqueVisitors (u_uniqueVisitors r) b in
  b.

(** Casting the [status] of an update: absent, a member of the enum, or
    [None] when the string is not in the enum. *)
Definition cast_status (o : option string) : option (option Status) :=
  match o with
  | None => Some None
  | Some s => Some <$> status_of_string s
  end.

Section Handlers.

(** [new RegExp(pattern, 'i')] and its [test]: [None] when the constructor
    throws on the pattern. *)
Variable RegExp_i : string -> option (string -> bool).

(** [isURL] of express-validator. *)
Variable isURL : string -> bool.

(** The order in which the database returns documents for a sort
    document. *)
Variable db_sort : SortSpec -> list (ObjectId * Blog) -> list (ObjectId * Blog).

(** The schema validators that [runValidators: true] runs on an update. *)
Variable update_validators : UpdateBody -> bool.

(** *** GET /api/blogs *)

Definition validate_list (q : ListQuery) : list string :=
  expect (match q_page q with Some n => 1 <=? n | None => true end)
         "Page must be a positive integer"
  ++ expect (match q_limit q with Some n => (1 <=? n) && (n <=? 50) | None => true end)
            "Limit must be between 1 and 50"
  ++ expect (match q_sort q with
             | Some s => bool_decide (s ∈ ["latest"; "popular"; "trending"]%string)
             | None => true
             end)
            "Sort must be latest, popular, or trending".

Definition sort_of (s : option string) : SortSpec :=
  match s with
  | Some "popular"%string => [(by_views, -1); (by_likes_length, -1)]
  | Some "trending"%string =>
      [(by_uniqueVisitors, -1); (by_likes_length, -1); (by_comments_length, -1)]
  | _ => [(by_publishedAt, -1)]
  end.

(** The filter of the listing, or [None] when the search pattern does not
    compile. *)
Definition filter_of (q : ListQuery) : option Filter :=
  let cat := if truthy (q_category q) then q_category q else None in
  if truthy (q_search q) then
    match RegExp_i (default EmptyString (q_search q)) with
    | Some re => Some (mkFilter published cat (Some re))
    | None => None
    end
  else Some (mkFilter published cat None).

Definition list_blogs (q : ListQuery) (w : World) : Reply * World :=
  run w (
    let* _ := no_errors (validate_list q) in
    let page := parseInt_or (q_page q) 1 in
    let limit := parseInt_or (q_limit q) 10 in
    let skip := (page - 1) * limit in
    match filter_of q with
    | None => inl (Thrown "SyntaxError")
    | Some filter =>
        let sort := sort_of (q_sort q) in
        let found_blogs :=
          map select_minus_content
            (take (Z.to_nat limit) (drop (Z.to_nat skip) (db_sort sort (find_all filter w)))) in
        let total := countDocuments filter w in
        let totalPages := Math_ceil_div total limit in
        let* data := res_json_docs found_blogs in
        inr (Success 200
               (Data_page data
                  (mkPagination page totalPages total (page <? totalPages) (1 <? page))),
             w)
    end).

(** *** GET /api/blogs/:slug *)

Definition get_by_slug (clk : Clock) (a : Authorization) (s : string) (w : World)
  : Reply * World :=
  let req_user := optionalAuth w a in
  run w (
    let* (id, blog) :=
      found (findOne (fun b => bool_decide (slug b = Some s)
                               && bool_decide (status b = published)) w)
            "Blog not found" in
    match req_user with
    | Some _ =>
        let* (blog, w) := save (clk 0%nat) id (mkDoc (Some blog) (incrementViews blog)) w in
        inr (Success 200 (Data_blog (Some blog)), w)
    | None => inr (Success 200 (Data_blog (Some blog)), w)
    end).

(** *** POST /api/blogs *)

Definition validate_create (r : CreateBody) : list string :=
  expect (isLength 10 (Some 200%nat) (c_title r))
         "Title must be between 10 and 200 characters"
  ++ expect (isLength 100 None (c_content r))
            "Content must be at least 100 characters long"
  ++ expect (isLength 10 (Some 300%nat) (c_excerpt r))
            "Excerpt must be between 10 and 300 characters"
  ++ expect (bool_decide (c_category r ∈ categories)) "Invalid category"
  ++ expect (match c_tags r with Some l => (length l <=? 10)%nat | None => true end)
            "Tags must be an array with maximum 10 items"
  ++ expect (forallb (isLength 1 (Some 20%nat)) (default [] (c_tags r)))
            "Each tag must be between 1 and 20 characters"
  ++ expect (match c_featuredImage r with Some s => isURL s | None => true end)
            "Featured image must be a valid URL".

(** The document built by [Blog.create] from the body, with the defaults
    of the schema. *)
Definition new_blog (r : CreateBody) (owner : ObjectId) : Blog :=
  mkBlog (trim (c_title r)) None (c_content r) (c_excerpt r) owner pending
    (c_category r) (map trim (default [] (c_tags r)))
    (default EmptyString (c_featuredImage r))
    0 0 [] [] 0 false false None None None None 0.

(** [fresh_id] is the [_id] the driver gives the new document. *)
Definition create (clk : Clock) (fresh_id : ObjectId) (a : Authorization)
    (r : CreateBody) (w : World) : Reply * World :=
  run w (
    let* (uid, _) := protect w a in
    let* _ := no_errors (validate_create r) in
    let* (_, w) := Blog_create (clk 0%nat) fresh_id (new_blog r uid) w in
    inr (Success 201 (Data_blog (blogs w !! fresh_id)), w)).

(** *** PUT /api/blogs/:id *)

Definition validate_update (r : UpdateBody) : list string :=
  expect (match u_title r with Some s => isLength 10 (Some 200%nat) s | None => true end)
         "Title must be between 10 and 200 characters"
  ++ expect (match u_content r with Some s => isLength 100 None s | None => true end)
            "Content must be at least 100 characters long"
  ++ expect (match u_excerpt r with Some s => isLength 10 (Some 300%nat) s | None => true end)
            "Excerpt must be between 10 and 300 characters"
  ++ expect (match u_category r with Some s => bool_decide (s ∈ categories) | None => true end)
            "Invalid category"
  ++ expect (match u_tags r with Some l => (length l <=? 10)%nat | None => true end)
            "Tags must be an array with maximum 10 items"
  ++ expect (match u_featuredImage r with Some s => isURL s | None => true end)
            "Featured image must be a valid URL".

(** [Blog.findByIdAndUpdate(id, body, { new: true, runValidators: true })]:
    an error, or the updated document ([None] when there is none with
    this id) and the database. *)
Definition findByIdAndUpdate (id : ObjectId) (r : UpdateBody) (w : World)
  : Reply + option Blog * World :=
  match cast_status (u_status r) with
  | None => inl (Thrown "ValidationError")
  | Some st =>
      if negb (update_validators r) then inl (Thrown "ValidationError")
      else
        match blogs w !! id with
        | None => inr (None, w)
        | Some b =>
            if match u_slug r with
               | Some s => slug_taken id (Some s) w
               | None => false
               end
            then inl (Thrown "E11000 duplicate key error")
            else
              let b' := apply_update r st b in
              inr (Some b', set_blogs (<[id := b']> (blogs w)) w)
        end
  end.

Definition update (a : Authorization) (id : ObjectId) (r : UpdateBody) (w : World)
  : Reply * World :=
  run w (
    let* (uid, caller) := protect w a in
    let* _ := no_errors (validate_update r) in
    let* blog := found (blogs w !! id) "Blog not found" in
    let* _ := require (negb (negb (bool_decide (role caller = admin))
                             && negb (N.eqb (author blog) uid)))
                      (Failure 403 "Not authorized to update this blog") in
    let r := if bool_decide (status blog = published) then set_u_status "pending" r else r in
    let* (updatedBlog, w) := findByIdAndUpdate id r w in
    inr (Success 200 (Data_blog updatedBlog), w)).

(** *** DELETE /api/blogs/:id *)

Definition remove (a : Authorization) (id : ObjectId) (w : World) : Reply * World :=
  run w (
    let* (uid, caller) := protect w a in
    let* blog := found (blogs w !! id) "Blog not found" in
    let* _ := require (negb (negb (bool_decide (role caller = admin))
                             && negb (N.eqb (author blog) uid)))
                      (Failure 403 "Not authorized to delete this blog") in
    inr (Success 200 Data_none, set_blogs (delete id (blogs w)) w)).

(** *** POST /api/blogs/:id/like *)

Definition like (clk : Clock) (a : Authorization) (id : ObjectId) (w : World)
  : Reply * World :=
  run w (
    let* (uid, _) := protect w a in
    let* blog := found (blogs w !! id) "Blog not found" in
    let* _ := require (bool_decide (status blog = published))
                      (Failure 400 "Cannot like unpublished blog") in
    let* (blog, w) := save (clk 0%nat) id (mkDoc (Some blog) (toggleLike uid blog)) w in
    inr (Success 200 (Data_like (Z.of_nat (length (likes blog)))
                                (bool_decide (uid ∈ likes blog))), w)).

(** *** POST /api/blogs/:id/comments *)

Definition comment (clk : Clock) (a : Authorization) (id : ObjectId) (text : string)
    (w : World) : Reply * World :=
  run w (
    let* (uid, _) := protect w a in
    let* _ := no_errors (expect (isLength 1 (Some 1000%nat) text)
                                "Comment must be between 1 and 1000 characters") in
    let* blog := found (blogs w !! id) "Blog not found" in
    let* _ := require (bool_decide (status blog = published))
                      (Failure 400 "Cannot comment on unpublished blog") in
    let* (_, w) := save (clk 0%nat) id (mkDoc (Some blog) (addComment uid text blog)) w in
    inr (Success 200 (Data_blog (blogs w !! id)), w)).

End Handlers.

End BlogRoutes.

(** A value of a request body of which the route only asks whether it is
    a string. *)
Inductive BodyValue : Type :=
| IsString (s : string)
| NotString.

Definition isString (v : BodyValue) : bool :=
  match v with
  | IsString _ => true
  | NotString => false
  end.

(** ** routes/admin.js

    Every route of this router runs behind [protect] and [admin]. *)

Module AdminRoutes.

Definition admin_caller (w : World) (a : Authorization) : Reply + ObjectId * User :=
  let* caller := protect w a in
  let* _ := admin_only caller in
  inr caller.

(** utils/emailService.js: [createTransporter] calls
    [nodemailer.createTransporter].  The mailer library exports
    [createTransport]; under the name used here there is nothing to call,
    and the call throws a TypeError. *)
Definition createTransporter : option unit := None.

(** [sendBlogStatusEmail]: the transporter is made first; any failure is
    logged and thrown again. *)
Definition sendBlogStatusEmail (m : Mail) (w : World) : option World :=
  match createTransporter with
  | Some _ => Some (send m w)
  | None => None
  end.

(** The notification to the author, inside [try]/[catch]: a failure (no
    such author, or a throwing mail call) is logged and the handler goes
    on. *)
Definition notify (b : Blog) (k : MailKind) (reason : option string) (w : World) : World :=
  match users w !! author b with
  | Some au =>
      default w (sendBlogStatusEmail (mkMail (email au) (firstName au) (title b) k reason) w)
  | None => w
  end.

(** *** PUT /api/admin/blogs/:id/approve

    The optional [feedback] of the body is checked to be a string and is
    not used after that. *)
Definition approve (clk : Clock) (a : Authorization) (id : ObjectId)
    (feedback : option BodyValue) (w : World) : Reply * World :=
  run w (
    let* (uid, _) := admin_caller w a in
    let* _ := no_errors (expect (match feedback with
                                 | Some v => isString v
                                 | None => true
                                 end)
                                "Feedback must be a string") in
    let* blog := found (blogs w !! id) "Blog not found" in
    let* _ := require (bool_decide (status blog = pending))
                      (Failure 400 "Blog is not pending approval") in
    let doc := set_status published blog in
    let doc := set_publishedAt (Some (clk 0%nat)) doc in
    let doc := set_approvedBy (Some uid) doc in
    let doc := set_approvedAt (Some (clk 1%nat)) doc in
    let* (blog', w) := save (clk 2%nat) id (mkDoc (Some blog) doc) w in
    let w := notify blog' approved None w in
    inr (Success 200 (Data_blog (Some blog')), w)).

(** *** PUT /api/admin/blogs/:id/reject *)

Definition reject (clk : Clock) (a : Authorization) (id : ObjectId)
    (rejection : option string) (w : World) : Reply * World :=
  run w (
    let* _ := admin_caller w a in
    let* _ := no_errors (expect (isLength 10 (Some 500%nat) (default EmptyString rejection))
                                "Rejection reason must be between 10 and 500 characters") in
    let* blog := found (blogs w !! id) "Blog not found" in
    let* _ := require (bool_decide (status blog = pending))
                      (Failure 400 "Blog is not pending approval") in
    let doc := set_status rejected blog in
    let doc := set_rejectionReason rejection doc in
    let* (blog', w) := save (clk 0%nat) id (mkDoc (Some blog) doc) w in
    let w := notify blog' rejected_mail rejection w in
    inr (Success 200 (Data_blog (Some blog')), w)).

(** *** PUT /api/admin/blogs/:id/toggle-visibility
    ("Hide/Unhide published blog") *)

Definition toggle_visibility (clk : Clock) (a : Authorization) (id : ObjectId)
    (w : World) : Reply * World :=
  run w (
    let* _ := admin_caller w a in
    let* blog := found (blogs w !! id) "Blog not found" in
    let* _ := require (bool_decide (status blog = published))
                      (Failure 400 "Can only toggle visibility of published blogs") in
    let doc :=
      set_status (if bool_decide (status blog = published) then hidden else published)
                 blog in
    let doc :=
      if bool_decide (status doc = published)
      then set_publishedAt (Some (clk 0%nat)) doc else doc in
    let* (blog', w) := save (clk 1%nat) id (mkDoc (Some blog) doc) w in
    inr (Success 200 (Data_blog (Some blog')), w)).

(** *** DELETE /api/admin/blogs/:id *)

Definition remove (a : Authorization) (id : ObjectId) (w : World) : Reply * World :=
  run w (
    let* _ := admin_caller w a in
    let* _ := found (blogs w !! id) "Blog not found" in
    inr (Success 200 Data_none, set_blogs (delete id (blogs w)) w)).

(** *** PUT /api/admin/users/:id/toggle-status *)

Definition toggle_status (a : Authorization) (id : ObjectId) (w : World)
  : Reply * World :=
  run w (
    let* (uid, _) := admin_caller w a in
    let* target := found (users w !! id) "User not found" in
    let* _ := require (negb (N.eqb id uid))
                      (Failure 400 "Cannot deactivate your own account") in
    let target := set_isActive (negb (isActive target)) target in
    inr (Success 200 (Data_user target), set_users (<[id := target]> (users w)) w)).

(** *** PUT /api/admin/users/:id/role *)

Definition change_role (a : Authorization) (id : ObjectId) (new_role : string)
    (w : World) : Reply * World :=
  run w (
    let* (uid, _) := admin_caller w a in
    match role_of_string new_role with
    | None => inl (ValidationErrors ["Role must be user or admin"%string])
    | Some r =>
        let* target := found (users w !! id) "User not found" in
        let* _ := require (negb (N.eqb id uid))
                          (Failure 400 "Cannot change your own role") in
        let target := set_role r target in
        inr (Success 200 (Data_user target), set_users (<[id := target]> (users w)) w)
    end).

End AdminRoutes.

(** ** The requests that write

    One constructor for each route of the blog router and of the admin
    router that writes to a collection.  The read-only routes of the two
    routers (the listings, the dashboard and the analytics) are not
    requests of this type. *)

Inductive Request : Type :=
| ReqGetBySlug (s : string)
| ReqCreate (fresh_id : ObjectId) (r : BlogRoutes.CreateBody)
| ReqUpdate (id : ObjectId) (r : BlogRoutes.UpdateBody)
| ReqDelete (id : ObjectId)
| ReqLike (id : ObjectId)
| ReqAddComment (id : ObjectId) (text : string)
| ReqApprove (id : ObjectId) (feedback : option BodyValue)
| ReqReject (id : ObjectId) (rejection : option string)
| ReqToggleVisibility (id : ObjectId)
| ReqAdminDelete (id : ObjectId)
| ReqToggleStatus (id : ObjectId)
| ReqChangeRole (id : ObjectId) (new_role : string).

Section Server.

Variable isURL : string -> bool.
Variable update_validators : BlogRoutes.UpdateBody -> bool.

Definition handle (clk : Clock) (a : Authorization) (rq : Request) (w : World)
  : Reply * World :=
  match rq with
  | ReqGetBySlug s => BlogRoutes.get_by_slug clk a s w
  | ReqCreate fresh_id r => BlogRoutes.create isURL clk fresh_id a r w
  | ReqUpdate id r => BlogRoutes.update isURL update_validators a id r w
  | ReqDelete id => BlogRoutes.remove a id w
  | ReqLike id => BlogRoutes.like clk a id w
  | ReqAddComment id text => BlogRoutes.comment clk a id text w
  | ReqApprove id feedback => AdminRoutes.approve clk a id feedback w
  | ReqReject id rejection => AdminRoutes.reject clk a id rejection w
  | ReqToggleVisibility id => AdminRoutes.toggle_visibility clk a id w
  | ReqAdminDelete id => AdminRoutes.remove a id w
  | ReqToggleStatus id => AdminRoutes.toggle_status a id w
  | ReqChangeRole id new_role => AdminRoutes.change_role a id new_role w
  end.

End Server.

(** ** Sample data *)

Module Sample.

Definition alice : User := mkUser "alice@example.org" "Alice" admin true.
Definition bob : User := mkUser "bob@example.org" "Bob" user true.

(** One hundred words of one letter, 199 characters. *)
Definition text : string :=
  "x x x x x x x x x x x x x x x x x x x x x x x x x x x x x x x x x x x x x x x x x x x x x x x x x x x x x x x x x x x x x x x x x x x x x x x x x x x x x x x x x x x x x x x x x x x x x x x x x x x x".

Definition post (st : Status) (published_at : option Date) (liked_by : list ObjectId) : Blog :=
  mkBlog "A brand new beginning for all" (Some "a-brand-new-beginning-for-all"%string)
    text "short excerpt text here" 2%N st "Technology" [] EmptyString 1 5 liked_by [] 0
    false false published_at None None None 0.

(** A post as it can also sit in the collection: its content is shorter
    than the schema allows. *)
Definition short_post (st : Status) : Blog :=
  set_content "x x x" (post st None []).

(** Alice (id 1) is the admin, Bob (id 2) the author of post 7. *)
Definition world (st : Status) (published_at : option Date) (liked_by : list ObjectId) : World :=
  mkWorld {[ 7%N := post st published_at liked_by ]}
          (<[ 1%N := alice ]> {[ 2%N := bob ]}) [].

Definition clock : Clock := fun k => 1000 + Z.of_nat k.

End Sample.

(** * Notions used in the statements *)

(** The document that approve stores. *)
Definition approved_by (uid : ObjectId) (clk : Clock) (b : Blog) : Blog :=
  set_approvedAt (Some (clk 1%nat))
    (set_approvedBy (Some uid)
       (set_publishedAt (Some (clk 0%nat)) (set_status published b))).

(** A reply other than a success. *)
Definition is_failure (r : Reply) : bool :=
  match r with
  | Success _ _ => false
  | _ => true
  end.

(** The filter of the single-post route. *)
Definition published_with_slug (s : string) (b : Blog) : bool :=
  bool_decide (slug b = Some s) && bool_decide (status b = published).

(** The array operation behind [toggleLike]. *)
Definition toggle_in (u : ObjectId) (l : list ObjectId) : list ObjectId :=
  if indexOf l u =? -1 then l ++ [u] else delete (Z.to_nat (indexOf l u)) l.

(** The pieces of a text between the characters outside [a-z0-9], the
    empty ones included. *)
Fixpoint pieces (l : list ascii) : list (list ascii) :=
  match l with
  | [] => [[]]
  | c :: r =>
      if is_lower_or_digit c then
        match pieces r with
        | w :: ws => (c :: w) :: ws
        | [] => [[c]]
        end
      else [] :: pieces r
  end.

(** [l.length === 0] *)
Definition is_nil {A : Type} (l : list A) : bool :=
  match l with
  | [] => true
  | _ :: _ => false
  end.

(** [ws.join('-')] *)
Fixpoint join_hyphen (ws : list (list ascii)) : list ascii :=
  match ws with
  | [] => []
  | w :: tl =>
      match tl with
      | [] => w
      | _ :: _ => w ++ "-"%char :: join_hyphen tl
      end
  end.

(** The maximal runs of characters in [a-z0-9]. *)
Definition words (l : list ascii) : list (list ascii) :=
  List.filter (fun w => negb (is_nil w)) (pieces l).

(** The words of the lower-cased title, as the hook lower-cases it,
    joined by single hyphens. *)
Definition slug_of_words (t : string) : string :=
  string_of_list_ascii
    (join_hyphen (words (map toLowerCase_ascii (list_ascii_of_string t)))).

(** The slug in the words of the data model, to be compared with
    [slugify]: the title in lower case, every run of non-alphanumeric
    characters collapsed to one separator, no separator at either end.
    Lower case and alphanumeric are spelled out letter by letter here. *)
Definition lower_case (c : ascii) : ascii :=
  match c with
  | "A" => "a" | "B" => "b" | "C" => "c" | "D" => "d" | "E" => "e"
  | "F" => "f" | "G" => "g" | "H" => "h" | "I" => "i" | "J" => "j"
  | "K" => "k" | "L" => "l" | "M" => "m" | "N" => "n" | "O" => "o"
  | "P" => "p" | "Q" => "q" | "R" => "r" | "S" => "s" | "T" => "t"
  | "U" => "u" | "V" => "v" | "W" => "w" | "X" => "x" | "Y" => "y"
  | "Z" => "z"
  | _ => c
  end%char.

Definition alphanumeric (c : ascii) : bool :=
  match c with
  | "a" | "b" | "c" | "d" | "e" | "f" | "g" | "h" | "i" | "j" | "k" | "l"
  | "m" | "n" | "o" | "p" | "q" | "r" | "s" | "t" | "u" | "v" | "w" | "x"
  | "y" | "z" | "0" | "1" | "2" | "3" | "4" | "5" | "6" | "7" | "8" | "9" => true
  | _ => false
  end%char.

(** The maximal runs of alphanumeric characters of a text: [cur] is the
    run being read, in reverse. *)
Fixpoint runs (cur : list ascii) (l : list ascii) : list (list ascii) :=
  match l with
  | [] => match cur with [] => [] | _ :: _ => [rev cur] end
  | c :: r =>
      if alphanumeric c then runs (c :: cur) r
      else match cur with
           | [] => runs [] r
           | _ :: _ => rev cur :: runs [] r
           end
  end.

Definition spec_slug (t : string) : string :=
  string_of_list_ascii
    (join_hyphen (runs [] (map lower_case (list_ascii_of_string t)))).

(** What [replace_runs] writes, piece by piece: a hyphen after every piece
    but the last, except after an empty piece inside a run. *)
Fixpoint render (in_run : bool) (ps : list (list ascii)) : list ascii :=
  match ps with
  | [] => []
  | w :: tl =>
      match tl with
      | [] => w
      | _ :: _ => w ++ (if in_run && is_nil w then [] else ["-"%char]) ++ render true tl
      end
  end.

(** A word of the slug alphabet. *)
Definition alnum_only (w : list ascii) : Prop :=
  Forall (fun c => is_lower_or_digit c = true) w.

(** No post that is in both databases has changed its slug. *)
Definition slug_kept (w w' : World) : Prop :=
  forall id b b', blogs w !! id = Some b -> blogs w' !! id = Some b' -> slug b' = slug b.

(** * Notions used in the further properties *)

(** The body that the update route hands to the database: for a published
    post the status is overwritten first. *)
Definition effective_body (b : Blog) (r : BlogRoutes.UpdateBody) : BlogRoutes.UpdateBody :=
  if bool_decide (status b = published) then BlogRoutes.set_u_status "pending" r else r.

(** What one request can make of an existing post [b] with id [id]. *)
Definition post_change (clk : Clock) (a : Authorization) (rq : Request)
    (id : ObjectId) (b b' : Blog) : Prop :=
  b' = b
  \/ match rq with
     | ReqGetBySlug s =>
         slug b = Some s /\ status b = published /\ validate b = true
         /\ b' = incrementViews b
     | ReqUpdate i r =>
         i = id /\ exists st,
           BlogRoutes.cast_status (BlogRoutes.u_status (effective_body b r)) = Some st
           /\ b' = BlogRoutes.apply_update (effective_body b r) st b
     | ReqLike i =>
         i = id /\ status b = published /\ validate b = true
         /\ exists uid, a = ValidToken uid /\ b' = toggleLike uid b
     | ReqAddComment i text =>
         i = id /\ status b = published
         /\ exists uid, a = ValidToken uid /\ validate (addComment uid text b) = true
                        /\ b' = addComment uid text b
     | ReqApprove i _ =>
         i = id /\ status b = pending /\ validate b = true
         /\ exists uid, a = ValidToken uid /\ b' = approved_by uid clk b
     | ReqReject i rejection =>
         i = id /\ status b = pending
         /\ validate (set_rejectionReason rejection (set_status rejected b)) = true
         /\ b' = set_rejectionReason rejection (set_status rejected b)
     | ReqToggleVisibility i =>
         i = id /\ status b = published /\ validate b = true
         /\ b' = set_status hidden b
     | _ => False
     end.

(** The caller is an existing, active user: the condition of [protect]. *)
Definition active_caller (w : World) (a : Authorization) : Prop :=
  exists uid u, a = ValidToken uid /\ users w !! uid = Some u /\ isActive u = true.

(** The requests served by the admin router. *)
Definition is_admin_request (rq : Request) : bool :=
  match rq with
  | ReqApprove _ _ | ReqReject _ _ | ReqToggleVisibility _ | ReqAdminDelete _
  | ReqToggleStatus _ | ReqChangeRole _ _ => true
  | _ => false
  end.

(** The requests whose routes are registered with [protect]: create,
    update, delete, like and comment in the blog router, and the whole
    admin router.  The fetch by slug runs behind [optionalAuth]. *)
Definition behind_protect (rq : Request) : bool :=
  match rq with
  | ReqCreate _ _ | ReqUpdate _ _ | ReqDelete _ | ReqLike _ | ReqAddComment _ _
  | ReqApprove _ _ | ReqReject _ _ | ReqToggleVisibility _ | ReqAdminDelete _
  | ReqToggleStatus _ | ReqChangeRole _ _ => true
  | ReqGetBySlug _ => false
  end.


(** The post with id [id] is the only published post with slug [s]. *)
Definition only_published_with_slug (s : string) (id : ObjectId) (w : World) : Prop :=
  forall j c, blogs w !! j = Some c -> slug c = Some s -> status c = published -> j = id.

(** The entries of a page of a listing reply; none for any other reply. *)
Definition page_entries (r : Reply) : list (ObjectId * Blog) :=
  match r with
  | Success _ (Data_page data _) => data
  | _ => []
  end.

(** The shape of a slug, read from left to right: characters of [a-z0-9]
    and single hyphens, a hyphen only after a character of [a-z0-9] and
    never last.  [after_hyphen] tells that a hyphen may not come next. *)
Fixpoint slug_shape (after_hyphen : bool) (l : list ascii) : bool :=
  match l with
  | [] => negb after_hyphen
  | c :: r =>
      if is_lower_or_digit c then slug_shape false r
      else Ascii.eqb c "-" && negb after_hyphen && slug_shape true r
  end.

(** The empty text, or one or more words of [a-z0-9] joined by single
    hyphens. *)
Definition is_slug (t : string) : bool :=
  match list_ascii_of_string t with
  | [] => true
  | l => slug_shape true l
  end.

(** ** routes/users.js

    Every route of this router runs behind [protect].  The routes that
    read or write the blog collection are modelled; the profile routes
    work on paths of the user document that are not in the record. *)

Module UserRoutes.

Record MyBlogsQuery : Type := mkMyBlogsQuery {
  m_page : option Z;
  m_limit : option Z;
  m_status : option string;
  m_category : option string
}.

(** The filter [{ author, status?, category? }] of the caller's listing. *)
Definition own_filter (uid : ObjectId) (q : MyBlogsQuery) (b : Blog) : bool :=
  N.eqb (author b) uid
  && (if truthy (m_status q)
      then match status_of_string (default EmptyString (m_status q)) with
           | Some st => bool_decide (status b = st)
           | None => false
           end
      else true)
  && (if truthy (m_category q)
      then String.eqb (category b) (default EmptyString (m_category q))
      else true).

(** A query value is a string, so the [isString] check of [category]
    cannot fail. *)
Definition validate_my_blogs (q : MyBlogsQuery) : list string :=
  expect (match m_page q with Some n => 1 <=? n | None => true end)
         "Page must be a positive integer"
  ++ expect (match m_limit q with Some n => (1 <=? n) && (n <=? 50) | None => true end)
            "Limit must be between 1 and 50"
  ++ expect (match m_status q with
             | Some s => bool_decide (is_Some (status_of_string s))
             | None => true
             end)
            "Invalid status".

(** The query of the two listings of posts the caller has engaged with. *)
Record PageQuery : Type := mkPageQuery {
  p_page : option Z;
  p_limit : option Z
}.

Definition validate_page (q : PageQuery) : list string :=
  expect (match p_page q with Some n => 1 <=? n | None => true end)
         "Page must be a positive integer"
  ++ expect (match p_limit q with Some n => (1 <=? n) && (n <=? 50) | None => true end)
            "Limit must be between 1 and 50".

(** The filter [{ likes: uid, status: 'published' }]: an array path matches
    when one of its elements does. *)
Definition liked_filter (uid : ObjectId) (b : Blog) : bool :=
  bool_decide (uid ∈ likes b) && bool_decide (status b = published).

(** The filter [{ 'comments.user': uid, status: 'published' }]. *)
Definition commented_filter (uid : ObjectId) (b : Blog) : bool :=
  existsb (fun c => N.eqb (comment_user c) uid) (comments b)
  && bool_decide (status b = published).

Section Handlers.

(** The order in which the database returns documents for the sort
    document [{ updatedAt: -1 }]. *)
Variable db_sort_updatedAt : list (ObjectId * Blog) -> list (ObjectId * Blog).

(** The order in which the database returns documents for the sort
    document [{ createdAt: -1 }]. *)
Variable db_sort_createdAt : list (ObjectId * Blog) -> list (ObjectId * Blog).

(** [user.comparePassword(password)], a method of the user model. *)
Variable comparePassword : User -> string -> bool.

(** *** GET /api/users/blogs *)

Definition my_blogs (a : Authorization) (q : MyBlogsQuery) (w : World) : Reply * World :=
  run w (
    let* (uid, _) := protect w a in
    let* _ := no_errors (validate_my_blogs q) in
    let page := parseInt_or (m_page q) 1 in
    let limit := parseInt_or (m_limit q) 10 in
    let skip := (page - 1) * limit in
    let matching :=
      List.filter (fun ib => own_filter uid q (snd ib)) (map_to_list (blogs w)) in
    let found_blogs :=
      map fetched
        (take (Z.to_nat limit) (drop (Z.to_nat skip) (db_sort_createdAt matching))) in
    let total := Z.of_nat (length matching) in
    let totalPages := Math_ceil_div total limit in
    let* data := res_json_docs found_blogs in
    inr (Success 200
           (Data_page data
              (mkPagination page totalPages total (page <? totalPages) (1 <? page))),
         w)).

(** *** GET /api/users/blogs/:id *)

Definition my_blog (a : Authorization) (id : ObjectId) (w : World) : Reply * World :=
  run w (
    let* (uid, _) := protect w a in
    let* blog :=
      found (match blogs w !! id with
             | Some b => if N.eqb (author b) uid then Some b else None
             | None => None
             end)
            "Blog not found" in
    inr (Success 200 (Data_blog (Some blog)), w)).

(** *** GET /api/users/liked-blogs *)

Definition liked_blogs (a : Authorization) (q : PageQuery) (w : World) : Reply * World :=
  run w (
    let* (uid, _) := protect w a in
    let* _ := no_errors (validate_page q) in
    let page := parseInt_or (p_page q) 1 in
    let limit := parseInt_or (p_limit q) 10 in
    let skip := (page - 1) * limit in
    let matching :=
      List.filter (fun ib => liked_filter uid (snd ib)) (map_to_list (blogs w)) in
    let likedBlogs :=
      map select_minus_content
        (take (Z.to_nat limit) (drop (Z.to_nat skip) (db_sort_updatedAt matching))) in
    let total := Z.of_nat (length matching) in
    let totalPages := Math_ceil_div total limit in
    let* data := res_json_docs likedBlogs in
    inr (Success 200
           (Data_page data
              (mkPagination page totalPages total (page <? totalPages) (1 <? page))),
         w)).

(** *** GET /api/users/commented-blogs *)

Definition commented_blogs (a : Authorization) (q : PageQuery) (w : World)
  : Reply * World :=
  run w (
    let* (uid, _) := protect w a in
    let* _ := no_errors (validate_page q) in
    let page := parseInt_or (p_page q) 1 in
    let limit := parseInt_or (p_limit q) 10 in
    let skip := (page - 1) * limit in
    let matching :=
      List.filter (fun ib => commented_filter uid (snd ib)) (map_to_list (blogs w)) in
    let commentedBlogs :=
      map select_minus_content
        (take (Z.to_nat limit) (drop (Z.to_nat skip) (db_sort_updatedAt matching))) in
    let total := Z.of_nat (length matching) in
    let totalPages := Math_ceil_div total limit in
    let* data := res_json_docs commentedBlogs in
    inr (Success 200
           (Data_page data
              (mkPagination page totalPages total (page <? totalPages) (1 <? page))),
         w)).

(** *** DELETE /api/users/account *)

(** [Blog.deleteMany({ author })] *)
Definition deleteMany_by_author (uid : ObjectId) (m : gmap ObjectId Blog)
  : gmap ObjectId Blog :=
  filter (fun ib : ObjectId * Blog => author (snd ib) <> uid) m.

Definition delete_account (a : Authorization) (password : option string) (w : World)
  : Reply * World :=
  run w (
    let* (uid, _) := protect w a in
    let* _ := no_errors (expect (truthy password)
                                "Password is required for account deletion") in
    match users w !! uid with
    | None => inl (Thrown "TypeError")
    | Some account =>
        let* _ := require (comparePassword account (default EmptyString password))
                          (Failure 400 "Password is incorrect") in
        let w := set_blogs (deleteMany_by_author uid (blogs w)) w in
        let w := set_users (delete uid (users w)) w in
        inr (Success 200 Data_none, w)
    end).

End Handlers.

End UserRoutes.

(** * Properties *)

(** ** Middleware *)

Lemma admin_caller_inv (w : World) (a : Authorization) (uid : ObjectId) (u : User) :
  AdminRoutes.admin_caller w a = inr (uid, u) ->
  a = ValidToken uid /\ users w !! uid = Some u /\ isActive u = true /\ role u = admin.
Proof.
  unfold AdminRoutes.admin_caller, protect, admin_only.
  destruct a as [| |i]; try discriminate.
  destruct (users w !! i) as [v|] eqn:Hu; try discriminate.
  destruct (isActive v) eqn:Hact; try discriminate.
  cbn. case_bool_decide; try discriminate.
  intros [= <- <-]. auto.
Qed.

(** ** Moderation: approve and reject *)

(** C1, as the code has it.  On a post whose status is not [pending],
    approve and reject answer 400 "Blog is not pending approval", the
    [InvalidState] condition, when the body is well formed: a feedback
    that is absent or a string, a rejection reason of 10 to 500
    characters.  The validators of the two routes run before the post is
    looked at, so a malformed body is answered with the validation errors
    instead.  Either way the database, with it the post, is exactly as
    before. *)
Theorem approve_reject_require_pending
    (clk : Clock) (a : Authorization) (caller : ObjectId * User) (id : ObjectId)
    (feedback : option BodyValue) (rejection : option string) (w : World) (b : Blog) :
  AdminRoutes.admin_caller w a = inr caller ->
  blogs w !! id = Some b ->
  status b <> pending ->
  let feedback_ok := match feedback with Some v => isString v | None => true end in
  let reason_ok := isLength 10 (Some 500%nat) (default EmptyString rejection) in
  AdminRoutes.approve clk a id feedback w
  = (if feedback_ok then Failure 400 "Blog is not pending approval"
     else ValidationErrors ["Feedback must be a string"%string], w)
  /\ AdminRoutes.reject clk a id rejection w
     = (if reason_ok then Failure 400 "Blog is not pending approval"
        else ValidationErrors
               ["Rejection reason must be between 10 and 500 characters"%string], w)
  /\ error_kind (fst (AdminRoutes.approve clk a id feedback w))
     = Some (if feedback_ok then InvalidState else ValidationFailed)
  /\ error_kind (fst (AdminRoutes.reject clk a id rejection w))
     = Some (if reason_ok then InvalidState else ValidationFailed)
  /\ blogs (snd (AdminRoutes.approve clk a id feedback w)) !! id = Some b
  /\ blogs (snd (AdminRoutes.reject clk a id rejection w)) !! id = Some b.
Proof.
  intros Hadm Hb Hst feedback_ok reason_ok.
  assert (Happ : AdminRoutes.approve clk a id feedback w
                 = (if feedback_ok then Failure 400 "Blog is not pending approval"
                    else ValidationErrors ["Feedback must be a string"%string], w)).
  { unfold AdminRoutes.approve. destruct caller as [uid u]. rewrite Hadm.
    fold feedback_ok. destruct feedback_ok; cbn; [|reflexivity].
    rewrite Hb. cbn. rewrite bool_decide_eq_false_2 by done. reflexivity. }
  assert (Hrej : AdminRoutes.reject clk a id rejection w
                 = (if reason_ok then Failure 400 "Blog is not pending approval"
                    else ValidationErrors
                           ["Rejection reason must be between 10 and 500 characters"%string],
                    w)).
  { unfold AdminRoutes.reject. rewrite Hadm.
    fold reason_ok. destruct reason_ok; cbn; [|reflexivity].
    rewrite Hb. cbn. rewrite bool_decide_eq_false_2 by done. reflexivity. }
  rewrite Happ, Hrej. cbn [fst snd].
  repeat split; try assumption.
  - by destruct feedback_ok.
  - by destruct reason_ok.
Qed.

Lemma approve_reject_require_pending_witness :
  let w := Sample.world draft None [] in
  AdminRoutes.approve Sample.clock (ValidToken 1%N) 7%N (Some (IsString "fine")) w
    = (Failure 400 "Blog is not pending approval", w)
  /\ AdminRoutes.reject Sample.clock (ValidToken 1%N) 7%N
       (Some "Needs more sources and citations"%string) w
     = (Failure 400 "Blog is not pending approval", w)
  /\ error_kind (fst (AdminRoutes.approve Sample.clock (ValidToken 1%N) 7%N
                        (Some NotString) w))
     = Some ValidationFailed.
Proof.
  intros w.
  destruct (approve_reject_require_pending Sample.clock (ValidToken 1%N) (1%N, Sample.alice)
              7%N (Some (IsString "fine")) (Some "Needs more sources and citations"%string)
              w (Sample.post draft None []))
    as (Ha & Hr & _); [reflexivity | reflexivity | discriminate |].
  destruct (approve_reject_require_pending Sample.clock (ValidToken 1%N) (1%N, Sample.alice)
              7%N (Some NotString) None w (Sample.post draft None []))
    as (_ & _ & Hk & _); [reflexivity | reflexivity | discriminate |].
  split; [exact Ha|]. split; [exact Hr | exact Hk].
Defined.

(** C1, as stated, fails: on a draft a rejection whose reason is too short
    is answered with the validation errors of the route, and an approval
    whose feedback is not a string likewise; neither is [InvalidState]. *)
Lemma reject_answers_validation_first_counterexample :
  ~ (forall (clk : Clock) (a : Authorization) (caller : ObjectId * User) (id : ObjectId)
            (feedback : option BodyValue) (rejection : option string) (w : World) (b : Blog),
        AdminRoutes.admin_caller w a = inr caller ->
        blogs w !! id = Some b ->
        status b <> pending ->
        error_kind (fst (AdminRoutes.approve clk a id feedback w)) = Some InvalidState
        /\ error_kind (fst (AdminRoutes.reject clk a id rejection w)) = Some InvalidState).
Proof.
  intros H.
  destruct (H Sample.clock (ValidToken 1%N) (1%N, Sample.alice) 7%N None
              (Some "too short"%string) (Sample.world draft None [])
              (Sample.post draft None [])) as (_ & Hr);
    [reflexivity | reflexivity | discriminate |].
  vm_compute in Hr. discriminate Hr.
Qed.

(** ** Saving a loaded document *)

Arguments save : simpl never.
Arguments pre_save : simpl never.
Arguments validate : simpl never.

(** Nothing is recomputed when a loaded document is saved with its title
    and content as loaded and either the status as loaded, a status other
    than [published], or a publish date already present. *)
Lemma pre_save_loaded (now : Date) (o b : Blog) :
  title b = title o ->
  content b = content o ->
  status b = status o \/ status b <> published \/ is_Some (publishedAt b) ->
  pre_save now (mkDoc (Some o) b) = b.
Proof.
  intros Ht Hc Hs. unfold pre_save, isModified. cbn.
  rewrite Ht, Hc, !String.eqb_refl. cbn.
  destruct Hs as [Hs | [Hs | Hs]].
  - rewrite Hs, bool_decide_eq_true_2 by done. reflexivity.
  - rewrite (bool_decide_eq_false_2 (status b = published)) by done.
    rewrite andb_false_r. reflexivity.
  - rewrite (bool_decide_eq_true_2 (is_Some (publishedAt b))) by done.
    rewrite andb_false_r. reflexivity.
Qed.

Lemma save_loaded (now : Date) (id : ObjectId) (o b : Blog) (w : World) :
  title b = title o ->
  content b = content o ->
  status b = status o \/ status b <> published \/ is_Some (publishedAt b) ->
  save now id (mkDoc (Some o) b) w
  = if validate b then inr (b, set_blogs (<[id := b]> (blogs w)) w)
    else inl (Thrown "ValidationError").
Proof.
  intros Ht Hc Hs. unfold save. cbn [cur]. rewrite pre_save_loaded by done. reflexivity.
Qed.

(** The validators look at the text paths, the rejection reason and the
    comments, and at nothing else. *)
Lemma validate_ext (b c : Blog) :
  title c = title b -> slug c = slug b -> content c = content b ->
  excerpt c = excerpt b -> category c = category b -> tags c = tags b ->
  rejectionReason c = rejectionReason b -> comments c = comments b ->
  validate c = validate b.
Proof.
  unfold validate. intros -> -> -> -> -> -> -> ->. reflexivity.
Qed.

(** ** Visibility *)

(** C2. The visibility toggle refuses every post that is not [published],
    a [hidden] one included: the reply is 400 "Can only toggle visibility
    of published blogs" and nothing is written.  On a [published] post it
    stores the post as [hidden], the publish date untouched, when the
    post passes the validation of the schema; when it does not, the save
    throws and nothing is written. *)
Theorem toggle_visibility_only_hides
    (clk : Clock) (a : Authorization) (caller : ObjectId * User) (id : ObjectId)
    (w : World) (b : Blog) :
  AdminRoutes.admin_caller w a = inr caller ->
  blogs w !! id = Some b ->
  (status b <> published ->
   AdminRoutes.toggle_visibility clk a id w
   = (Failure 400 "Can only toggle visibility of published blogs", w))
  /\ (status b = published ->
      AdminRoutes.toggle_visibility clk a id w
      = if validate b
        then (Success 200 (Data_blog (Some (set_status hidden b))),
              set_blogs (<[id := set_status hidden b]> (blogs w)) w)
        else (Thrown "ValidationError", w)).
Proof.
  intros Hadm Hb. unfold AdminRoutes.toggle_visibility. rewrite Hadm, Hb. cbn.
  split; intros Hst.
  - rewrite bool_decide_eq_false_2 by done. reflexivity.
  - rewrite !bool_decide_eq_true_2 by done. cbn.
    rewrite save_loaded by (cbn; auto).
    rewrite (bool_decide_eq_false_2 (hidden = published)) by discriminate.
    rewrite (validate_ext b (set_status hidden b)) by reflexivity.
    destruct (validate b); reflexivity.
Qed.

Lemma toggle_visibility_only_hides_witness :
  let w := Sample.world hidden (Some 500) [] in
  AdminRoutes.toggle_visibility Sample.clock (ValidToken 1%N) 7%N w
  = (Failure 400 "Can only toggle visibility of published blogs", w).
Proof.
  intros w.
  apply (toggle_visibility_only_hides Sample.clock (ValidToken 1%N) (1%N, Sample.alice)
           7%N w (Sample.post hidden (Some 500) [])).
  - reflexivity.
  - reflexivity.
  - discriminate.
Defined.

(** ** Approval *)

(** The mail call throws before a message is built, and the handler
    catches it: the notification leaves everything as it is. *)
Lemma notify_sends_nothing (b : Blog) (k : MailKind) (reason : option string) (w : World) :
  AdminRoutes.notify b k reason w = w.
Proof. unfold AdminRoutes.notify. destruct (users w !! author b); reflexivity. Qed.

Arguments AdminRoutes.notify : simpl never.

(** C5.  Approving a [pending] post that passes the validation of the
    schema stores it as [published] with the publish date, the approver
    and the approval date all set from this call, whether or not the post
    carried a publish date before: a date kept from an earlier publication
    is overwritten.  No other path of the post changes and no other post
    is touched.  The pre-save hook, given the change of status alone,
    would have kept a date that is there and set one that is missing.  A
    post that fails validation is not written. *)
Theorem approve_sets_publication_metadata
    (clk : Clock) (a : Authorization) (uid : ObjectId) (u : User) (id : ObjectId)
    (feedback : option BodyValue) (w : World) (b : Blog) :
  AdminRoutes.admin_caller w a = inr (uid, u) ->
  match feedback with Some v => isString v | None => true end = true ->
  blogs w !! id = Some b ->
  status b = pending ->
  let b' := approved_by uid clk b in
  let out := AdminRoutes.approve clk a id feedback w in
  (validate b = false -> out = (Thrown "ValidationError", w))
  /\ (validate b = true ->
      fst out = Success 200 (Data_blog (Some b'))
      /\ blogs (snd out) = <[id := b']> (blogs w)
      /\ users (snd out) = users w)
  /\ status b' = published
  /\ publishedAt b' = Some (clk 0%nat)
  /\ approvedBy b' = Some uid
  /\ approvedAt b' = Some (clk 1%nat)
  /\ b' = mkBlog (title b) (slug b) (content b) (excerpt b) (author b) published
            (category b) (tags b) (featuredImage b) (readTime b) (views b) (likes b)
            (comments b) (shares b) (isFeatured b) (isTrending b) (Some (clk 0%nat))
            (Some uid) (Some (clk 1%nat)) (rejectionReason b) (uniqueVisitors b)
  /\ forall now : Date,
       publishedAt (pre_save now (mkDoc (Some b) (set_status published b)))
       = Some (default now (publishedAt b)).
Proof.
  intros Hadm Hfb Hb Hst b' out. subst out.
  unfold AdminRoutes.approve. rewrite Hadm, Hfb, Hb. cbn.
  rewrite bool_decide_eq_true_2 by done. cbn.
  rewrite save_loaded by (cbn; eauto).
  fold (approved_by uid clk b). fold b'.
  rewrite (validate_ext b b') by reflexivity.
  split; [intros ->; reflexivity|].
  split.
  { intros ->. cbn. rewrite notify_sends_nothing. repeat split. }
  repeat split.
  intros now. unfold pre_save, isModified. cbn.
  rewrite !String.eqb_refl, Hst. cbn.
  rewrite (bool_decide_eq_false_2 (pending = published)) by discriminate.
  rewrite (bool_decide_eq_true_2 (published = published)) by reflexivity. cbn.
  destruct (publishedAt b) as [t|] eqn:E.
  - rewrite bool_decide_eq_true_2 by eauto. cbn. exact E.
  - rewrite bool_decide_eq_false_2 by (intros [? [=]]). reflexivity.
Qed.

Lemma approve_sets_publication_metadata_witness :
  let w := Sample.world pending (Some 500) [] in
  let b := Sample.post pending (Some 500) [] in
  let out := AdminRoutes.approve Sample.clock (ValidToken 1%N) 7%N None w in
  publishedAt b = Some 500
  /\ blogs (snd out) = <[7%N := approved_by 1%N Sample.clock b]> (blogs w)
  /\ publishedAt (approved_by 1%N Sample.clock b) = Some 1000
  /\ publishedAt (pre_save 1000 (mkDoc (Some b) (set_status published b))) = Some 500.
Proof.
  intros w b out.
  destruct (approve_sets_publication_metadata Sample.clock (ValidToken 1%N) 1%N Sample.alice
              7%N None w b) as (_ & Hok & _ & Hp & _ & _ & _ & Hhook);
    [reflexivity | reflexivity | reflexivity | reflexivity |].
  destruct Hok as (_ & Hblogs & _); [vm_compute; reflexivity|].
  split; [reflexivity|]. split; [exact Hblogs|]. split; [exact Hp|].
  apply (Hhook 1000).
Defined.

(** ** User management *)

(** C10. An admin who names their own account as the target gets an error
    from toggle-status and from change-role (whatever role is asked for),
    and the database, so their active flag and role, is as before.  For
    another existing user, toggle-status stores the user with the active
    flag negated and change-role stores the user with the requested role,
    the other fields of the user as they were; every other user is as
    before. *)
Theorem user_management_excludes_self
    (a : Authorization) (uid : ObjectId) (u : User) (w : World) :
  AdminRoutes.admin_caller w a = inr (uid, u) ->
  (AdminRoutes.toggle_status a uid w
     = (Failure 400 "Cannot deactivate your own account", w)
   /\ forall new_role : string,
        is_failure (fst (AdminRoutes.change_role a uid new_role w)) = true
        /\ snd (AdminRoutes.change_role a uid new_role w) = w
        /\ (is_Some (role_of_string new_role) ->
            AdminRoutes.change_role a uid new_role w
            = (Failure 400 "Cannot change your own role", w)))
  /\ forall (id : ObjectId) (t : User),
       id <> uid ->
       users w !! id = Some t ->
       let toggled := mkUser (email t) (firstName t) (role t) (negb (isActive t)) in
       AdminRoutes.toggle_status a id w
         = (Success 200 (Data_user toggled), set_users (<[id := toggled]> (users w)) w)
       /\ isActive toggled = negb (isActive t)
       /\ forall (new_role : string) (r : Role),
            role_of_string new_role = Some r ->
            let changed := mkUser (email t) (firstName t) r (isActive t) in
            AdminRoutes.change_role a id new_role w
            = (Success 200 (Data_user changed), set_users (<[id := changed]> (users w)) w)
            /\ role changed = r.
Proof.
  intros Hadm.
  destruct (admin_caller_inv _ _ _ _ Hadm) as (_ & Hu & _ & _).
  unfold AdminRoutes.toggle_status, AdminRoutes.change_role. rewrite Hadm.
  split; [split|].
  - rewrite Hu. cbn. rewrite N.eqb_refl. reflexivity.
  - intros new_role. destruct (role_of_string new_role) as [r|].
    + rewrite Hu. cbn. rewrite N.eqb_refl. cbn. auto.
    + cbn. repeat split. intros [? [=]].
  - intros id t Hne Ht. rewrite Ht. cbn.
    apply N.eqb_neq in Hne. rewrite Hne. cbn. split; [reflexivity|].
    split; [reflexivity|].
    intros new_role r ->. cbn. rewrite ?Hne. split; reflexivity.
Qed.

Lemma user_management_excludes_self_witness :
  let w := Sample.world published None [] in
  AdminRoutes.toggle_status (ValidToken 1%N) 1%N w
    = (Failure 400 "Cannot deactivate your own account", w)
  /\ AdminRoutes.change_role (ValidToken 1%N) 1%N "user" w
    = (Failure 400 "Cannot change your own role", w)
  /\ users (snd (AdminRoutes.toggle_status (ValidToken 1%N) 2%N w)) !! 2%N
    = Some (mkUser "bob@example.org" "Bob" user false)
  /\ users (snd (AdminRoutes.change_role (ValidToken 1%N) 2%N "admin" w)) !! 2%N
    = Some (mkUser "bob@example.org" "Bob" admin true).
Proof.
  intros w.
  destruct (user_management_excludes_self (ValidToken 1%N) 1%N Sample.alice w)
    as ((Hts & Hcr) & Hother).
  - reflexivity.
  - split; [exact Hts|]. split.
    + apply (Hcr "user"%string). eexists. reflexivity.
    + destruct (Hother 2%N Sample.bob) as (Ht & _ & Hr); [discriminate | reflexivity |].
      destruct (Hr "admin"%string admin eq_refl) as (Hr' & _).
      rewrite Ht, Hr'. cbn.
      rewrite !lookup_insert_eq. split; reflexivity.
Defined.

(** ** Reading one post *)

Lemma findOne_Some (p : Blog -> bool) (w : World) (id : ObjectId) (b : Blog) :
  findOne p w = Some (id, b) -> blogs w !! id = Some b /\ p b = true.
Proof.
  unfold findOne. intros H. apply find_some in H as [Hin Hp].
  split; [|exact Hp].
  apply list_elem_of_In in Hin. by apply elem_of_map_to_list in Hin.
Qed.

Lemma published_with_slug_true (s : string) (b : Blog) :
  published_with_slug s b = true <-> slug b = Some s /\ status b = published.
Proof.
  unfold published_with_slug.
  rewrite andb_true_iff, !bool_decide_eq_true. reflexivity.
Qed.



(** C9. When no post with the requested slug is [published], the fetch
    answers 404 "Blog not found" and writes nothing, whatever the status
    of the posts that carry the slug; this is the very reply given when no
    post carries the slug at all. *)
Theorem get_by_slug_unpublished_is_not_found
    (clk : Clock) (a : Authorization) (s : string) (w : World) :
  (forall id b, blogs w !! id = Some b -> slug b = Some s -> status b <> published) ->
  BlogRoutes.get_by_slug clk a s w = (Failure 404 "Blog not found", w)
  /\ error_kind (fst (BlogRoutes.get_by_slug clk a s w)) = Some NotFound
  /\ forall w0 : World,
       (forall id b, blogs w0 !! id = Some b -> slug b <> Some s) ->
       fst (BlogRoutes.get_by_slug clk a s w0) = fst (BlogRoutes.get_by_slug clk a s w).
Proof.
  intros Hnone.
  assert (Hgen : forall v : World,
            (forall id b, blogs v !! id = Some b -> slug b = Some s -> status b <> published) ->
            BlogRoutes.get_by_slug clk a s v = (Failure 404 "Blog not found", v)).
  { intros v Hv. unfold BlogRoutes.get_by_slug.
    change (fun b : Blog => bool_decide (slug b = Some s) && bool_decide (status b = published))
      with (published_with_slug s).
    destruct (findOne (published_with_slug s) v) as [[id b]|] eqn:Hf; cbn.
    - apply findOne_Some in Hf as [Hb Hp].
      apply published_with_slug_true in Hp as [Hslug Hst].
      destruct (Hv id b Hb Hslug Hst).
    - reflexivity. }
  rewrite (Hgen w Hnone). repeat split.
  intros w0 H0. rewrite Hgen; [reflexivity|].
  intros id b Hb Hs. destruct (H0 id b Hb Hs).
Qed.

Lemma get_by_slug_unpublished_is_not_found_witness :
  let w := Sample.world hidden (Some 500) [] in
  BlogRoutes.get_by_slug Sample.clock (ValidToken 2%N) "a-brand-new-beginning-for-all" w
  = (Failure 404 "Blog not found", w).
Proof.
  intros w.
  apply (get_by_slug_unpublished_is_not_found Sample.clock (ValidToken 2%N)
           "a-brand-new-beginning-for-all" w).
  intros id b Hb _. unfold w, Sample.world in Hb. cbn in Hb.
  apply lookup_singleton_Some in Hb as [_ <-]. discriminate.
Defined.

(** ** Editing a post *)

Lemma status_assign {A : Type} (set : A -> Blog -> Blog) (o : option A) (b : Blog) :
  (forall v c, status (set v c) = status c) ->
  status (BlogRoutes.assign set o b) = status b.
Proof. intros H. destruct o; cbn; auto. Qed.

Lemma slug_assign {A : Type} (set : A -> Blog -> Blog) (o : option A) (b : Blog) :
  (forall v c, slug (set v c) = slug c) ->
  slug (BlogRoutes.assign set o b) = slug b.
Proof. intros H. destruct o; cbn; auto. Qed.

(** The status after an update is the cast status of the body when there
    is one, and the old status otherwise. *)
Lemma status_apply_update (r : BlogRoutes.UpdateBody) (st : option Status) (b : Blog) :
  status (BlogRoutes.apply_update r st b) = default (status b) st.
Proof.
  unfold BlogRoutes.apply_update.
  repeat (rewrite status_assign by reflexivity).
  destruct st; cbn; [reflexivity|].
  repeat (rewrite status_assign by reflexivity). reflexivity.
Qed.

(** The slug after an update is the slug of the body when there is one,
    and the old slug otherwise. *)
Lemma slug_apply_update (r : BlogRoutes.UpdateBody) (st : option Status) (b : Blog) :
  slug (BlogRoutes.apply_update r st b)
  = match BlogRoutes.u_slug r with Some s => Some s | None => slug b end.
Proof.
  unfold BlogRoutes.apply_update.
  repeat (rewrite slug_assign by reflexivity).
  destruct (BlogRoutes.u_slug r); cbn; [reflexivity|].
  repeat (rewrite slug_assign by reflexivity). reflexivity.
Qed.

Arguments BlogRoutes.findByIdAndUpdate : simpl never.

Section Editing.

Variable isURL : string -> bool.
Variable update_validators : BlogRoutes.UpdateBody -> bool.

(** C3. An active caller who is an admin or the owner edits a [published]
    post: whatever the body, its [status] included, the call either fails
    and writes nothing, or stores the post with status [pending]; it does
    the latter whenever the body passes the validators of the route and of
    the schema and any slug it carries is free. *)
Theorem update_of_published_goes_back_to_pending
    (a : Authorization) (uid : ObjectId) (u : User) (id : ObjectId)
    (r : BlogRoutes.UpdateBody) (w : World) (b : Blog) :
  protect w a = inr (uid, u) ->
  blogs w !! id = Some b ->
  status b = published ->
  role u = admin \/ author b = uid ->
  let out := BlogRoutes.update isURL update_validators a id r w in
  let r' := BlogRoutes.set_u_status "pending" r in
  let b' := BlogRoutes.apply_update r' (Some pending) b in
  status b' = pending
  /\ (out = (Success 200 (Data_blog (Some b')), set_blogs (<[id := b']> (blogs w)) w)
      \/ is_failure (fst out) = true /\ snd out = w)
  /\ (BlogRoutes.validate_update isURL r = [] ->
      update_validators r' = true ->
      (forall s, BlogRoutes.u_slug r = Some s -> slug_taken id (Some s) w = false) ->
      out = (Success 200 (Data_blog (Some b')), set_blogs (<[id := b']> (blogs w)) w)).
Proof.
  intros Hp Hb Hst Hauth out r' b'.
  assert (Hb' : status b' = pending) by (unfold b'; apply status_apply_update).
  assert (Hok : negb (negb (bool_decide (role u = admin)) && negb (N.eqb (author b) uid))
                = true).
  { destruct Hauth as [Hr | Ha].
    - rewrite (bool_decide_eq_true_2 _ Hr). reflexivity.
    - rewrite Ha, N.eqb_refl, andb_false_r. reflexivity. }
  assert (Hrun : BlogRoutes.validate_update isURL r = [] ->
            out = match BlogRoutes.findByIdAndUpdate update_validators id r' w with
                  | inl e => (e, w)
                  | inr (ub, w') => (Success 200 (Data_blog ub), w')
                  end).
  { intros Hv. unfold out, BlogRoutes.update. rewrite Hp, Hv. cbn. rewrite Hb. cbn.
    rewrite Hok. cbn. rewrite (bool_decide_eq_true_2 _ Hst).
    fold r'. destruct (BlogRoutes.findByIdAndUpdate update_validators id r' w)
      as [e | [ub w']]; reflexivity. }
  assert (Hfind : BlogRoutes.findByIdAndUpdate update_validators id r' w
                  = if negb (update_validators r') then inl (Thrown "ValidationError")
                    else if match BlogRoutes.u_slug r with
                            | Some s => slug_taken id (Some s) w
                            | None => false
                            end
                         then inl (Thrown "E11000 duplicate key error")
                         else inr (Some b', set_blogs (<[id := b']> (blogs w)) w)).
  { unfold BlogRoutes.findByIdAndUpdate. cbn. rewrite Hb. reflexivity. }
  split; [exact Hb'|]. split.
  - destruct (BlogRoutes.validate_update isURL r) as [|e es] eqn:Hv.
    + rewrite (Hrun eq_refl), Hfind.
      destruct (update_validators r'); cbn; [|right; split; reflexivity].
      destruct (BlogRoutes.u_slug r) as [s|]; [|left; reflexivity].
      destruct (slug_taken id (Some s) w); [right; split; reflexivity | left; reflexivity].
    + right. unfold out, BlogRoutes.update. rewrite Hp, Hv. cbn. split; reflexivity.
  - intros Hv Hval Hfree. rewrite (Hrun Hv), Hfind, Hval. cbn.
    destruct (BlogRoutes.u_slug r) as [s|]; [|reflexivity].
    rewrite (Hfree s eq_refl). reflexivity.
Qed.

End Editing.

Lemma update_of_published_goes_back_to_pending_witness :
  let w := Sample.world published (Some 500) [] in
  let r := BlogRoutes.mkUpdateBody (Some "An edited title for the post"%string) None None
             None None (Some "published"%string) None None None None None None None None
             None None None None None None None in
  exists b', BlogRoutes.update (fun _ => true) (fun _ => true) (ValidToken 2%N) 7%N r w
             = (Success 200 (Data_blog (Some b')), set_blogs (<[7%N := b']> (blogs w)) w)
             /\ status b' = pending.
Proof.
  intros w r.
  destruct (update_of_published_goes_back_to_pending (fun _ => true) (fun _ => true)
              (ValidToken 2%N) 2%N Sample.bob 7%N r w (Sample.post published (Some 500) []))
    as (Hst & _ & Hrun).
  - reflexivity.
  - reflexivity.
  - reflexivity.
  - right. reflexivity.
  - eexists. split; [apply Hrun | exact Hst].
    + reflexivity.
    + reflexivity.
    + intros s [=].
Defined.

(** ** Likes *)

Lemma likes_toggleLike (u : ObjectId) (b : Blog) :
  likes (toggleLike u b) = toggle_in u (likes b).
Proof. unfold toggleLike, toggle_in. destruct (indexOf (likes b) u =? -1); reflexivity. Qed.

Lemma toggleLike_only_likes (u : ObjectId) (b : Blog) :
  toggleLike u b = set_likes (toggle_in u (likes b)) b.
Proof. unfold toggleLike, toggle_in. destruct (indexOf (likes b) u =? -1); reflexivity. Qed.

Lemma indexOf_lower (l : list ObjectId) (u : ObjectId) : -1 <= indexOf l u.
Proof.
  induction l as [|x l IH]; cbn; [lia|].
  destruct (N.eqb x u); [lia|].
  destruct (indexOf l u =? -1) eqn:E; lia.
Qed.

Lemma indexOf_absent (l : list ObjectId) (u : ObjectId) :
  indexOf l u = -1 <-> u ∉ l.
Proof.
  induction l as [|x l IH]; cbn.
  - split; [intros _; apply not_elem_of_nil | reflexivity].
  - rewrite not_elem_of_cons. destruct (N.eqb_spec x u) as [->|Hne].
    + split; [discriminate | intros [H _]; congruence].
    + pose proof (indexOf_lower l u).
      destruct (indexOf l u =? -1) eqn:E.
      * apply Z.eqb_eq in E. split; [intros _|reflexivity].
        split; [congruence | by apply IH].
      * apply Z.eqb_neq in E. split; [lia | intros [_ H']; apply IH in H'; lia].
Qed.

Lemma indexOf_present (l : list ObjectId) (u : ObjectId) :
  u ∈ l -> l !! Z.to_nat (indexOf l u) = Some u.
Proof.
  induction l as [|x l IH]; cbn.
  - intros H. by apply elem_of_nil in H.
  - intros H. destruct (N.eqb_spec x u) as [->|Hne]; [reflexivity|].
    apply elem_of_cons in H as [H|H]; [congruence|].
    pose proof (indexOf_lower l u).
    destruct (indexOf l u =? -1) eqn:E.
    + apply Z.eqb_eq, indexOf_absent in E. contradiction.
    + apply Z.eqb_neq in E.
      replace (Z.to_nat (indexOf l u + 1)) with (S (Z.to_nat (indexOf l u))) by lia.
      cbn. by apply IH.
Qed.

Lemma toggle_in_absent (u : ObjectId) (l : list ObjectId) :
  u ∉ l -> toggle_in u l = l ++ [u].
Proof.
  intros H. unfold toggle_in. apply indexOf_absent in H. rewrite H. reflexivity.
Qed.

Lemma toggle_in_present (u : ObjectId) (l : list ObjectId) :
  u ∈ l -> l ≡ₚ u :: toggle_in u l.
Proof.
  intros H. unfold toggle_in.
  destruct (indexOf l u =? -1) eqn:E.
  - apply Z.eqb_eq, indexOf_absent in E. contradiction.
  - apply delete_Permutation, indexOf_present, H.
Qed.

Lemma toggle_in_NoDup (u : ObjectId) (l : list ObjectId) :
  NoDup l -> NoDup (toggle_in u l).
Proof.
  intros Hnd. destruct (decide (u ∈ l)) as [Hin|Hout].
  - pose proof (toggle_in_present u l Hin) as Hp.
    rewrite Hp in Hnd. by apply NoDup_cons_1_2 in Hnd.
  - rewrite toggle_in_absent by done.
    apply NoDup_app. repeat split; [done | | apply NoDup_singleton].
    intros x Hx Hx'. apply list_elem_of_singleton in Hx'. congruence.
Qed.

Lemma toggle_in_removes (u : ObjectId) (l : list ObjectId) :
  NoDup l -> u ∈ l -> u ∉ toggle_in u l.
Proof.
  intros Hnd Hin. pose proof (toggle_in_present u l Hin) as Hp.
  rewrite Hp in Hnd. by apply NoDup_cons_1_1 in Hnd.
Qed.

Lemma toggle_in_twice (u : ObjectId) (l : list ObjectId) :
  NoDup l -> toggle_in u (toggle_in u l) ≡ₚ l.
Proof.
  intros Hnd. destruct (decide (u ∈ l)) as [Hin|Hout].
  - rewrite (toggle_in_absent u (toggle_in u l)) by (by apply toggle_in_removes).
    rewrite (toggle_in_present u l Hin) at 2.
    by rewrite Permutation_app_comm.
  - rewrite (toggle_in_absent u l Hout).
    assert (Hin : u ∈ l ++ [u]) by (apply elem_of_app; right; apply list_elem_of_singleton; done).
    pose proof (toggle_in_present u _ Hin) as Hp.
    symmetry. apply (Permutation_cons_inv (a := u)).
    etransitivity; [|exact Hp]. apply (Permutation_app_comm [u] l).
Qed.

Lemma validate_toggleLike (u : ObjectId) (b : Blog) :
  validate (toggleLike u b) = validate b.
Proof. rewrite toggleLike_only_likes. by apply validate_ext. Qed.

Lemma like_published (clk : Clock) (a : Authorization) (uid : ObjectId) (u : User)
    (id : ObjectId) (w : World) (b : Blog) :
  protect w a = inr (uid, u) ->
  blogs w !! id = Some b ->
  status b = published ->
  BlogRoutes.like clk a id w
  = if validate b
    then (Success 200 (Data_like (Z.of_nat (length (likes (toggleLike uid b))))
                                 (bool_decide (uid ∈ likes (toggleLike uid b)))),
          set_blogs (<[id := toggleLike uid b]> (blogs w)) w)
    else (Thrown "ValidationError", w).
Proof.
  intros Hp Hb Hst. unfold BlogRoutes.like. rewrite Hp, Hb. cbn.
  rewrite (bool_decide_eq_true_2 _ Hst). cbn.
  rewrite save_loaded by (rewrite toggleLike_only_likes; cbn; auto).
  rewrite validate_toggleLike. destruct (validate b); reflexivity.
Qed.

(** C4, as the code has it.  A user likes a [published] post that passes
    the validation of the schema and whose like list holds no id twice.
    One toggle adds the user when absent (one more like) and removes the
    user when present (one fewer), and the list still holds no id twice.
    Two toggles in a row, through the route, leave a post whose like list
    has the members and the length it had, and that differs from the
    original in nothing but the order of that list. *)
Theorem toggleLike_twice_restores_likes
    (clk1 clk2 : Clock) (a : Authorization) (uid : ObjectId) (u : User)
    (id : ObjectId) (w : World) (b : Blog) :
  protect w a = inr (uid, u) ->
  blogs w !! id = Some b ->
  status b = published ->
  validate b = true ->
  NoDup (likes b) ->
  let b1 := toggleLike uid b in
  let b2 := toggleLike uid b1 in
  let w1 := snd (BlogRoutes.like clk1 a id w) in
  let w2 := snd (BlogRoutes.like clk2 a id w1) in
  blogs w1 !! id = Some b1
  /\ blogs w2 !! id = Some b2
  /\ likes b2 ≡ₚ likes b
  /\ (forall v, v ∈ likes b2 <-> v ∈ likes b)
  /\ length (likes b2) = length (likes b)
  /\ b2 = set_likes (likes b2) b
  /\ (uid ∉ likes b -> uid ∈ likes b1 /\ length (likes b1) = S (length (likes b)))
  /\ (uid ∈ likes b -> (uid ∉ likes b1) /\ S (length (likes b1)) = length (likes b))
  /\ NoDup (likes b1)
  /\ NoDup (likes b2).
Proof.
  intros Hp Hb Hst Hv Hnd b1 b2 w1 w2.
  assert (Hw1 : w1 = set_blogs (<[id := b1]> (blogs w)) w).
  { unfold w1. rewrite (like_published clk1 a uid u id w b), Hv by done. reflexivity. }
  assert (Hb1 : blogs w1 !! id = Some b1).
  { rewrite Hw1. cbn. apply lookup_insert_eq. }
  assert (Hst1 : status b1 = published).
  { unfold b1. rewrite toggleLike_only_likes. exact Hst. }
  assert (Hv1 : validate b1 = true).
  { unfold b1. by rewrite validate_toggleLike. }
  assert (Hw2 : w2 = set_blogs (<[id := b2]> (blogs w1)) w1).
  { unfold w2. rewrite (like_published clk2 a uid u id w1 b1), Hv1; try done.
    rewrite Hw1. exact Hp. }
  assert (Hl1 : likes b1 = toggle_in uid (likes b)) by apply likes_toggleLike.
  assert (Hl2 : likes b2 = toggle_in uid (toggle_in uid (likes b))).
  { unfold b2. rewrite likes_toggleLike, Hl1. reflexivity. }
  assert (Hperm : likes b2 ≡ₚ likes b).
  { rewrite Hl2. by apply toggle_in_twice. }
  split; [exact Hb1|]. split.
  { rewrite Hw2. cbn. apply lookup_insert_eq. }
  split; [exact Hperm|]. split.
  { intros v. by rewrite Hperm. }
  split.
  { by rewrite Hperm. }
  split.
  { unfold b2, b1. rewrite !toggleLike_only_likes. reflexivity. }
  split.
  { intros Hout. rewrite Hl1, toggle_in_absent by done. split.
    - apply elem_of_app. right. by apply list_elem_of_singleton.
    - rewrite length_app. cbn. lia. }
  split.
  { intros Hin. rewrite Hl1. split.
    - by apply toggle_in_removes.
    - pose proof (toggle_in_present uid (likes b) Hin) as Hpp.
      apply Permutation_length in Hpp. cbn in Hpp. lia. }
  split.
  - rewrite Hl1. by apply toggle_in_NoDup.
  - rewrite Hl2. by apply toggle_in_NoDup, toggle_in_NoDup.
Qed.

Lemma toggleLike_twice_restores_likes_witness :
  let w := Sample.world published (Some 500) [5%N; 2%N; 9%N] in
  let w1 := snd (BlogRoutes.like Sample.clock (ValidToken 2%N) 7%N w) in
  let w2 := snd (BlogRoutes.like Sample.clock (ValidToken 2%N) 7%N w1) in
  likes <$> (blogs w1 !! 7%N) = Some [5%N; 9%N]
  /\ likes <$> (blogs w2 !! 7%N) = Some [5%N; 9%N; 2%N]
  /\ [5%N; 9%N; 2%N] ≡ₚ [5%N; 2%N; 9%N].
Proof.
  intros w w1 w2.
  destruct (toggleLike_twice_restores_likes Sample.clock Sample.clock (ValidToken 2%N)
              2%N Sample.bob 7%N w (Sample.post published (Some 500) [5%N; 2%N; 9%N]))
    as (H1 & H2 & Hperm & _).
  - reflexivity.
  - reflexivity.
  - reflexivity.
  - vm_compute. reflexivity.
  - apply (bool_decide_unpack (NoDup [5%N; 2%N; 9%N])). vm_compute. exact I.
  - subst w1 w2. cbv zeta in H1, H2. rewrite H1, H2. cbn.
    split; [reflexivity|]. split; [reflexivity|]. exact Hperm.
Defined.

(** C4, as stated, fails: nothing keeps a like list free of repetitions.
    The update route stores the [likes] of its body as they are; the
    author of a pending post sends a body with their own id twice (and
    the status [published]), and two likes of that user then take the
    user out of the list for good. *)
Lemma likes_repeated_by_update_counterexample :
  let r := BlogRoutes.mkUpdateBody None None None None None (Some "published"%string)
             None None None None None (Some [2%N; 2%N]) None None
             None None None None None None None in
  let w := snd (BlogRoutes.update (fun _ => true) (fun _ => true) (ValidToken 2%N) 7%N r
                  (Sample.world pending None [])) in
  let w1 := snd (BlogRoutes.like Sample.clock (ValidToken 2%N) 7%N w) in
  let w2 := snd (BlogRoutes.like Sample.clock (ValidToken 2%N) 7%N w1) in
  status <$> (blogs w !! 7%N) = Some published
  /\ likes <$> (blogs w !! 7%N) = Some [2%N; 2%N]
  /\ likes <$> (blogs w1 !! 7%N) = Some [2%N]
  /\ likes <$> (blogs w2 !! 7%N) = Some []
  /\ ~ (forall v : ObjectId, v ∈ ([] : list ObjectId) <-> v ∈ [2%N; 2%N]).
Proof.
  vm_compute. repeat split.
  intros H. destruct (H 2%N) as [_ H2].
  assert (Hin : 2%N ∈ [2%N; 2%N]) by (apply elem_of_cons; by left).
  apply H2 in Hin. by apply elem_of_nil in Hin.
Qed.

(** ** Listing and pagination *)

(** [Math.ceil(a / b)] is the ceiling of the quotient: the least integer
    [k] with [a <= k * b]. *)
Lemma Math_ceil_div_spec (a b : Z) :
  0 < b ->
  (Math_ceil_div a b - 1) * b < a <= Math_ceil_div a b * b.
Proof.
  intros Hb. unfold Math_ceil_div.
  destruct b as [|p|p]; try lia.
  unfold Qceiling, Qfloor, Qdiv, Qmult, Qinv, Qopp, inject_Z. cbn.
  rewrite Z.mul_1_r, ?Pos.mul_1_l.
  pose proof (Z.div_mod (- a) (Z.pos p) ltac:(lia)) as Hdm.
  pose proof (Z.mod_pos_bound (- a) (Z.pos p) ltac:(lia)) as Hm.
  nia.
Qed.

Lemma Math_ceil_div_eq (a b : Z) :
  0 < b -> Math_ceil_div a b = (a + b - 1) / b.
Proof.
  intros Hb. pose proof (Math_ceil_div_spec a b Hb) as H.
  apply (Z.div_unique_pos _ _ _ (a + b - 1 - b * Math_ceil_div a b)); lia.
Qed.

Lemma expect_nil (ok : bool) (message : string) : expect ok message = [] <-> ok = true.
Proof. destruct ok; cbn; split; congruence. Qed.

Lemma parseInt_or_valid (q : option Z) (d lo : Z) :
  0 < lo <= d ->
  match q with Some n => lo <=? n | None => true end = true ->
  lo <= parseInt_or q d.
Proof.
  intros Hd H. destruct q as [n|]; cbn; [|lia].
  apply Z.leb_le in H. destruct (n =? 0) eqn:E; lia.
Qed.

(** Serialising documents that were fetched without their content throws
    as soon as there is one document; with the content it never does. *)
Lemma res_json_docs_minus_content (docs : list (ObjectId * Blog)) :
  res_json_docs (map select_minus_content docs)
  = match docs with
    | [] => inr []
    | _ :: _ => inl (Thrown "TypeError")
    end.
Proof. destruct docs; reflexivity. Qed.

Lemma res_json_docs_with_content (docs : list (ObjectId * Blog)) :
  res_json_docs (map fetched docs) = inr docs.
Proof.
  unfold res_json_docs.
  assert (H : mapM toJSON (map fetched docs) = Some docs).
  { induction docs as [|[i b] docs IH]; [reflexivity|]. cbn. rewrite IH. reflexivity. }
  rewrite H. reflexivity.
Qed.

Arguments res_json_docs : simpl never.

Section Listing.

Variable RegExp_i : string -> option (string -> bool).
Variable db_sort : BlogRoutes.SortSpec -> list (ObjectId * Blog) -> list (ObjectId * Blog).

(** The database returns the matching documents, each once, in the order
    of the sort document. *)
Hypothesis db_sort_Permutation : forall s l, db_sort s l ≡ₚ l.

(** C7. A listing query that passes the validators (page at least 1,
    limit from 1 to 50, either one defaulted when absent) and whose search
    pattern compiles selects the sorted matching posts after the first
    (page-1)*limit of them, cut to at most limit entries.  When that
    selection is empty the reply is the empty page with its block of
    figures: total is the number of matching posts, totalPages is the
    ceiling of total/limit, hasNext is page < totalPages and hasPrev is
    page > 1.  When the selection holds a post, the reply is never sent:
    the posts were fetched without their content, and serialising the
    first of them throws a TypeError.  The listing writes nothing. *)
Theorem list_blogs_pagination
    (q : BlogRoutes.ListQuery) (f : BlogRoutes.Filter) (w : World) :
  BlogRoutes.validate_list q = [] ->
  BlogRoutes.filter_of RegExp_i q = Some f ->
  let p := parseInt_or (BlogRoutes.q_page q) 1 in
  let L := parseInt_or (BlogRoutes.q_limit q) 10 in
  let matching := BlogRoutes.find_all f w in
  let sorted := db_sort (BlogRoutes.sort_of (BlogRoutes.q_sort q)) matching in
  let n := Z.of_nat (length matching) in
  let selection := take (Z.to_nat L) (drop (Z.to_nat ((p - 1) * L)) sorted) in
  let pg := mkPagination p (Math_ceil_div n L) n (p <? Math_ceil_div n L) (1 <? p) in
  1 <= p /\ 1 <= L <= 50
  /\ Z.of_nat (length selection) <= L
  /\ Z.of_nat (length selection) = Z.min L (Z.max 0 (n - (p - 1) * L))
  /\ (totalPages pg - 1) * L < n <= totalPages pg * L
  /\ totalPages pg = (n + L - 1) / L
  /\ (selection = [] <-> n <= (p - 1) * L)
  /\ BlogRoutes.list_blogs RegExp_i db_sort q w
     = (match selection with
        | [] => Success 200 (Data_page [] pg)
        | _ :: _ => Thrown "TypeError"
        end, w).
Proof.
  intros Hv Hf p L matching sorted n selection pg.
  pose proof Hv as Hv'. unfold BlogRoutes.validate_list in Hv'.
  apply app_eq_nil in Hv' as [Hpage Hv']. apply app_eq_nil in Hv' as [Hlimit _].
  apply expect_nil in Hpage. apply expect_nil in Hlimit.
  assert (Hp : 1 <= p) by (apply parseInt_or_valid; [lia | exact Hpage]).
  assert (HL : 1 <= L <= 50).
  { unfold L. destruct (BlogRoutes.q_limit q) as [k|]; cbn; [|lia].
    apply andb_true_iff in Hlimit as [H1 H2].
    apply Z.leb_le in H1. apply Z.leb_le in H2.
    destruct (k =? 0) eqn:E; lia. }
  assert (Hlen : length sorted = length matching).
  { unfold sorted. by rewrite db_sort_Permutation. }
  assert (Hsel : Z.of_nat (length selection) = Z.min L (Z.max 0 (n - (p - 1) * L))).
  { unfold selection. rewrite length_take, length_drop, Hlen. unfold n. nia. }
  split; [exact Hp|]. split; [exact HL|].
  split; [lia|]. split; [exact Hsel|].
  split; [apply Math_ceil_div_spec; lia|].
  split; [apply Math_ceil_div_eq; lia|].
  split.
  { split.
    - intros E. rewrite E in Hsel. cbn in Hsel. lia.
    - intros Hn. apply length_zero_iff_nil. lia. }
  unfold BlogRoutes.list_blogs. rewrite Hv, Hf. cbn.
  fold p L matching sorted selection. unfold BlogRoutes.countDocuments. fold matching n.
  rewrite res_json_docs_minus_content.
  destruct selection; reflexivity.
Qed.

End Listing.

Lemma list_blogs_pagination_witness :
  let w := Sample.world published (Some 500) [] in
  BlogRoutes.list_blogs (fun _ => None) (fun _ l => l)
    (BlogRoutes.mkListQuery None None None None None) w
  = (Thrown "TypeError", w)
  /\ exists pg,
       BlogRoutes.list_blogs (fun _ => None) (fun _ l => l)
         (BlogRoutes.mkListQuery (Some 2) (Some 1) None None (Some "popular"%string)) w
       = (Success 200 (Data_page [] pg), w)
       /\ total pg = 1 /\ totalPages pg = 1 /\ hasNext pg = false /\ hasPrev pg = true.
Proof.
  intros w. split.
  - destruct (list_blogs_pagination (fun _ => None) (fun _ l => l)
                (fun _ l => reflexivity l) (BlogRoutes.mkListQuery None None None None None)
                (BlogRoutes.mkFilter published None None) w)
      as (_ & _ & _ & _ & _ & _ & _ & Hrun); [reflexivity | reflexivity |].
    exact Hrun.
  - destruct (list_blogs_pagination (fun _ => None) (fun _ l => l)
                (fun _ l => reflexivity l)
                (BlogRoutes.mkListQuery (Some 2) (Some 1) None None (Some "popular"%string))
                (BlogRoutes.mkFilter published None None) w)
      as (_ & _ & _ & _ & _ & _ & _ & Hrun); [reflexivity | reflexivity |].
    eexists. split; [exact Hrun|]. vm_compute. repeat split.
Defined.

(** ** Slugs *)

Lemma pieces_not_nil (l : list ascii) : pieces l <> [].
Proof.
  destruct l as [|c r]; cbn; [done|].
  destruct (is_lower_or_digit c); [|done]. destruct (pieces r); done.
Qed.

Lemma replace_runs_render (f : bool) (l : list ascii) :
  replace_runs f l = render f (pieces l).
Proof.
  revert f. induction l as [|c r IH]; intros f; [reflexivity|].
  cbn [replace_runs pieces]. pose proof (pieces_not_nil r) as Hne.
  destruct (is_lower_or_digit c).
  - rewrite IH. destruct (pieces r) as [|w [|p ps]]; [done|reflexivity|].
    cbn. rewrite andb_false_r. reflexivity.
  - rewrite !IH. destruct (pieces r) as [|w ws]; [done|].
    destruct f; reflexivity.
Qed.

Lemma pieces_alnum (l : list ascii) : Forall alnum_only (pieces l).
Proof.
  induction l as [|c r IH]; cbn; [repeat constructor|].
  destruct (is_lower_or_digit c) eqn:E.
  - destruct (pieces r) as [|w ws]; [repeat constructor; done|].
    inversion IH; subst. constructor; [constructor; done|done].
  - constructor; [constructor|done].
Qed.

Lemma strip_leading_alnum (w : list ascii) : alnum_only w -> strip_leading w = w.
Proof.
  destruct w as [|c r]; [reflexivity|]. intros H. inversion H; subst. cbn.
  destruct (Ascii.eqb_spec c "-"); [subst; discriminate|reflexivity].
Qed.

Lemma strip_trailing_alnum (w : list ascii) : alnum_only w -> strip_trailing w = w.
Proof.
  intros H. unfold strip_trailing. rewrite strip_leading_alnum, rev_involutive; [done|].
  apply Forall_forall. intros x Hx. unfold alnum_only in H. rewrite Forall_forall in H.
  apply H. rewrite list_elem_of_In in *. by apply in_rev.
Qed.

Lemma strip_trailing_app (a b : list ascii) :
  b <> [] -> strip_trailing (a ++ b) = a ++ strip_trailing b.
Proof.
  intros Hb. unfold strip_trailing. rewrite rev_app_distr.
  destruct (rev b) as [|c r] eqn:E.
  - apply (f_equal (@rev _)) in E. rewrite rev_involutive in E. done.
  - cbn. destruct (Ascii.eqb c "-").
    + rewrite rev_app_distr, rev_involutive. reflexivity.
    + cbn. rewrite rev_app_distr, rev_involutive. cbn. by rewrite <- app_assoc.
Qed.

Lemma render_true_no_words (ps : list (list ascii)) :
  List.filter (fun w => negb (is_nil w)) ps = [] -> render true ps = [].
Proof.
  induction ps as [|w tl IH]; [reflexivity|]. cbn [List.filter].
  destruct w as [|c w]; cbn [is_nil negb]; [|discriminate].
  intros H. specialize (IH H). destruct tl; [reflexivity|]. cbn. exact IH.
Qed.

Lemma render_true_some_word (ps : list (list ascii)) :
  List.filter (fun w => negb (is_nil w)) ps <> [] -> render true ps <> [].
Proof.
  induction ps as [|w tl IH]; [done|]. cbn [List.filter].
  destruct w as [|c w]; cbn [is_nil negb].
  - intros H. specialize (IH H). destruct tl; [done|]. cbn. exact IH.
  - intros _. destruct tl; done.
Qed.

Lemma strip_trailing_render (ps : list (list ascii)) :
  Forall alnum_only ps ->
  strip_trailing (render true ps) = join_hyphen (List.filter (fun w => negb (is_nil w)) ps).
Proof.
  induction ps as [|w tl IH]; [reflexivity|].
  intros Hall. inversion Hall as [|? ? Hw Htl]; subst. specialize (IH Htl).
  destruct tl as [|p ps].
  - cbn. rewrite strip_trailing_alnum by done. destruct w; reflexivity.
  - destruct w as [|c w].
    + exact IH.
    + assert (Hr : render true ((c :: w) :: p :: ps)
                   = ((c :: w) ++ ["-"%char]) ++ render true (p :: ps)).
      { cbn [render andb is_nil]. by rewrite <- app_assoc. }
      assert (Hf : List.filter (fun w => negb (is_nil w)) ((c :: w) :: p :: ps)
                   = (c :: w) :: List.filter (fun w => negb (is_nil w)) (p :: ps))
        by reflexivity.
      rewrite Hr, Hf.
      destruct (List.filter (fun w => negb (is_nil w)) (p :: ps)) as [|x xs] eqn:E.
      * rewrite (render_true_no_words _ E), app_nil_r.
        rewrite strip_trailing_app by done. cbn. by rewrite app_nil_r.
      * rewrite strip_trailing_app by (apply render_true_some_word; by rewrite E).
        rewrite IH. cbn [join_hyphen]. by rewrite <- app_assoc.
Qed.

(** The slug computed by the pre-save hook is the slug of the data model. *)
Lemma slugify_words (t : string) : slugify t = slug_of_words t.
Proof.
  unfold slugify, slug_of_words, slugify_chars, words. f_equal.
  set (l := map toLowerCase_ascii (list_ascii_of_string t)).
  rewrite replace_runs_render.
  pose proof (pieces_not_nil l) as Hne. pose proof (pieces_alnum l) as Hall.
  destruct (pieces l) as [|w [|p ps]]; [done| |].
  - inversion Hall; subst. cbn [render].
    rewrite strip_leading_alnum, strip_trailing_alnum by done. destruct w; reflexivity.
  - destruct w as [|c w].
    + change (strip_leading (render false ([] :: p :: ps))) with (render true (p :: ps)).
      change (List.filter (fun w => negb (is_nil w)) ([] :: p :: ps))
        with (List.filter (fun w => negb (is_nil w)) (p :: ps)).
      inversion Hall; subst. by apply strip_trailing_render.
    + change (render false ((c :: w) :: p :: ps)) with (render true ((c :: w) :: p :: ps)).
      inversion Hall as [|? ? Hw Htl]; subst.
      assert (Hc : strip_leading (render true ((c :: w) :: p :: ps))
                   = render true ((c :: w) :: p :: ps)).
      { inversion Hw; subst. cbn.
        destruct (Ascii.eqb_spec c "-"); [subst; discriminate|reflexivity]. }
      rewrite Hc. by apply strip_trailing_render.
Qed.

(** The two character classes, letter by letter. *)
Lemma toLowerCase_lower_case (c : ascii) : toLowerCase_ascii c = lower_case c.
Proof. destruct c as [[] [] [] [] [] [] [] []]; reflexivity. Qed.

Lemma is_lower_or_digit_alphanumeric (c : ascii) : is_lower_or_digit c = alphanumeric c.
Proof. destruct c as [[] [] [] [] [] [] [] []]; reflexivity. Qed.

Lemma runs_pieces (cur l : list ascii) :
  runs cur l
  = match pieces l with
    | hd :: tl => List.filter (fun w => negb (is_nil w)) ((rev cur ++ hd) :: tl)
    | [] => []
    end.
Proof.
  revert cur. induction l as [|c r IH]; intros cur.
  - cbn [runs pieces]. rewrite app_nil_r. destruct cur as [|x cur]; [reflexivity|].
    cbn [List.filter]. destruct (rev (x :: cur)) eqn:E; [|reflexivity].
    apply (f_equal (@length ascii)) in E. rewrite length_rev in E. discriminate E.
  - cbn [runs pieces]. rewrite <- is_lower_or_digit_alphanumeric.
    pose proof (pieces_not_nil r) as Hne.
    destruct (is_lower_or_digit c).
    + rewrite IH. destruct (pieces r) as [|hd tl]; [done|].
      cbn [rev]. rewrite <- app_assoc. reflexivity.
    + rewrite IH. destruct (pieces r) as [|hd tl]; [done|].
      rewrite app_nil_r. cbn [rev app].
      destruct cur as [|x cur]; [reflexivity|].
      cbn [List.filter]. destruct (rev (x :: cur)) eqn:E; [|reflexivity].
      apply (f_equal (@length ascii)) in E. rewrite length_rev in E. discriminate E.
Qed.

(** The hook computes the slug of the data model. *)
Lemma slugify_spec (t : string) : slugify t = spec_slug t.
Proof.
  rewrite slugify_words. unfold slug_of_words, spec_slug, words. do 2 f_equal.
  rewrite runs_pieces.
  rewrite (map_ext lower_case toLowerCase_ascii)
    by (intros c; symmetry; apply toLowerCase_lower_case).
  pose proof (pieces_not_nil (map toLowerCase_ascii (list_ascii_of_string t))) as Hne.
  destruct (pieces _) as [|hd tl]; [done|reflexivity].
Qed.

Example slugify_scenario :
  slugify "A brand new beginning for all" = "a-brand-new-beginning-for-all"%string
  /\ slugify "  Hello, World -- 2nd Edition! " = "hello-world-2nd-edition"%string
  /\ slugify "!!!!!!!!!!" = EmptyString.
Proof. repeat split. Qed.

(** The hook leaves a slug alone once it is truthy, and whenever the title
    is the one that was loaded. *)
Lemma slug_pre_save_kept (now : Date) (d : Doc) :
  truthy (slug (cur d)) = true
  \/ (exists o, snapshot d = Some o /\ title (cur d) = title o) ->
  slug (pre_save now d) = slug (cur d).
Proof.
  intros H. unfold pre_save.
  assert (Hno : isModified P_title d && negb (truthy (slug (cur d))) = false).
  { destruct H as [H | (o & Ho & Ht)].
    - rewrite H. apply andb_false_r.
    - unfold isModified. rewrite Ho, Ht, String.eqb_refl. reflexivity. }
  rewrite Hno.
  destruct (isModified P_content d); cbn;
    match goal with |- context [if ?c then _ else _] => destruct c end; reflexivity.
Qed.

(** On a new document the hook computes the slug from the title. *)
Lemma pre_save_new (now : Date) (b : Blog) :
  slug b = None ->
  status b <> published ->
  pre_save now (mkDoc None b)
  = set_readTime (estimatedReadTime b) (set_slug (Some (slugify (title b))) b).
Proof.
  intros Hs Hst. unfold pre_save, isModified. cbn. rewrite Hs. cbn.
  rewrite (bool_decide_eq_false_2 _ Hst). reflexivity.
Qed.

Lemma slug_kept_refl (w : World) : slug_kept w w.
Proof. intros id b b' H H'. congruence. Qed.

Lemma slug_kept_store (w : World) (i : ObjectId) (b x : Blog) :
  blogs w !! i = Some b -> slug x = slug b ->
  slug_kept w (set_blogs (<[i := x]> (blogs w)) w).
Proof.
  intros Hb Hx id c c' Hc Hc'. cbn in Hc'.
  destruct (decide (i = id)) as [->|Hne].
  - rewrite lookup_insert_eq in Hc'. congruence.
  - rewrite lookup_insert_ne in Hc' by done. congruence.
Qed.

Lemma slug_kept_fresh (w : World) (i : ObjectId) (x : Blog) :
  blogs w !! i = None -> slug_kept w (set_blogs (<[i := x]> (blogs w)) w).
Proof.
  intros Hb id c c' Hc Hc'. cbn in Hc'.
  destruct (decide (i = id)) as [->|Hne]; [congruence|].
  rewrite lookup_insert_ne in Hc' by done. congruence.
Qed.

Lemma slug_kept_delete (w : World) (i : ObjectId) :
  slug_kept w (set_blogs (delete i (blogs w)) w).
Proof.
  intros id c c' Hc Hc'. cbn in Hc'.
  apply lookup_delete_Some in Hc' as [_ Hc']. congruence.
Qed.

Lemma slug_kept_save (now : Date) (w : World) (i : ObjectId) (b x : Blog)
    (res : Blog * World) :
  blogs w !! i = Some b -> title x = title b -> slug x = slug b ->
  save now i (mkDoc (Some b) x) w = inr res ->
  slug_kept w (snd res).
Proof.
  intros Hb Ht Hs. unfold save. cbn [cur].
  destruct (validate x); [|discriminate]. intros [= <-]. cbn [snd].
  apply (slug_kept_store w i b); [exact Hb|].
  rewrite slug_pre_save_kept; [exact Hs|]. right. exists b. split; [reflexivity|exact Ht].
Qed.

Lemma found_inr {A : Type} (o : option A) (message : string) (x : A) :
  found o message = inr x -> o = Some x.
Proof. destruct o; cbn; congruence. Qed.

(** Case analysis along the early returns of a handler. *)
Ltac early_returns :=
  repeat match goal with
    | |- context [match ?e with inl _ => _ | inr _ => _ end] =>
        lazymatch e with
        | protect _ _ => idtac
        | AdminRoutes.admin_caller _ _ => idtac
        | found _ _ => idtac
        | require _ _ => idtac
        | no_errors _ => idtac
        end;
        let H := fresh "Hstep" in
        destruct e as [?|?] eqn:H; [|try apply found_inr in H]
    | x : (_ * _)%type |- _ => destruct x
    | x : unit |- _ => destruct x
    end;
  try (match goal with |- slug_kept ?v _ => exact (slug_kept_refl v) end).

(** A save of a loaded document whose title and slug were not assigned. *)
Ltac save_step :=
  match goal with
  | Hb : blogs ?v !! ?i = Some ?o
    |- context [save ?t ?i (mkDoc (Some ?o) ?x) ?v] =>
      let Hx := fresh "Hx" in
      assert (Hx : title x = title o /\ slug x = slug o)
        by (rewrite ?toggleLike_only_likes;
            repeat match goal with
              | |- context [if ?c then _ else _] => destruct c
              end;
            split; reflexivity);
      let H := fresh "Hkept" in
      let Hs := fresh "Hsave" in
      destruct (save t i (mkDoc (Some o) x) v) as [?|[? ?]] eqn:Hs;
      [exact (slug_kept_refl v)
      |pose proof (slug_kept_save t v i o x _ Hb (proj1 Hx) (proj2 Hx) Hs) as H;
       cbn [snd] in *]
  end.

Lemma slug_kept_get_by_slug clk a s w : slug_kept w (snd (BlogRoutes.get_by_slug clk a s w)).
Proof.
  unfold BlogRoutes.get_by_slug, run. early_returns.
  apply findOne_Some in Hstep as [Hb _].
  destruct (optionalAuth w a); [|apply slug_kept_refl].
  save_step. assumption.
Qed.

Lemma slug_kept_like clk a id w : slug_kept w (snd (BlogRoutes.like clk a id w)).
Proof. unfold BlogRoutes.like, run. early_returns. save_step. assumption. Qed.

Lemma slug_kept_comment clk a id text w :
  slug_kept w (snd (BlogRoutes.comment clk a id text w)).
Proof. unfold BlogRoutes.comment, run. early_returns. save_step. assumption. Qed.

Lemma slug_kept_remove a id w : slug_kept w (snd (BlogRoutes.remove a id w)).
Proof. unfold BlogRoutes.remove, run. early_returns. apply slug_kept_delete. Qed.

Lemma slug_kept_approve clk a id feedback w :
  slug_kept w (snd (AdminRoutes.approve clk a id feedback w)).
Proof.
  unfold AdminRoutes.approve, run. early_returns. save_step.
  by rewrite notify_sends_nothing.
Qed.

Lemma slug_kept_reject clk a id rejection w :
  slug_kept w (snd (AdminRoutes.reject clk a id rejection w)).
Proof.
  unfold AdminRoutes.reject, run. early_returns. save_step.
  by rewrite notify_sends_nothing.
Qed.

Lemma slug_kept_toggle_visibility clk a id w :
  slug_kept w (snd (AdminRoutes.toggle_visibility clk a id w)).
Proof. unfold AdminRoutes.toggle_visibility, run. early_returns. save_step. assumption. Qed.

Lemma slug_kept_admin_remove a id w : slug_kept w (snd (AdminRoutes.remove a id w)).
Proof. unfold AdminRoutes.remove, run. early_returns. apply slug_kept_delete. Qed.

Lemma slug_kept_toggle_status a id w : slug_kept w (snd (AdminRoutes.toggle_status a id w)).
Proof. unfold AdminRoutes.toggle_status, run. early_returns. Qed.

Lemma slug_kept_change_role a id new_role w :
  slug_kept w (snd (AdminRoutes.change_role a id new_role w)).
Proof.
  unfold AdminRoutes.change_role, run.
  destruct (role_of_string new_role); early_returns.
Qed.

Lemma require_inr (ok : bool) (otherwise : Reply) (x : unit) :
  require ok otherwise = inr x -> ok = true.
Proof. destruct ok; cbn; congruence. Qed.

(** A document built by the create route has no slug when it is
    validated, and [slug] is a required path: the document is refused. *)
Lemma validate_new_blog (r : BlogRoutes.CreateBody) (owner : ObjectId) :
  validate (BlogRoutes.new_blog r owner) = false.
Proof.
  unfold validate. cbn [slug BlogRoutes.new_blog truthy].
  rewrite andb_false_r. reflexivity.
Qed.

Lemma Blog_create_new_blog (now : Date) (fresh_id : ObjectId)
    (r : BlogRoutes.CreateBody) (owner : ObjectId) (w : World) :
  Blog_create now fresh_id (BlogRoutes.new_blog r owner) w = inl (Thrown "ValidationError").
Proof. unfold Blog_create. rewrite validate_new_blog. reflexivity. Qed.

(** What the create route answers, case by case; it never writes. *)
Lemma create_runs isURL clk fresh_id a r w :
  BlogRoutes.create isURL clk fresh_id a r w
  = (match protect w a with
     | inl refusal => refusal
     | inr _ =>
         match BlogRoutes.validate_create isURL r with
         | [] => Thrown "ValidationError"
         | (_ :: _) as errors => ValidationErrors errors
         end
     end, w).
Proof.
  unfold BlogRoutes.create.
  destruct (protect w a) as [refusal|[uid u]]; [reflexivity|]. cbn.
  destruct (BlogRoutes.validate_create isURL r); [|reflexivity]. cbn.
  rewrite Blog_create_new_blog. reflexivity.
Qed.

Lemma slug_kept_create isURL clk fresh_id a r w :
  slug_kept w (snd (BlogRoutes.create isURL clk fresh_id a r w)).
Proof. rewrite create_runs. apply slug_kept_refl. Qed.

Lemma slug_after_update isURL update_validators a id r w i b b' :
  blogs w !! i = Some b ->
  blogs (snd (BlogRoutes.update isURL update_validators a id r w)) !! i = Some b' ->
  slug b' = slug b
  \/ i = id /\ exists s, BlogRoutes.u_slug r = Some s /\ slug b' = Some s.
Proof.
  intros Hb. unfold BlogRoutes.update, run.
  repeat match goal with
    | |- context [match ?e with inl _ => _ | inr _ => _ end] =>
        lazymatch e with
        | protect _ _ => idtac
        | found _ _ => idtac
        | require _ _ => idtac
        | no_errors _ => idtac
        end;
        let H := fresh "Hstep" in
        destruct e as [?|?] eqn:H; [|try apply found_inr in H]
    | x : (_ * _)%type |- _ => destruct x
    | x : unit |- _ => destruct x
    end;
    try (cbn; intros Hb'; left; congruence).
  match goal with
  | |- context [BlogRoutes.findByIdAndUpdate _ _ ?q _] => set (r' := q)
  end.
  assert (Hslug : BlogRoutes.u_slug r' = BlogRoutes.u_slug r)
    by (unfold r'; destruct (bool_decide (status _ = published)); reflexivity).
  unfold BlogRoutes.findByIdAndUpdate. rewrite Hslug, Hstep1.
  destruct (BlogRoutes.cast_status (BlogRoutes.u_status r')) as [st|];
    [|cbn; intros Hb'; left; congruence].
  destruct (negb (update_validators r')); [cbn; intros Hb'; left; congruence|].
  destruct (match BlogRoutes.u_slug r with
            | Some s => slug_taken id (Some s) w
            | None => false
            end); [cbn; intros Hb'; left; congruence|].
  cbn. intros Hb'.
  destruct (decide (id = i)) as [->|Hne].
  - rewrite lookup_insert_eq in Hb'. injection Hb' as <-.
    rewrite slug_apply_update, Hslug.
    destruct (BlogRoutes.u_slug r) as [s|]; [right; eauto | left; congruence].
  - rewrite lookup_insert_ne in Hb' by done. left. congruence.
Qed.

(** C6. The slug that the pre-save hook writes is the title in lower
    case, cut at every run of characters outside [a-z0-9] and joined by
    single hyphens, with no hyphen at either end, and on a new document
    the hook does write it.  The create route never gets that far: the
    new document is validated before the hook runs, it has no slug yet,
    [slug] is a required path, and the save throws; no post is stored,
    with or without a slug.  The hook leaves a slug alone once it is set,
    and whenever the title is the one that was loaded; and no request of
    the blog and admin routers changes the slug of an existing post, an
    edit of its title included: the only way to another slug is an update
    whose body itself carries a [slug]. *)
Theorem slug_assigned_once_from_title :
  (forall t : string, slugify t = spec_slug t)
  /\ (forall now b,
        truthy (slug b) = false ->
        slug (pre_save now (mkDoc None b)) = Some (slugify (title b)))
  /\ (forall isURL clk fresh_id a uid u r w,
        protect w a = inr (uid, u) ->
        BlogRoutes.validate_create isURL r = [] ->
        BlogRoutes.create isURL clk fresh_id a r w = (Thrown "ValidationError", w))
  /\ (forall isURL clk fresh_id a r w,
        snd (BlogRoutes.create isURL clk fresh_id a r w) = w)
  /\ (forall now d,
        truthy (slug (cur d)) = true
        \/ (exists o, snapshot d = Some o /\ title (cur d) = title o) ->
        slug (pre_save now d) = slug (cur d))
  /\ (forall isURL update_validators clk a rq w id b b',
        blogs w !! id = Some b ->
        blogs (snd (handle isURL update_validators clk a rq w)) !! id = Some b' ->
        slug b' = slug b
        \/ exists r s, rq = ReqUpdate id r /\ BlogRoutes.u_slug r = Some s
                       /\ slug b' = Some s).
Proof.
  split; [exact slugify_spec|]. split; [|split; [|split; [|split]]].
  - intros now b Hs. unfold pre_save, isModified. cbn. rewrite Hs. cbn.
    destruct (bool_decide (status b = published)
              && negb (bool_decide (is_Some (publishedAt b)))); reflexivity.
  - intros isURL clk fresh_id a uid u r w Hp Hv. rewrite create_runs, Hp, Hv. reflexivity.
  - intros. rewrite create_runs. reflexivity.
  - exact slug_pre_save_kept.
  - intros isURL update_validators clk a rq w id b b' Hb Hb'.
    destruct rq; cbn [handle] in Hb';
      try (left; revert Hb Hb';
           first [ apply slug_kept_get_by_slug | apply slug_kept_create
                 | apply slug_kept_remove | apply slug_kept_like
                 | apply slug_kept_comment | apply slug_kept_approve
                 | apply slug_kept_reject | apply slug_kept_toggle_visibility
                 | apply slug_kept_admin_remove | apply slug_kept_toggle_status
                 | apply slug_kept_change_role ]).
    destruct (slug_after_update _ _ _ _ _ _ _ _ _ Hb Hb') as [H | (-> & s & Hs & H)];
      [left; exact H | right; eauto].
Qed.

Lemma slug_assigned_once_from_title_witness :
  let w := Sample.world published (Some 500) [] in
  let c := BlogRoutes.mkCreateBody "Ten Things I Learned, in 2024!" Sample.text
             "short excerpt text here" "Technology" None None in
  let r := BlogRoutes.mkUpdateBody (Some "An edited title for the post"%string) None None
             None None None None None None None None None None None
             None None None None None None None in
  let w' := snd (handle (fun _ => true) (fun _ => true) Sample.clock (ValidToken 2%N)
                   (ReqUpdate 7%N r) w) in
  BlogRoutes.create (fun _ => true) Sample.clock 8%N (ValidToken 2%N) c w
  = (Thrown "ValidationError", w)
  /\ slug (pre_save 1000 (mkDoc None (BlogRoutes.new_blog c 2%N)))
     = Some "ten-things-i-learned-in-2024"%string
  /\ (title <$> (blogs w' !! 7%N)) = Some "An edited title for the post"%string
  /\ (slug <$> (blogs w' !! 7%N)) = Some (Some "a-brand-new-beginning-for-all"%string).
Proof.
  intros w c r w'.
  destruct slug_assigned_once_from_title as (_ & Hhook & Hcreate & _ & _ & Hkept).
  split; [apply (Hcreate _ _ _ _ 2%N Sample.bob); reflexivity|].
  split; [rewrite Hhook by reflexivity; reflexivity|].
  destruct (blogs w' !! 7%N) as [b'|] eqn:Hb'; [|discriminate Hb'].
  destruct (Hkept (fun _ => true) (fun _ => true) Sample.clock (ValidToken 2%N)
              (ReqUpdate 7%N r) w 7%N (Sample.post published (Some 500) []) b' eq_refl Hb')
    as [Hs | (r0 & s & Hr & Hs & _)].
  - cbn. rewrite Hs. split; [|reflexivity].
    vm_compute in Hb'. injection Hb' as <-. reflexivity.
  - injection Hr as <-. discriminate Hs.
Defined.

(** ** The scenarios of the specification, run on the model *)

Example create_scenario :
  let r := BlogRoutes.mkCreateBody "A brand new beginning for all" Sample.text
             "short excerpt text here" "Technology" None None in
  let w := set_blogs ∅ (Sample.world published None []) in
  BlogRoutes.create (fun _ => true) Sample.clock 8%N (ValidToken 2%N) r w
  = (Thrown "ValidationError", w).
Proof. vm_compute. reflexivity. Qed.

Example approve_scenario :
  let w := Sample.world pending None [] in
  let out := AdminRoutes.approve Sample.clock (ValidToken 1%N) 7%N None w in
  (status <$> (blogs (snd out) !! 7%N)) = Some published
  /\ (publishedAt <$> (blogs (snd out) !! 7%N)) = Some (Some 1000)
  /\ (approvedBy <$> (blogs (snd out) !! 7%N)) = Some (Some 1%N)
  /\ outbox (snd out) = []
  /\ error_kind (fst (AdminRoutes.approve Sample.clock (ValidToken 1%N) 7%N None (snd out)))
     = Some InvalidState.
Proof. vm_compute. repeat split. Qed.

Example reject_scenario :
  let w := Sample.world pending None [] in
  let out := AdminRoutes.reject Sample.clock (ValidToken 1%N) 7%N
               (Some "Needs more sources and citations"%string) w in
  (status <$> (blogs (snd out) !! 7%N)) = Some rejected
  /\ (rejectionReason <$> (blogs (snd out) !! 7%N))
     = Some (Some "Needs more sources and citations"%string)
  /\ error_kind (fst (AdminRoutes.reject Sample.clock (ValidToken 1%N) 7%N
                        (Some "short"%string) w))
     = Some ValidationFailed.
Proof. vm_compute. repeat split. Qed.

(** A stored post whose content is shorter than the schema allows cannot
    be saved again: the fetch of an authenticated reader, a like and an
    approval all end in the validation error, and nothing is written. *)
Example short_post_scenario :
  let w p := mkWorld {[ 7%N := Sample.short_post p ]}
                     (<[ 1%N := Sample.alice ]> {[ 2%N := Sample.bob ]}) [] in
  BlogRoutes.get_by_slug Sample.clock (ValidToken 2%N) "a-brand-new-beginning-for-all"
    (w published) = (Thrown "ValidationError", w published)
  /\ BlogRoutes.like Sample.clock (ValidToken 2%N) 7%N (w published)
     = (Thrown "ValidationError", w published)
  /\ AdminRoutes.approve Sample.clock (ValidToken 1%N) 7%N None (w pending)
     = (Thrown "ValidationError", w pending).
Proof. vm_compute. repeat split. Qed.

(** * Further properties of the routes *)

(** ** What each handler stores *)

(** The handlers with their saves carried out: when the document passes
    validation, the pre-save hook has nothing to do on a loaded document
    saved by these routes; when it does not, nothing is written. *)
Lemma get_by_slug_stores (clk : Clock) (a : Authorization) (s : string) (w : World) :
  BlogRoutes.get_by_slug clk a s w
  = match findOne (published_with_slug s) w with
    | None => (Failure 404 "Blog not found", w)
    | Some (id, b) =>
        match optionalAuth w a with
        | Some _ =>
            if validate b
            then (Success 200 (Data_blog (Some (incrementViews b))),
                  set_blogs (<[id := incrementViews b]> (blogs w)) w)
            else (Thrown "ValidationError", w)
        | None => (Success 200 (Data_blog (Some b)), w)
        end
    end.
Proof.
  unfold BlogRoutes.get_by_slug.
  change (fun b : Blog => bool_decide (slug b = Some s) && bool_decide (status b = published))
    with (published_with_slug s).
  destruct (findOne (published_with_slug s) w) as [[id b]|]; cbn; [|reflexivity].
  destruct (optionalAuth w a); [|reflexivity].
  rewrite save_loaded by (cbn; auto).
  rewrite (validate_ext b (incrementViews b)) by reflexivity.
  destruct (validate b); reflexivity.
Qed.

Lemma like_stores (clk : Clock) (a : Authorization) (id : ObjectId) (w : World) :
  BlogRoutes.like clk a id w
  = match protect w a with
    | inl r => (r, w)
    | inr (uid, _) =>
        match blogs w !! id with
        | None => (Failure 404 "Blog not found", w)
        | Some b =>
            if bool_decide (status b = published) then
              if validate b
              then (Success 200 (Data_like (Z.of_nat (length (likes (toggleLike uid b))))
                                           (bool_decide (uid ∈ likes (toggleLike uid b)))),
                    set_blogs (<[id := toggleLike uid b]> (blogs w)) w)
              else (Thrown "ValidationError", w)
            else (Failure 400 "Cannot like unpublished blog", w)
        end
    end.
Proof.
  unfold BlogRoutes.like. destruct (protect w a) as [r|[uid u]]; [reflexivity|]. cbn.
  destruct (blogs w !! id) as [b|]; [|reflexivity]. cbn.
  destruct (bool_decide (status b = published)); [|reflexivity]. cbn.
  rewrite save_loaded by (rewrite toggleLike_only_likes; cbn; auto).
  rewrite validate_toggleLike. destruct (validate b); reflexivity.
Qed.

Lemma comment_stores (clk : Clock) (a : Authorization) (id : ObjectId) (text : string)
    (w : World) :
  BlogRoutes.comment clk a id text w
  = match protect w a with
    | inl r => (r, w)
    | inr (uid, _) =>
        if isLength 1 (Some 1000%nat) text then
          match blogs w !! id with
          | None => (Failure 404 "Blog not found", w)
          | Some b =>
              if bool_decide (status b = published) then
                if validate (addComment uid text b)
                then (Success 200 (Data_blog (Some (addComment uid text b))),
                      set_blogs (<[id := addComment uid text b]> (blogs w)) w)
                else (Thrown "ValidationError", w)
              else (Failure 400 "Cannot comment on unpublished blog", w)
          end
        else (ValidationErrors ["Comment must be between 1 and 1000 characters"%string], w)
    end.
Proof.
  unfold BlogRoutes.comment. destruct (protect w a) as [r|[uid u]]; [reflexivity|]. cbn.
  destruct (isLength 1 (Some 1000%nat) text); [|reflexivity]. cbn.
  destruct (blogs w !! id) as [b|]; [|reflexivity]. cbn.
  destruct (bool_decide (status b = published)); [|reflexivity]. cbn.
  rewrite save_loaded by (cbn; auto).
  destruct (validate (addComment uid text b)); [|reflexivity].
  cbn. rewrite lookup_insert_eq. reflexivity.
Qed.

Lemma approve_stores (clk : Clock) (a : Authorization) (id : ObjectId)
    (feedback : option BodyValue) (w : World) :
  AdminRoutes.approve clk a id feedback w
  = match AdminRoutes.admin_caller w a with
    | inl r => (r, w)
    | inr (uid, _) =>
        if match feedback with Some v => isString v | None => true end then
          match blogs w !! id with
          | None => (Failure 404 "Blog not found", w)
          | Some b =>
              if bool_decide (status b = pending) then
                if validate b
                then (Success 200 (Data_blog (Some (approved_by uid clk b))),
                      set_blogs (<[id := approved_by uid clk b]> (blogs w)) w)
                else (Thrown "ValidationError", w)
              else (Failure 400 "Blog is not pending approval", w)
          end
        else (ValidationErrors ["Feedback must be a string"%string], w)
    end.
Proof.
  unfold AdminRoutes.approve.
  destruct (AdminRoutes.admin_caller w a) as [r|[uid u]]; [reflexivity|]. cbn.
  destruct (match feedback with Some v => isString v | None => true end); [|reflexivity].
  cbn. destruct (blogs w !! id) as [b|]; [|reflexivity]. cbn.
  destruct (bool_decide (status b = pending)); [|reflexivity]. cbn.
  rewrite save_loaded by (cbn; eauto). fold (approved_by uid clk b).
  rewrite (validate_ext b (approved_by uid clk b)) by reflexivity.
  destruct (validate b); [|reflexivity]. cbn. rewrite notify_sends_nothing. reflexivity.
Qed.

Lemma reject_stores (clk : Clock) (a : Authorization) (id : ObjectId)
    (rejection : option string) (w : World) :
  AdminRoutes.reject clk a id rejection w
  = match AdminRoutes.admin_caller w a with
    | inl r => (r, w)
    | inr _ =>
        if isLength 10 (Some 500%nat) (default EmptyString rejection) then
          match blogs w !! id with
          | None => (Failure 404 "Blog not found", w)
          | Some b =>
              let b' := set_rejectionReason rejection (set_status rejected b) in
              if bool_decide (status b = pending) then
                if validate b'
                then (Success 200 (Data_blog (Some b')),
                      set_blogs (<[id := b']> (blogs w)) w)
                else (Thrown "ValidationError", w)
              else (Failure 400 "Blog is not pending approval", w)
          end
        else (ValidationErrors
                ["Rejection reason must be between 10 and 500 characters"%string], w)
    end.
Proof.
  unfold AdminRoutes.reject.
  destruct (AdminRoutes.admin_caller w a) as [r|[uid u]]; [reflexivity|]. cbn.
  destruct (isLength 10 (Some 500%nat) (default EmptyString rejection)); [|reflexivity]. cbn.
  destruct (blogs w !! id) as [b|]; [|reflexivity]. cbn.
  destruct (bool_decide (status b = pending)); [|reflexivity]. cbn.
  rewrite save_loaded by (cbn; auto).
  destruct (validate _); [|reflexivity]. cbn. rewrite notify_sends_nothing. reflexivity.
Qed.

Lemma toggle_visibility_stores (clk : Clock) (a : Authorization) (id : ObjectId)
    (w : World) :
  AdminRoutes.toggle_visibility clk a id w
  = match AdminRoutes.admin_caller w a with
    | inl r => (r, w)
    | inr _ =>
        match blogs w !! id with
        | None => (Failure 404 "Blog not found", w)
        | Some b =>
            if bool_decide (status b = published) then
              if validate b
              then (Success 200 (Data_blog (Some (set_status hidden b))),
                    set_blogs (<[id := set_status hidden b]> (blogs w)) w)
              else (Thrown "ValidationError", w)
            else (Failure 400 "Can only toggle visibility of published blogs", w)
        end
    end.
Proof.
  unfold AdminRoutes.toggle_visibility.
  destruct (AdminRoutes.admin_caller w a) as [r|[uid u]]; [reflexivity|]. cbn.
  destruct (blogs w !! id) as [b|]; [|reflexivity]. cbn.
  destruct (bool_decide (status b = published)) eqn:E; [|reflexivity]. cbn.
  rewrite save_loaded by (cbn; auto).
  rewrite (bool_decide_eq_false_2 (hidden = published)) by discriminate.
  rewrite (validate_ext b (set_status hidden b)) by reflexivity.
  destruct (validate b); reflexivity.
Qed.

Lemma update_stores isURL update_validators (a : Authorization) (id : ObjectId)
    (r : BlogRoutes.UpdateBody) (w : World) :
  BlogRoutes.update isURL update_validators a id r w
  = match protect w a with
    | inl e => (e, w)
    | inr (uid, caller) =>
        match BlogRoutes.validate_update isURL r with
        | (_ :: _) as errors => (ValidationErrors errors, w)
        | [] =>
            match blogs w !! id with
            | None => (Failure 404 "Blog not found", w)
            | Some b =>
                if bool_decide (role caller = admin) || N.eqb (author b) uid then
                  match BlogRoutes.cast_status (BlogRoutes.u_status (effective_body b r)) with
                  | None => (Thrown "ValidationError", w)
                  | Some st =>
                      if negb (update_validators (effective_body b r))
                      then (Thrown "ValidationError", w)
                      else if match BlogRoutes.u_slug r with
                              | Some s => slug_taken id (Some s) w
                              | None => false
                              end
                      then (Thrown "E11000 duplicate key error", w)
                      else
                        let b' := BlogRoutes.apply_update (effective_body b r) st b in
                        (Success 200 (Data_blog (Some b')),
                         set_blogs (<[id := b']> (blogs w)) w)
                  end
                else (Failure 403 "Not authorized to update this blog", w)
            end
        end
    end.
Proof.
  unfold BlogRoutes.update. destruct (protect w a) as [e|[uid caller]]; [reflexivity|]. cbn.
  destruct (BlogRoutes.validate_update isURL r) as [|e es]; [|reflexivity]. cbn.
  destruct (blogs w !! id) as [b|] eqn:Hb; [|reflexivity]. cbn.
  destruct (bool_decide (role caller = admin)); cbn;
    [|destruct (N.eqb (author b) uid); cbn; [|reflexivity]].
  all: fold (effective_body b r);
    assert (Hs : BlogRoutes.u_slug (effective_body b r) = BlogRoutes.u_slug r)
      by (unfold effective_body; destruct (bool_decide (status b = published)); reflexivity);
    unfold BlogRoutes.findByIdAndUpdate; rewrite Hs, Hb;
    destruct (BlogRoutes.cast_status _) as [st|]; [|reflexivity];
    destruct (negb _); [reflexivity|];
    destruct (match BlogRoutes.u_slug r with Some s => _ | None => _ end); reflexivity.
Qed.

(** Reading a post back after another one, or the same one, was stored. *)
Lemma lookup_stored (m : gmap ObjectId Blog) (i id : ObjectId) (x b b' c : Blog) :
  m !! i = Some x ->
  m !! id = Some b ->
  <[i := b']> m !! id = Some c ->
  (i = id /\ x = b /\ c = b') \/ (i <> id /\ c = b).
Proof.
  intros Hx Hb Hc. destruct (decide (i = id)) as [->|Hne].
  - rewrite lookup_insert_eq in Hc. left. split; [done|]. split; congruence.
  - rewrite lookup_insert_ne in Hc by done. right. split; congruence.
Qed.

(** Every request leaves an existing post as it was or changes it in the
    one way of its route. *)
Lemma handle_post_change isURL update_validators (clk : Clock) (a : Authorization)
    (rq : Request) (w : World) (id : ObjectId) (b b' : Blog) :
  blogs w !! id = Some b ->
  blogs (snd (handle isURL update_validators clk a rq w)) !! id = Some b' ->
  post_change clk a rq id b b'.
Proof.
  intros Hb. unfold post_change.
  assert (Hsame : blogs w !! id = Some b' -> b' = b) by congruence.
  destruct rq as [s|fresh r|i r|i|i|i text|i fb|i rejection|i|i|i|i new_role]; cbn [handle].
  - rewrite get_by_slug_stores.
    destruct (findOne (published_with_slug s) w) as [[j c]|] eqn:Hf; [|auto].
    apply findOne_Some in Hf as [Hc Hp]. apply published_with_slug_true in Hp as [Hs Hst].
    destruct (optionalAuth w a); [|auto]. destruct (validate c) eqn:Hv; [|auto]. cbn.
    intros H.
    destruct (lookup_stored _ _ _ _ _ _ _ Hc Hb H) as [(-> & -> & ->)|[_ ->]]; auto.
  - rewrite create_runs. auto.
  - rewrite update_stores. destruct (protect w a) as [e|[uid u]]; [auto|].
    destruct (BlogRoutes.validate_update isURL r); [|auto].
    destruct (blogs w !! i) as [c|] eqn:Hc; [|auto].
    destruct (_ || _); [|auto].
    destruct (BlogRoutes.cast_status _) as [st|] eqn:Hst; [|auto].
    destruct (negb _); [auto|].
    destruct (match BlogRoutes.u_slug r with Some s => _ | None => _ end); [auto|].
    cbn. intros H.
    destruct (lookup_stored _ _ _ _ _ _ _ Hc Hb H) as [(-> & -> & ->)|[_ ->]];
      [right; eauto | auto].
  - unfold BlogRoutes.remove, run. destruct (protect w a) as [e|[uid u]]; [auto|]. cbn.
    destruct (blogs w !! i); cbn; [|auto].
    destruct (negb _); cbn; [|auto]. intros H.
    apply lookup_delete_Some in H as [_ H]. auto.
  - rewrite like_stores. destruct (protect w a) as [e|[uid u]] eqn:Hp; [auto|].
    destruct (blogs w !! i) as [c|] eqn:Hc; [|auto].
    destruct (bool_decide (status c = published)) eqn:E; [|auto].
    destruct (validate c) eqn:Hv; [|auto].
    apply bool_decide_eq_true in E. cbn. intros H.
    destruct (lookup_stored _ _ _ _ _ _ _ Hc Hb H) as [(-> & -> & ->)|[_ ->]];
      [|auto].
    right. destruct a as [| |t]; try discriminate.
    unfold protect in Hp. destruct (users w !! t) as [v|]; [|discriminate].
    destruct (isActive v); [|discriminate]. injection Hp as <- _. eauto 10.
  - rewrite comment_stores. destruct (protect w a) as [e|[uid u]] eqn:Hp; [auto|].
    destruct (isLength _ _ _); [|auto].
    destruct (blogs w !! i) as [c|] eqn:Hc; [|auto].
    destruct (bool_decide (status c = published)) eqn:E; [|auto].
    destruct (validate _) eqn:Hv; [|auto].
    apply bool_decide_eq_true in E. cbn. intros H.
    destruct (lookup_stored _ _ _ _ _ _ _ Hc Hb H) as [(-> & -> & ->)|[_ ->]];
      [|auto].
    right. destruct a as [| |t]; try discriminate.
    unfold protect in Hp. destruct (users w !! t) as [v|]; [|discriminate].
    destruct (isActive v); [|discriminate]. injection Hp as <- _. eauto 10.
  - rewrite approve_stores.
    destruct (AdminRoutes.admin_caller w a) as [e|[uid u]] eqn:Hp; [auto|].
    destruct (match fb with Some v => isString v | None => true end); [|auto].
    destruct (blogs w !! i) as [c|] eqn:Hc; [|auto].
    destruct (bool_decide (status c = pending)) eqn:E; [|auto].
    destruct (validate c) eqn:Hv; [|auto].
    apply bool_decide_eq_true in E. cbn. intros H.
    destruct (lookup_stored _ _ _ _ _ _ _ Hc Hb H) as [(-> & -> & ->)|[_ ->]];
      [|auto].
    right. apply admin_caller_inv in Hp as (-> & _). eauto 10.
  - rewrite reject_stores.
    destruct (AdminRoutes.admin_caller w a) as [e|[uid u]] eqn:Hp; [auto|].
    destruct (isLength _ _ _); [|auto].
    destruct (blogs w !! i) as [c|] eqn:Hc; [|auto]. cbv zeta.
    destruct (bool_decide (status c = pending)) eqn:E; [|auto].
    destruct (validate _) eqn:Hv; [|auto].
    apply bool_decide_eq_true in E. cbn. intros H.
    destruct (lookup_stored _ _ _ _ _ _ _ Hc Hb H) as [(-> & -> & ->)|[_ ->]];
      auto.
  - rewrite toggle_visibility_stores.
    destruct (AdminRoutes.admin_caller w a) as [e|[uid u]] eqn:Hp; [auto|].
    destruct (blogs w !! i) as [c|] eqn:Hc; [|auto].
    destruct (bool_decide (status c = published)) eqn:E; [|auto].
    destruct (validate c) eqn:Hv; [|auto].
    apply bool_decide_eq_true in E. cbn. intros H.
    destruct (lookup_stored _ _ _ _ _ _ _ Hc Hb H) as [(-> & -> & ->)|[_ ->]];
      auto.
  - unfold AdminRoutes.remove, run.
    destruct (AdminRoutes.admin_caller w a) as [e|[uid u]]; [auto|]. cbn.
    destruct (blogs w !! i); cbn; [|auto]. intros H.
    apply lookup_delete_Some in H as [_ H]. auto.
  - unfold AdminRoutes.toggle_status, run.
    destruct (AdminRoutes.admin_caller w a) as [e|[uid u]]; [auto|]. cbn.
    destruct (users w !! i); cbn; [|auto]. destruct (negb _); cbn; auto.
  - unfold AdminRoutes.change_role, run.
    destruct (AdminRoutes.admin_caller w a) as [e|[uid u]]; [auto|]. cbn.
    destruct (role_of_string new_role); [|auto].
    destruct (users w !! i); cbn; [|auto]. destruct (negb _); cbn; auto.
Qed.

(** ** What an update assigns *)

Lemma proj_assign {A B : Type} (p : Blog -> B) (set : A -> Blog -> Blog) (o : option A)
    (b : Blog) :
  (forall v c, p (set v c) = p c) -> p (BlogRoutes.assign set o b) = p b.
Proof. intros H. destruct o; cbn; auto. Qed.

(** A path of the updated document: the value of the body when the body
    has the path, the old value otherwise. *)
Ltac path_of_update p o :=
  unfold BlogRoutes.apply_update;
  repeat (rewrite (proj_assign p) by reflexivity);
  destruct o; cbn [BlogRoutes.assign fmap option_fmap option_map default];
  [reflexivity|];
  repeat (rewrite (proj_assign p) by reflexivity); reflexivity.

Lemma views_apply_update r st b :
  views (BlogRoutes.apply_update r st b) = default (views b) (BlogRoutes.u_views r).
Proof. path_of_update views (BlogRoutes.u_views r). Qed.

Lemma readTime_apply_update r st b :
  readTime (BlogRoutes.apply_update r st b) = default (readTime b) (BlogRoutes.u_readTime r).
Proof. path_of_update readTime (BlogRoutes.u_readTime r). Qed.

Lemma author_apply_update r st b :
  author (BlogRoutes.apply_update r st b) = default (author b) (BlogRoutes.u_author r).
Proof. path_of_update author (BlogRoutes.u_author r). Qed.

Lemma comments_apply_update r st b :
  comments (BlogRoutes.apply_update r st b) = default (comments b) (BlogRoutes.u_comments r).
Proof. path_of_update comments (BlogRoutes.u_comments r). Qed.

Lemma likes_apply_update r st b :
  likes (BlogRoutes.apply_update r st b) = default (likes b) (BlogRoutes.u_likes r).
Proof. path_of_update likes (BlogRoutes.u_likes r). Qed.

Lemma content_apply_update r st b :
  content (BlogRoutes.apply_update r st b) = default (content b) (BlogRoutes.u_content r).
Proof. path_of_update content (BlogRoutes.u_content r). Qed.

Lemma title_apply_update r st b :
  title (BlogRoutes.apply_update r st b) = default (title b) (trim <$> BlogRoutes.u_title r).
Proof. path_of_update title (BlogRoutes.u_title r). Qed.

Lemma publishedAt_apply_update r st b :
  publishedAt (BlogRoutes.apply_update r st b)
  = match BlogRoutes.u_publishedAt r with Some t => Some t | None => publishedAt b end.
Proof. path_of_update publishedAt (BlogRoutes.u_publishedAt r). Qed.

Lemma approvedBy_apply_update r st b :
  approvedBy (BlogRoutes.apply_update r st b)
  = match BlogRoutes.u_approvedBy r with Some x => Some x | None => approvedBy b end.
Proof. path_of_update approvedBy (BlogRoutes.u_approvedBy r). Qed.

Lemma effective_body_paths (b : Blog) (r : BlogRoutes.UpdateBody) :
  BlogRoutes.u_views (effective_body b r) = BlogRoutes.u_views r
  /\ BlogRoutes.u_readTime (effective_body b r) = BlogRoutes.u_readTime r
  /\ BlogRoutes.u_author (effective_body b r) = BlogRoutes.u_author r
  /\ BlogRoutes.u_comments (effective_body b r) = BlogRoutes.u_comments r
  /\ BlogRoutes.u_likes (effective_body b r) = BlogRoutes.u_likes r
  /\ BlogRoutes.u_content (effective_body b r) = BlogRoutes.u_content r
  /\ BlogRoutes.u_title (effective_body b r) = BlogRoutes.u_title r
  /\ BlogRoutes.u_slug (effective_body b r) = BlogRoutes.u_slug r
  /\ BlogRoutes.u_publishedAt (effective_body b r) = BlogRoutes.u_publishedAt r.
Proof.
  unfold effective_body. destruct (bool_decide (status b = published)); repeat split.
Qed.

Lemma toggle_in_other (u v : ObjectId) (l : list ObjectId) :
  v <> u -> (v ∈ toggle_in u l <-> v ∈ l).
Proof.
  intros Hne. destruct (decide (u ∈ l)) as [Hin|Hout].
  - rewrite (toggle_in_present u l Hin) at 2. rewrite elem_of_cons. tauto.
  - rewrite (toggle_in_absent u l Hout), elem_of_app, list_elem_of_singleton. tauto.
Qed.

(** ** Read time *)

Lemma estimatedReadTime_positive (b : Blog) : 1 <= estimatedReadTime b.
Proof.
  unfold estimatedReadTime.
  pose proof (Math_ceil_div_spec (split_space_length (content b)) 200 ltac:(lia)) as H.
  unfold split_space_length in *. lia.
Qed.

(** X18. The read time is never zero: a text has at least one piece
    between spaces, so the estimate is at least one minute; it is the
    least number of minutes that covers the pieces at 200 a minute, and it
    depends on nothing but the content. *)
Theorem read_time_is_at_least_one_minute (b : Blog) :
  let pieces_of_text := split_space_length (content b) in
  1 <= pieces_of_text
  /\ 1 <= estimatedReadTime b
  /\ (estimatedReadTime b - 1) * 200 < pieces_of_text <= estimatedReadTime b * 200
  /\ forall c, content c = content b -> estimatedReadTime c = estimatedReadTime b.
Proof.
  cbv zeta. split; [unfold split_space_length; lia|].
  split; [apply estimatedReadTime_positive|]. split.
  - unfold estimatedReadTime. apply Math_ceil_div_spec. lia.
  - intros c Hc. unfold estimatedReadTime. by rewrite Hc.
Qed.

(** ** Invariants of the post across requests *)

Section Requests.

Variable isURL : string -> bool.
Variable update_validators : BlogRoutes.UpdateBody -> bool.

(** X1. The status of a post moves only along these edges: approve takes
    [pending] to [published], reject takes [pending] to [rejected], the
    visibility toggle takes [published] to [hidden], an update takes
    [published] to [pending], and an update of a post that is not
    published assigns the status its body carries.  No other request
    changes a status; in particular nothing but an update leads out of
    [draft], [rejected] or [hidden]. *)
Theorem status_moves_along_workflow
    (clk : Clock) (a : Authorization) (rq : Request) (w : World) (id : ObjectId)
    (b b' : Blog) :
  blogs w !! id = Some b ->
  blogs (snd (handle isURL update_validators clk a rq w)) !! id = Some b' ->
  status b' = status b
  \/ ((exists feedback, rq = ReqApprove id feedback)
      /\ status b = pending /\ status b' = published)
  \/ ((exists rejection, rq = ReqReject id rejection)
      /\ status b = pending /\ status b' = rejected)
  \/ (rq = ReqToggleVisibility id /\ status b = published /\ status b' = hidden)
  \/ (exists r, rq = ReqUpdate id r
        /\ (status b = published /\ status b' = pending
            \/ status b <> published
               /\ exists s, BlogRoutes.u_status r = Some s
                            /\ status_of_string s = Some (status b'))).
Proof.
  intros Hb Hb'.
  destruct (handle_post_change _ _ _ _ _ _ _ _ _ Hb Hb') as [->|H]; [by left|].
  destruct rq; try contradiction.
  - destruct H as (_ & _ & _ & ->). by left.
  - destruct H as (-> & st & Hst & ->). rewrite status_apply_update.
    unfold effective_body in Hst. case_bool_decide as Hp.
    + cbn in Hst. injection Hst as <-. do 4 right. eexists. split; [reflexivity|]. by left.
    + destruct (BlogRoutes.u_status r) as [s|] eqn:Hs; cbn in Hst.
      * destruct (status_of_string s) as [x|] eqn:Hx; [|discriminate].
        cbn in Hst. injection Hst as <-. do 4 right. eexists. split; [reflexivity|].
        right. split; [done|]. eauto.
      * injection Hst as <-. by left.
  - destruct H as (_ & _ & _ & uid & _ & ->). rewrite toggleLike_only_likes. by left.
  - destruct H as (_ & _ & uid & _ & _ & ->). by left.
  - destruct H as (-> & Hp & _ & uid & _ & ->). right. left. eauto.
  - destruct H as (-> & Hp & _ & ->). right. right. left. eauto.
  - destruct H as (-> & Hp & _ & ->). do 3 right. left. done.
Qed.


(** X3. The comments of a post are append-only through the routes: a
    request leaves the list alone, or it is a comment request and the list
    gets one new last entry, written by the caller, with the given text
    trimmed of white space at both ends and the edited flag off; the one
    exception is an update whose body itself carries [comments]. *)
Theorem comments_are_append_only
    (clk : Clock) (a : Authorization) (rq : Request) (w : World) (id : ObjectId)
    (b b' : Blog) :
  blogs w !! id = Some b ->
  blogs (snd (handle isURL update_validators clk a rq w)) !! id = Some b' ->
  comments b' = comments b
  \/ (exists text uid, rq = ReqAddComment id text /\ a = ValidToken uid
        /\ comments b' = comments b ++ [mkComment uid (trim text) false])
  \/ (exists r cs, rq = ReqUpdate id r /\ BlogRoutes.u_comments r = Some cs
        /\ comments b' = cs).
Proof.
  intros Hb Hb'.
  destruct (handle_post_change _ _ _ _ _ _ _ _ _ Hb Hb') as [->|H]; [by left|].
  destruct rq; try contradiction.
  - destruct H as (_ & _ & _ & ->). by left.
  - destruct H as (-> & st & _ & ->). rewrite comments_apply_update.
    destruct (effective_body_paths b r) as (_ & _ & _ & -> & _).
    destruct (BlogRoutes.u_comments r) as [v|] eqn:Hv; [right; right; eauto | by left].
  - destruct H as (_ & _ & _ & uid & _ & ->). rewrite toggleLike_only_likes. by left.
  - destruct H as (-> & _ & uid & -> & _ & ->). right. left. eauto.
  - destruct H as (_ & _ & _ & uid & _ & ->). by left.
  - destruct H as (_ & _ & _ & ->). by left.
  - destruct H as (_ & _ & _ & ->). by left.
Qed.

(** X4. Nobody's like is touched by somebody else: whether a user [v] is
    in the like list of a post changes only when [v] is the caller of a
    like request for that post, or when an update carries [likes] in its
    body. *)
Theorem likes_change_only_for_the_caller
    (clk : Clock) (a : Authorization) (rq : Request) (w : World) (id : ObjectId)
    (b b' : Blog) (v : ObjectId) :
  blogs w !! id = Some b ->
  blogs (snd (handle isURL update_validators clk a rq w)) !! id = Some b' ->
  (v ∈ likes b' <-> v ∈ likes b)
  \/ (rq = ReqLike id /\ a = ValidToken v)
  \/ (exists r l, rq = ReqUpdate id r /\ BlogRoutes.u_likes r = Some l /\ likes b' = l).
Proof.
  intros Hb Hb'.
  destruct (handle_post_change _ _ _ _ _ _ _ _ _ Hb Hb') as [->|H]; [by left|].
  destruct rq; try contradiction.
  - destruct H as (_ & _ & _ & ->). by left.
  - destruct H as (-> & st & _ & ->). rewrite likes_apply_update.
    destruct (effective_body_paths b r) as (_ & _ & _ & _ & -> & _).
    destruct (BlogRoutes.u_likes r) as [l|] eqn:Hl; [right; right; eauto | by left].
  - destruct H as (-> & _ & _ & uid & -> & ->).
    destruct (decide (v = uid)) as [->|Hne]; [right; left; done|].
    left. rewrite likes_toggleLike. by apply toggle_in_other.
  - destruct H as (_ & _ & uid & _ & _ & ->). by left.
  - destruct H as (_ & _ & _ & uid & _ & ->). by left.
  - destruct H as (_ & _ & _ & ->). by left.
  - destruct H as (_ & _ & _ & ->). by left.
Qed.

(** X5. The text and the ownership of a post are in the hands of the
    update route alone: after any other request the title, content,
    excerpt, category, tags, image and author are as before.  The read
    time is never recomputed for an existing post: it changes only when an
    update carries [readTime], also when that update replaces the
    content. *)
Theorem only_update_edits_text_and_owner
    (clk : Clock) (a : Authorization) (rq : Request) (w : World) (id : ObjectId)
    (b b' : Blog) :
  blogs w !! id = Some b ->
  blogs (snd (handle isURL update_validators clk a rq w)) !! id = Some b' ->
  ((exists r, rq = ReqUpdate id r)
   \/ (title b' = title b /\ content b' = content b /\ excerpt b' = excerpt b
       /\ category b' = category b /\ tags b' = tags b
       /\ featuredImage b' = featuredImage b /\ author b' = author b))
  /\ (readTime b' = readTime b
      \/ exists r t, rq = ReqUpdate id r /\ BlogRoutes.u_readTime r = Some t
                     /\ readTime b' = t)
  /\ (author b' = author b
      \/ exists r u, rq = ReqUpdate id r /\ BlogRoutes.u_author r = Some u
                     /\ author b' = u).
Proof.
  intros Hb Hb'.
  destruct (handle_post_change _ _ _ _ _ _ _ _ _ Hb Hb') as [->|H].
  { split; [right; repeat split|]. split; by left. }
  destruct rq; try contradiction.
  - destruct H as (_ & _ & _ & ->). split; [right; repeat split|]. split; by left.
  - destruct H as (-> & st & _ & ->). split; [left; eauto|].
    rewrite readTime_apply_update, author_apply_update.
    destruct (effective_body_paths b r) as (_ & -> & -> & _).
    split.
    + destruct (BlogRoutes.u_readTime r) as [t|] eqn:E; [right; eauto | by left].
    + destruct (BlogRoutes.u_author r) as [t|] eqn:E; [right; eauto | by left].
  - destruct H as (_ & _ & _ & uid & _ & ->). rewrite toggleLike_only_likes.
    split; [right; repeat split|]. split; by left.
  - destruct H as (_ & _ & uid & _ & _ & ->). split; [right; repeat split|]. split; by left.
  - destruct H as (_ & _ & _ & uid & _ & ->). split; [right; repeat split|]. split; by left.
  - destruct H as (_ & _ & _ & ->). split; [right; repeat split|]. split; by left.
  - destruct H as (_ & _ & _ & ->). split; [right; repeat split|]. split; by left.
Qed.

End Requests.

Lemma protect_inv (w : World) (a : Authorization) (uid : ObjectId) (u : User) :
  protect w a = inr (uid, u) ->
  a = ValidToken uid /\ users w !! uid = Some u /\ isActive u = true.
Proof.
  unfold protect.
  destruct a as [| |i]; try discriminate.
  destruct (users w !! i) as [v|] eqn:Hu; try discriminate.
  destruct (isActive v) eqn:Hact; try discriminate.
  intros [= <- <-]. auto.
Qed.

(** ** Authentication and authorization *)

Lemma protect_fails (w : World) (a : Authorization) :
  ~ active_caller w a -> exists message, protect w a = inl (Failure 401 message).
Proof.
  intros Hno. unfold protect. destruct a as [| |uid]; eauto.
  destruct (users w !! uid) as [u|] eqn:Hu; eauto.
  destruct (isActive u) eqn:Hact; eauto.
  destruct Hno. exists uid, u. auto.
Qed.

Lemma admin_caller_of_protect (w : World) (a : Authorization) :
  AdminRoutes.admin_caller w a
  = match protect w a with
    | inl e => inl e
    | inr (uid, u) =>
        if bool_decide (role u = admin) then inr (uid, u)
        else inl (Failure 403 "Access denied. Admin role required.")
    end.
Proof.
  unfold AdminRoutes.admin_caller, admin_only.
  destruct (protect w a) as [e|[uid u]]; [reflexivity|]. cbn.
  destruct (bool_decide (role u = admin)); reflexivity.
Qed.

Section Gates.

Variable isURL : string -> bool.
Variable update_validators : BlogRoutes.UpdateBody -> bool.

(** X6. The routes that are registered with [protect], which are create,
    update, delete, like and comment in the blog router and, in the admin
    router, approve, reject, toggle-visibility, delete, toggle-status and
    change-role, turn away a caller who is not an existing active user:
    without a bearer token, with a token that does not verify, with the
    token of a user who no longer exists or of one who is deactivated,
    the request is answered 401 and nothing is written. *)
Theorem protected_routes_need_active_user
    (clk : Clock) (a : Authorization) (rq : Request) (w : World) :
  ~ active_caller w a ->
  behind_protect rq = true ->
  exists message,
    handle isURL update_validators clk a rq w = (Failure 401 message, w).
Proof.
  intros Hno Hrq. destruct (protect_fails w a Hno) as [message Hp].
  exists message.
  destruct rq; try discriminate Hrq; cbn [handle];
    unfold BlogRoutes.create, BlogRoutes.update, BlogRoutes.remove, BlogRoutes.like,
      BlogRoutes.comment, AdminRoutes.approve, AdminRoutes.reject,
      AdminRoutes.toggle_visibility, AdminRoutes.remove, AdminRoutes.toggle_status,
      AdminRoutes.change_role;
    rewrite ?admin_caller_of_protect, Hp; reflexivity.
Qed.

(** X7. The admin router is closed to everybody else: an active user
    whose role is not [admin] gets 403 "Access denied. Admin role
    required." from approve, reject, toggle-visibility, the admin delete,
    toggle-status and change-role, and nothing is written. *)
Theorem admin_routes_need_admin_role
    (clk : Clock) (a : Authorization) (uid : ObjectId) (u : User) (rq : Request)
    (w : World) :
  protect w a = inr (uid, u) ->
  role u <> admin ->
  is_admin_request rq = true ->
  handle isURL update_validators clk a rq w
  = (Failure 403 "Access denied. Admin role required.", w).
Proof.
  intros Hp Hrole Hrq.
  assert (Hadm : AdminRoutes.admin_caller w a
                 = inl (Failure 403 "Access denied. Admin role required.")).
  { rewrite admin_caller_of_protect, Hp. by rewrite bool_decide_eq_false_2. }
  destruct rq; try discriminate Hrq; cbn [handle];
    unfold AdminRoutes.approve, AdminRoutes.reject, AdminRoutes.toggle_visibility,
      AdminRoutes.remove, AdminRoutes.toggle_status, AdminRoutes.change_role;
    rewrite Hadm; reflexivity.
Qed.

(** X8. A caller who is neither an admin nor the author of a post cannot
    edit or delete it: delete answers 403, update answers 403 once its
    body passes the validators of the route and fails in any case, and
    nothing is written either way. *)
Theorem strangers_cannot_edit_or_delete
    (a : Authorization) (uid : ObjectId) (u : User) (id : ObjectId)
    (r : BlogRoutes.UpdateBody) (w : World) (b : Blog) :
  protect w a = inr (uid, u) ->
  role u <> admin ->
  blogs w !! id = Some b ->
  author b <> uid ->
  BlogRoutes.remove a id w = (Failure 403 "Not authorized to delete this blog", w)
  /\ snd (BlogRoutes.update isURL update_validators a id r w) = w
  /\ is_failure (fst (BlogRoutes.update isURL update_validators a id r w)) = true
  /\ (BlogRoutes.validate_update isURL r = [] ->
      BlogRoutes.update isURL update_validators a id r w
      = (Failure 403 "Not authorized to update this blog", w)).
Proof.
  intros Hp Hrole Hb Hauth.
  apply N.eqb_neq in Hauth.
  split.
  { unfold BlogRoutes.remove. rewrite Hp. cbn. rewrite Hb. cbn.
    rewrite bool_decide_eq_false_2, Hauth by done. reflexivity. }
  rewrite update_stores, Hp, Hb, bool_decide_eq_false_2, Hauth by done. cbn.
  destruct (BlogRoutes.validate_update isURL r); cbn; repeat split; done.
Qed.

(** X9. The author of a post, and any admin, deletes it: the post is gone,
    every other post and every user is as before.  Deleting an id that
    does not exist answers 404 and writes nothing. *)
Theorem owner_or_admin_deletes
    (a : Authorization) (uid : ObjectId) (u : User) (id : ObjectId) (w : World) :
  protect w a = inr (uid, u) ->
  (forall b, blogs w !! id = Some b -> role u = admin \/ author b = uid) ->
  let w' := snd (BlogRoutes.remove a id w) in
  (blogs w !! id = None ->
   BlogRoutes.remove a id w = (Failure 404 "Blog not found", w))
  /\ (is_Some (blogs w !! id) ->
      fst (BlogRoutes.remove a id w) = Success 200 Data_none
      /\ blogs w' !! id = None)
  /\ (forall j, j <> id -> blogs w' !! j = blogs w !! j)
  /\ users w' = users w.
Proof.
  intros Hp Hauth w'. subst w'. unfold BlogRoutes.remove. rewrite Hp. cbn.
  destruct (blogs w !! id) as [b|] eqn:Hb; cbn.
  - assert (Hok : negb (negb (bool_decide (role u = admin)) && negb (N.eqb (author b) uid))
                  = true).
    { destruct (Hauth b eq_refl) as [Hr | Ha].
      - rewrite (bool_decide_eq_true_2 _ Hr). reflexivity.
      - rewrite Ha, N.eqb_refl, andb_false_r. reflexivity. }
    rewrite Hok. cbn. split; [discriminate|]. split.
    + intros _. split; [reflexivity | apply lookup_delete_eq].
    + split; [|reflexivity]. intros j Hj. by apply lookup_delete_ne.
  - split; [reflexivity|]. split; [intros [? [=]]|]. split; reflexivity.
Qed.

End Gates.

(** ** Views *)






(** ** Engagement *)

Lemma length_string_of_list_ascii (l : list ascii) :
  String.length (string_of_list_ascii l) = length l.
Proof. induction l as [|c l IH]; cbn; congruence. Qed.

Lemma length_list_ascii_of_string (s : string) :
  length (list_ascii_of_string s) = String.length s.
Proof. induction s as [|c s IH]; cbn; congruence. Qed.

(** Trimming never makes a text longer. *)
Lemma length_trim (s : string) : (String.length (trim s) <= String.length s)%nat.
Proof.
  unfold trim, trim_chars.
  set (go := fix go (l : list ascii) : list ascii :=
               match l with
               | c :: r => if is_space c then go r else l
               | [] => []
               end).
  assert (Hgo : forall l, (length (go l) <= length l)%nat).
  { induction l as [|c l IH]; cbn; [lia|]. destruct (is_space c); cbn; lia. }
  rewrite length_string_of_list_ascii, length_rev.
  etransitivity; [apply Hgo|]. rewrite length_rev.
  etransitivity; [apply Hgo|]. by rewrite length_list_ascii_of_string.
Qed.

(** The new comment is the one thing of the document that validation has
    not seen before. *)
Lemma validate_addComment (uid : ObjectId) (text : string) (b : Blog) :
  validate (addComment uid text b)
  = validate b && valid_comment (mkComment uid (trim text) false).
Proof.
  unfold validate. cbn [addComment title slug content excerpt category tags
                        rejectionReason comments set_comments].
  rewrite forallb_app. cbn [forallb]. rewrite andb_true_r, andb_assoc. reflexivity.
Qed.

Lemma valid_trimmed_comment (uid : ObjectId) (text : string) :
  isLength 1 (Some 1000%nat) text = true ->
  valid_comment (mkComment uid (trim text) false)
  = negb (String.eqb (trim text) EmptyString).
Proof.
  intros Hlen. unfold valid_comment. cbn [comment_content].
  unfold isLength in Hlen. apply andb_true_iff in Hlen as [_ Hmax].
  apply Nat.leb_le in Hmax. pose proof (length_trim text).
  rewrite (proj2 (Nat.leb_le _ _)) by lia. apply andb_true_r.
Qed.

(** X12. A comment needs a published post: on any other status the route
    answers 400 "Cannot comment on unpublished blog" and writes nothing,
    and a text outside 1 to 1000 characters is turned down before the post
    is even looked up.  On a published post the text is stored trimmed:
    the comment becomes the last entry of the list, the count goes up by
    one and the reply carries the post as stored.  A text of white space
    only passes the check of the route and is then refused by the schema,
    as is any comment on a post that does not pass validation itself: the
    save throws and nothing is written. *)
Theorem comment_needs_published_post
    (clk : Clock) (a : Authorization) (uid : ObjectId) (u : User) (id : ObjectId)
    (text : string) (w : World) (b : Blog) :
  protect w a = inr (uid, u) ->
  blogs w !! id = Some b ->
  let out := BlogRoutes.comment clk a id text w in
  (isLength 1 (Some 1000%nat) text = false ->
   error_kind (fst out) = Some ValidationFailed /\ snd out = w)
  /\ (isLength 1 (Some 1000%nat) text = true ->
      status b <> published ->
      out = (Failure 400 "Cannot comment on unpublished blog", w))
  /\ (isLength 1 (Some 1000%nat) text = true ->
      status b = published ->
      trim text = EmptyString \/ validate b = false ->
      out = (Thrown "ValidationError", w))
  /\ (isLength 1 (Some 1000%nat) text = true ->
      status b = published ->
      trim text <> EmptyString ->
      validate b = true ->
      out = (Success 200 (Data_blog (Some (addComment uid text b))),
             set_blogs (<[id := addComment uid text b]> (blogs w)) w)
      /\ comments (addComment uid text b) = comments b ++ [mkComment uid (trim text) false]
      /\ commentsCount (addComment uid text b) = commentsCount b + 1).
Proof.
  intros Hp Hb out. subst out. rewrite comment_stores, Hp, Hb.
  split; [|split; [|split]].
  - intros ->. split; reflexivity.
  - intros -> Hst. by rewrite bool_decide_eq_false_2.
  - intros Hlen Hst Hbad. rewrite Hlen, bool_decide_eq_true_2 by done.
    rewrite validate_addComment, valid_trimmed_comment by done.
    destruct Hbad as [-> | ->]; [|reflexivity].
    cbn. rewrite andb_false_r. reflexivity.
  - intros Hlen Hst Htext Hv. rewrite Hlen, bool_decide_eq_true_2 by done.
    rewrite validate_addComment, valid_trimmed_comment, Hv by done.
    apply String.eqb_neq in Htext. rewrite Htext. cbn [negb andb].
    split; [reflexivity|]. split; [reflexivity|].
    unfold commentsCount. cbn. rewrite length_app. cbn. lia.
Qed.

(** X13. The reply to a like tells the state after the toggle: the count
    is the length of the stored list and the flag says whether the caller
    is in it.  For a list without repetitions the flag is the negation of
    what it was and the count moves by one accordingly.  A post that is
    not published answers 400 "Cannot like unpublished blog" and is not
    written, and a published post that does not pass the validation of
    the schema is not written either: the save throws. *)
Theorem like_reply_reports_the_new_state
    (clk : Clock) (a : Authorization) (uid : ObjectId) (u : User) (id : ObjectId)
    (w : World) (b : Blog) :
  protect w a = inr (uid, u) ->
  blogs w !! id = Some b ->
  (status b <> published ->
   BlogRoutes.like clk a id w = (Failure 400 "Cannot like unpublished blog", w))
  /\ (status b = published ->
      validate b = false ->
      BlogRoutes.like clk a id w = (Thrown "ValidationError", w))
  /\ (status b = published ->
      validate b = true ->
      NoDup (likes b) ->
      exists (count : Z) (liked : bool),
        BlogRoutes.like clk a id w
        = (Success 200 (Data_like count liked),
           set_blogs (<[id := toggleLike uid b]> (blogs w)) w)
        /\ count = likesCount (toggleLike uid b)
        /\ liked = negb (bool_decide (uid ∈ likes b))
        /\ count = if liked then likesCount b + 1 else likesCount b - 1).
Proof.
  intros Hp Hb. rewrite like_stores, Hp, Hb. split; [|split].
  - intros Hst. by rewrite bool_decide_eq_false_2.
  - intros Hst ->. by rewrite bool_decide_eq_true_2.
  - intros Hst -> Hnd. rewrite bool_decide_eq_true_2 by done.
    eexists _, _. split; [reflexivity|]. split; [reflexivity|].
    rewrite likes_toggleLike. unfold likesCount.
    destruct (decide (uid ∈ likes b)) as [Hin|Hout].
    + rewrite (bool_decide_eq_true_2 _ Hin).
      rewrite bool_decide_eq_false_2 by (by apply toggle_in_removes).
      split; [reflexivity|]. cbn.
      pose proof (toggle_in_present uid (likes b) Hin) as Hperm.
      apply Permutation_length in Hperm. cbn in Hperm. lia.
    + rewrite (bool_decide_eq_false_2 _ Hout), toggle_in_absent by done.
      rewrite bool_decide_eq_true_2
        by (apply elem_of_app; right; by apply list_elem_of_singleton).
      split; [reflexivity|]. cbn. rewrite length_app. cbn. lia.
Qed.

(** X14. Likes of different users do not get in each other's way: toggling
    for [u] and then for [v] gives the same members, with the same
    multiplicities, as toggling for [v] and then for [u]. *)
Theorem toggles_of_different_users_commute (u v : ObjectId) (b : Blog) :
  u <> v ->
  likes (toggleLike u (toggleLike v b)) ≡ₚ likes (toggleLike v (toggleLike u b)).
Proof.
  intros Hne. rewrite !likes_toggleLike.
  assert (Hvu : v <> u) by congruence.
  destruct (decide (u ∈ likes b)) as [Hu|Hu]; destruct (decide (v ∈ likes b)) as [Hv|Hv].
  - assert (Hu' : u ∈ toggle_in v (likes b)) by (by apply toggle_in_other).
    assert (Hv' : v ∈ toggle_in u (likes b)) by (by apply toggle_in_other).
    apply (Permutation_cons_inv (a := u)), (Permutation_cons_inv (a := v)).
    rewrite <- (toggle_in_present u _ Hu'), <- (toggle_in_present v _ Hv).
    rewrite perm_swap.
    rewrite <- (toggle_in_present v _ Hv'), <- (toggle_in_present u _ Hu). reflexivity.
  - assert (Hu' : u ∈ toggle_in v (likes b)) by (by apply toggle_in_other).
    assert (Hv' : v ∉ toggle_in u (likes b)) by (by rewrite toggle_in_other).
    rewrite (toggle_in_absent v _ Hv').
    apply (Permutation_cons_inv (a := u)).
    rewrite <- (toggle_in_present u _ Hu'), (toggle_in_absent v _ Hv).
    rewrite (toggle_in_present u _ Hu) at 1. reflexivity.
  - assert (Hu' : u ∉ toggle_in v (likes b)) by (by rewrite toggle_in_other).
    assert (Hv' : v ∈ toggle_in u (likes b)) by (by apply toggle_in_other).
    rewrite (toggle_in_absent u _ Hu').
    apply (Permutation_cons_inv (a := v)).
    rewrite <- (toggle_in_present v _ Hv'), (toggle_in_absent u _ Hu).
    rewrite (toggle_in_present v _ Hv) at 2. reflexivity.
  - assert (Hu' : u ∉ toggle_in v (likes b)) by (by rewrite toggle_in_other).
    assert (Hv' : v ∉ toggle_in u (likes b)) by (by rewrite toggle_in_other).
    rewrite (toggle_in_absent u _ Hu'), (toggle_in_absent v _ Hv').
    rewrite (toggle_in_absent u _ Hu), (toggle_in_absent v _ Hv).
    rewrite <- !app_assoc. apply Permutation_app_head. cbn. apply perm_swap.
Qed.

(** ** Creating, editing and moderating *)

Section Authoring.

Variable isURL : string -> bool.
Variable update_validators : BlogRoutes.UpdateBody -> bool.

(** A document that fails validation for another reason than its
    rejection reason fails it whatever is assigned to the paths that the
    validators do not read, to the rejection reason, or pushed onto the
    comments. *)
Lemma validate_stays_false (b c : Blog) (more : list Comment) :
  title c = title b -> slug c = slug b -> content c = content b ->
  excerpt c = excerpt b -> category c = category b -> tags c = tags b ->
  comments c = comments b ++ more ->
  validate (set_rejectionReason None b) = false ->
  validate c = false.
Proof.
  unfold validate. cbn [title slug content excerpt category tags rejectionReason
                        comments set_rejectionReason].
  intros -> -> -> -> -> -> -> H. rewrite forallb_app.
  destruct (isLength 10 (Some 200%nat) (title b)); [|reflexivity].
  destruct (truthy (slug b)); [|reflexivity].
  destruct (isLength 100 None (content b)); [|reflexivity].
  destruct (isLength 1 (Some 300%nat) (excerpt b)); [|reflexivity].
  destruct (bool_decide (category b ∈ categories)); [|reflexivity].
  destruct (forallb _ (tags b)); [|reflexivity].
  cbn in H. rewrite H. cbn. apply andb_false_r.
Qed.

(** X15. A stored post that fails the validation of the schema (for
    another reason than its rejection reason) cannot be saved again, so
    every route that saves leaves it exactly as it was: the fetch by slug
    does not count the view, like and comment are not stored, approve,
    reject and the visibility toggle do not decide.  Only the update
    route, which does not save, changes such a post. *)
Theorem unsavable_post_is_left_alone
    (clk : Clock) (a : Authorization) (rq : Request) (w : World) (id : ObjectId)
    (b b' : Blog) :
  blogs w !! id = Some b ->
  validate (set_rejectionReason None b) = false ->
  blogs (snd (handle isURL update_validators clk a rq w)) !! id = Some b' ->
  b' = b \/ exists r, rq = ReqUpdate id r.
Proof.
  intros Hb Hbad Hb'.
  assert (Hno : forall c more,
            title c = title b -> slug c = slug b -> content c = content b ->
            excerpt c = excerpt b -> category c = category b -> tags c = tags b ->
            comments c = comments b ++ more -> validate c = true -> False).
  { intros c more Ht Hs Hc He Hcat Htags Hcom Hv.
    rewrite (validate_stays_false b c more) in Hv by done. discriminate. }
  destruct (handle_post_change _ _ _ _ _ _ _ _ _ Hb Hb') as [->|H]; [by left|].
  destruct rq; try contradiction;
    try (exfalso;
         first [ destruct H as (_ & _ & Hv & _);
                 eapply Hno; last exact Hv;
                 first [ reflexivity | symmetry; apply app_nil_r ]
               | destruct H as (_ & _ & uid & _ & Hv & _);
                 eapply Hno; last exact Hv;
                 first [ reflexivity | symmetry; apply app_nil_r ] ]).
  destruct H as (-> & _). right. eauto.
Qed.

(** X16. Moderation can be walked around by the author: the update route
    hands the whole body to the database, so on a post that is not
    published a [status] in the body is stored as it is.  The owner of a
    [pending], [draft], [rejected] or [hidden] post who sends status
    [published] gets a published post that no admin approved. *)
Theorem update_assigns_status_of_unpublished_post
    (a : Authorization) (uid : ObjectId) (u : User) (id : ObjectId)
    (r : BlogRoutes.UpdateBody) (w : World) (b : Blog) (s : string) (st : Status) :
  protect w a = inr (uid, u) ->
  blogs w !! id = Some b ->
  author b = uid ->
  status b <> published ->
  BlogRoutes.u_status r = Some s ->
  status_of_string s = Some st ->
  BlogRoutes.validate_update isURL r = [] ->
  update_validators r = true ->
  (forall x, BlogRoutes.u_slug r = Some x -> slug_taken id (Some x) w = false) ->
  exists b',
    BlogRoutes.update isURL update_validators a id r w
    = (Success 200 (Data_blog (Some b')), set_blogs (<[id := b']> (blogs w)) w)
    /\ status b' = st
    /\ approvedBy b' = match BlogRoutes.u_approvedBy r with
                       | Some x => Some x
                       | None => approvedBy b
                       end.
Proof.
  intros Hp Hb Hauth Hst Hs Hcast Hv Hval Hfree.
  rewrite update_stores, Hp, Hv, Hb, Hauth, N.eqb_refl, orb_true_r.
  assert (He : effective_body b r = r)
    by (unfold effective_body; by rewrite bool_decide_eq_false_2).
  rewrite He, Hs. cbn. rewrite Hcast. cbn. rewrite Hval. cbn.
  assert (Hfree' : match BlogRoutes.u_slug r with
                   | Some x => slug_taken id (Some x) w
                   | None => false
                   end = false)
    by (destruct (BlogRoutes.u_slug r); auto).
  rewrite Hfree'. eexists. split; [reflexivity|]. split.
  - apply status_apply_update.
  - apply approvedBy_apply_update.
Qed.

End Authoring.

(** A rejection with a reason that the route accepts does not make a
    valid post invalid. *)
Lemma validate_rejected (rejection : option string) (b : Blog) :
  isLength 10 (Some 500%nat) (default EmptyString rejection) = true ->
  validate b = true ->
  validate (set_rejectionReason rejection (set_status rejected b)) = true.
Proof.
  unfold validate. cbn [title slug content excerpt category tags rejectionReason
                        comments set_rejectionReason set_status].
  intros Hlen H.
  apply andb_true_iff in H as [H Hcomments]. apply andb_true_iff in H as [H _].
  rewrite H, Hcomments, andb_true_r. cbn [andb].
  destruct rejection as [reason|]; [|reflexivity].
  unfold isLength in Hlen. cbn [default id] in Hlen.
  by apply andb_true_iff in Hlen as [_ Hmax].
Qed.

Section Mail.

Variable isURL : string -> bool.
Variable update_validators : BlogRoutes.UpdateBody -> bool.

(** X17. No decision is ever mailed.  The mail helper asks the mailer
    library for a function it does not have, the call throws before a
    message is built, and approve and reject catch the failure and go on:
    whatever the request, the outbox is afterwards what it was.  The
    decision on a pending post that passes validation is stored and
    answered with success all the same. *)
Theorem decisions_are_never_mailed
    (clk : Clock) (a : Authorization) (uid : ObjectId) (u : User) (id : ObjectId)
    (rejection : option string) (w : World) (b : Blog) :
  AdminRoutes.admin_caller w a = inr (uid, u) ->
  blogs w !! id = Some b ->
  status b = pending ->
  validate b = true ->
  isLength 10 (Some 500%nat) (default EmptyString rejection) = true ->
  let rejected_post := set_rejectionReason rejection (set_status rejected b) in
  AdminRoutes.approve clk a id None w
  = (Success 200 (Data_blog (Some (approved_by uid clk b))),
     set_blogs (<[id := approved_by uid clk b]> (blogs w)) w)
  /\ AdminRoutes.reject clk a id rejection w
     = (Success 200 (Data_blog (Some rejected_post)),
        set_blogs (<[id := rejected_post]> (blogs w)) w)
  /\ forall (c : Authorization) (rq : Request) (v : World),
       outbox (snd (handle isURL update_validators clk c rq v)) = outbox v.
Proof.
  intros Hadm Hb Hst Hv Hlen rejected_post. split; [|split].
  - rewrite approve_stores, Hadm, Hb, bool_decide_eq_true_2, Hv by done. reflexivity.
  - rewrite reject_stores, Hadm, Hlen, Hb. cbv zeta.
    rewrite bool_decide_eq_true_2, validate_rejected by done. reflexivity.
  - intros c rq v.
    destruct rq as [s|fresh r|i r|i|i|i text|i fb|i reason|i|i|i|i new_role]; cbn [handle];
      [ rewrite get_by_slug_stores | rewrite create_runs | rewrite update_stores
      | unfold BlogRoutes.remove, run | rewrite like_stores | rewrite comment_stores
      | rewrite approve_stores | rewrite reject_stores | rewrite toggle_visibility_stores
      | unfold AdminRoutes.remove, run | unfold AdminRoutes.toggle_status, run
      | unfold AdminRoutes.change_role, run ];
      cbv zeta;
      repeat match goal with
        | |- context [match ?e with _ => _ end] =>
            lazymatch e with
            | context [match _ with _ => _ end] => fail
            | _ => destruct e
            end
        | |- context [if ?c then _ else _] => destruct c
        end;
      reflexivity.
Qed.

End Mail.

(** ** The collections across requests *)

(** Case analysis along a handler whose saves are carried out; a look-up
    in the blog collection is remembered. *)
Ltac handler_cases :=
  cbv zeta;
  repeat match goal with
    | |- context [match blogs ?w !! ?i with _ => _ end] =>
        let H := fresh "Hc" in destruct (blogs w !! i) eqn:H
    | |- context [match ?e with _ => _ end] =>
        lazymatch e with
        | context [match _ with _ => _ end] => fail
        | _ => destruct e
        end
    | |- context [if ?c then _ else _] => destruct c
    end;
  cbn [snd blogs users set_blogs set_users].

Section Collections.

Variable isURL : string -> bool.
Variable update_validators : BlogRoutes.UpdateBody -> bool.

(** X19. Posts go only through the delete routes, and none ever comes: a
    post that is there before a request and gone after it was deleted by
    that request, through the author's or the admin's delete route; and
    an id that holds no post before a request holds none after it, the
    create request included, whose save is always refused. *)
Theorem posts_come_and_go_by_their_routes
    (clk : Clock) (a : Authorization) (rq : Request) (w : World) (id : ObjectId) :
  let w' := snd (handle isURL update_validators clk a rq w) in
  (is_Some (blogs w !! id) -> blogs w' !! id = None ->
   rq = ReqDelete id \/ rq = ReqAdminDelete id)
  /\ (blogs w !! id = None -> blogs w' !! id = None).
Proof.
  cbv zeta.
  destruct rq as [s|fresh r|i r|i|i|i text|i fb|i rejection|i|i|i|i new_role]; cbn [handle];
    [ rewrite get_by_slug_stores;
      destruct (findOne (published_with_slug s) w) as [[j c]|] eqn:Hf;
      [apply findOne_Some in Hf as [Hc _]|]
    | rewrite create_runs | rewrite update_stores
    | unfold BlogRoutes.remove, run | rewrite like_stores | rewrite comment_stores
    | rewrite approve_stores | rewrite reject_stores | rewrite toggle_visibility_stores
    | unfold AdminRoutes.remove, run | unfold AdminRoutes.toggle_status, run
    | unfold AdminRoutes.change_role, run ];
    handler_cases;
    (split; [intros [x Hx] Hn | intros Hn]);
    rewrite ?lookup_insert_None, ?lookup_delete_None in *;
    try congruence;
    try (match goal with H : _ /\ _ |- _ => destruct H; congruence end);
    try (split; [assumption | intros ->; congruence]);
    try (match goal with
         | H : _ \/ _ |- _ =>
             destruct H as [->|H]; [first [by left | by right] | congruence]
         end);
    try (by right).
Qed.

End Collections.

Section Accounts.

Variable isURL : string -> bool.
Variable update_validators : BlogRoutes.UpdateBody -> bool.

Lemma users_after_blog_request (clk : Clock) (a : Authorization) (rq : Request) (w : World) :
  (forall i, rq <> ReqToggleStatus i) ->
  (forall i new_role, rq <> ReqChangeRole i new_role) ->
  users (snd (handle isURL update_validators clk a rq w)) = users w.
Proof.
  intros H1 H2.
  destruct rq as [s|fresh r|i r|i|i|i text|i fb|i rejection|i|i|i|i new_role]; cbn [handle];
    [ rewrite get_by_slug_stores | rewrite create_runs | rewrite update_stores
    | unfold BlogRoutes.remove, run | rewrite like_stores | rewrite comment_stores
    | rewrite approve_stores | rewrite reject_stores | rewrite toggle_visibility_stores
    | unfold AdminRoutes.remove, run | destruct (H1 i eq_refl)
    | destruct (H2 i new_role eq_refl) ];
    handler_cases; reflexivity.
Qed.

(** X20. Accounts change only through the two admin routes for users, and
    never by the caller's own request: after any request every user is
    still there with the same e-mail address and first name, and the role
    and the active flag are as before unless the request is toggle-status
    or change-role for that user, sent by somebody else.  No request adds
    or removes a user. *)
Theorem accounts_change_only_by_admin_routes
    (clk : Clock) (a : Authorization) (rq : Request) (w : World) (j : ObjectId) :
  let w' := snd (handle isURL update_validators clk a rq w) in
  (users w !! j = None -> users w' !! j = None)
  /\ forall u, users w !! j = Some u ->
       users w' !! j = Some u
       \/ (rq = ReqToggleStatus j /\ a <> ValidToken j
           /\ users w' !! j = Some (set_isActive (negb (isActive u)) u))
       \/ (exists new_role r,
             rq = ReqChangeRole j new_role /\ role_of_string new_role = Some r
             /\ a <> ValidToken j /\ users w' !! j = Some (set_role r u)).
Proof.
  cbv zeta.
  assert (Hother : (forall i, rq <> ReqToggleStatus i) ->
                   (forall i new_role, rq <> ReqChangeRole i new_role) ->
                   (users w !! j = None ->
                    users (snd (handle isURL update_validators clk a rq w)) !! j = None)
                   /\ forall u, users w !! j = Some u ->
                        users (snd (handle isURL update_validators clk a rq w)) !! j
                        = Some u).
  { intros H1 H2. rewrite users_after_blog_request by done. auto. }
  destruct rq as [s|fresh r|i r|i|i|i text|i|i rejection|i|i|i|i new_role];
    try (destruct Hother as [Hn Hs]; [done | done | split; [exact Hn | left; auto]]).
  - clear Hother. cbn [handle]. unfold AdminRoutes.toggle_status, run.
    destruct (AdminRoutes.admin_caller w a) as [e|[uid c]] eqn:Hadm; cbn; [by auto|].
    destruct (users w !! i) as [t|] eqn:Ht; cbn; [|by auto].
    destruct (N.eqb_spec i uid) as [->|Hne]; cbn; [by auto|].
    apply admin_caller_inv in Hadm as (-> & _).
    split.
    + intros Hj. rewrite lookup_insert_ne; [done | congruence].
    + intros u Hu. destruct (decide (i = j)) as [->|Hij].
      * right. left. rewrite lookup_insert_eq. split; [done|].
        split; [congruence|]. congruence.
      * left. by rewrite lookup_insert_ne.
  - clear Hother. cbn [handle]. unfold AdminRoutes.change_role, run.
    destruct (AdminRoutes.admin_caller w a) as [e|[uid c]] eqn:Hadm; cbn; [by auto|].
    destruct (role_of_string new_role) as [r|] eqn:Hr; [|by auto].
    destruct (users w !! i) as [t|] eqn:Ht; cbn; [|by auto].
    destruct (N.eqb_spec i uid) as [->|Hne]; cbn; [by auto|].
    apply admin_caller_inv in Hadm as (-> & _).
    split.
    + intros Hj. rewrite lookup_insert_ne; [done | congruence].
    + intros u Hu. destruct (decide (i = j)) as [->|Hij].
      * right. right. rewrite lookup_insert_eq. exists new_role, r.
        split; [done|]. split; [done|]. split; [congruence|]. congruence.
      * left. by rewrite lookup_insert_ne.
Qed.

End Accounts.

(** ** Hidden posts *)

(** X29. Hiding takes a post out of the public routes that name it: once
    the visibility toggle has stored a published post as [hidden], which
    it does when the post passes the validation of the schema, the fetch
    by its slug answers 404 and like and comment answer 400; none of
    these calls writes.  When the post does not pass validation the
    toggle throws and the post stays published. *)
Theorem hidden_post_leaves_the_public_routes
    (clk : Clock) (admin_token : Authorization) (caller : ObjectId * User)
    (id : ObjectId) (w : World) (b : Blog) (s : string) :
  AdminRoutes.admin_caller w admin_token = inr caller ->
  blogs w !! id = Some b ->
  status b = published ->
  slug b = Some s ->
  only_published_with_slug s id w ->
  let w' := snd (AdminRoutes.toggle_visibility clk admin_token id w) in
  (validate b = false -> w' = w)
  /\ (validate b = true ->
      blogs w' !! id = Some (set_status hidden b)
      /\ (forall a, BlogRoutes.get_by_slug clk a s w' = (Failure 404 "Blog not found", w'))
      /\ (forall a uid u, protect w' a = inr (uid, u) ->
            BlogRoutes.like clk a id w' = (Failure 400 "Cannot like unpublished blog", w')
            /\ forall text, isLength 1 (Some 1000%nat) text = true ->
                 BlogRoutes.comment clk a id text w'
                 = (Failure 400 "Cannot comment on unpublished blog", w'))).
Proof.
  intros Hadm Hb Hst Hs Huniq w'. subst w'.
  rewrite toggle_visibility_stores, Hadm, Hb, bool_decide_eq_true_2 by done.
  split; [intros ->; reflexivity|]. intros ->.
  cbn [snd]. set (w' := set_blogs _ w).
  assert (Hb' : blogs w' !! id = Some (set_status hidden b)) by apply lookup_insert_eq.
  split; [exact Hb'|]. split.
  - intros a. rewrite get_by_slug_stores.
    destruct (findOne (published_with_slug s) w') as [[j c]|] eqn:Hf; [|reflexivity].
    apply findOne_Some in Hf as [Hc Hp]. apply published_with_slug_true in Hp as [Hcs Hcst].
    destruct (decide (j = id)) as [->|Hne].
    + rewrite Hb' in Hc. injection Hc as <-. discriminate Hcst.
    + unfold w' in Hc. cbn in Hc. rewrite lookup_insert_ne in Hc by done.
      destruct Hne. eauto.
  - intros a uid u Hp. split.
    + rewrite like_stores, Hp, Hb'. reflexivity.
    + intros text Ht. rewrite comment_stores, Hp, Ht, Hb'. reflexivity.
Qed.

(** ** The shape of slugs *)

Lemma slug_shape_word (p : bool) (w rest : list ascii) :
  alnum_only w -> w <> [] -> slug_shape p (w ++ rest) = slug_shape false rest.
Proof.
  intros Hw. revert p. induction Hw as [|c w Hc Hw IH]; intros p Hne; [done|].
  cbn. rewrite Hc. destruct w as [|d w]; [reflexivity|]. by apply IH.
Qed.

Lemma slug_shape_join (p : bool) (ws : list (list ascii)) :
  Forall alnum_only ws -> Forall (fun w => w <> []) ws -> ws <> [] ->
  slug_shape p (join_hyphen ws) = true.
Proof.
  intros Hall. revert p. induction Hall as [|w tl Hw Htl IH]; intros p Hne Hnil; [done|].
  inversion Hne as [|? ? Hw0 Htl0]; subst. cbn [join_hyphen].
  destruct tl as [|x tl].
  - rewrite <- (app_nil_r w). by rewrite slug_shape_word.
  - rewrite slug_shape_word by done. cbn. by apply IH.
Qed.

Lemma words_nonempty (l : list ascii) : Forall (fun w => w <> []) (words l).
Proof.
  unfold words. apply Forall_forall. intros w Hw.
  apply list_elem_of_In, filter_In in Hw as [_ Hw]. by destruct w.
Qed.

Lemma words_alnum (l : list ascii) : Forall alnum_only (words l).
Proof.
  unfold words. pose proof (pieces_alnum l) as H. rewrite Forall_forall in *.
  intros w Hw. apply H. apply list_elem_of_In, filter_In in Hw as [Hw _].
  by apply list_elem_of_In.
Qed.

Lemma is_slug_join (ws : list (list ascii)) :
  Forall alnum_only ws -> Forall (fun w => w <> []) ws ->
  is_slug (string_of_list_ascii (join_hyphen ws)) = true.
Proof.
  intros Hall Hne. unfold is_slug. rewrite list_ascii_of_string_of_list_ascii.
  destruct ws as [|w tl]; [reflexivity|].
  destruct (join_hyphen (w :: tl)) eqn:E; [reflexivity|].
  rewrite <- E. by apply slug_shape_join.
Qed.

Lemma toLowerCase_lower_or_digit (c : ascii) :
  is_lower_or_digit c = true -> toLowerCase_ascii c = c.
Proof.
  unfold is_lower_or_digit, toLowerCase_ascii. intros H.
  destruct ((65 <=? nat_of_ascii c)%nat && (nat_of_ascii c <=? 90)%nat) eqn:E; [|reflexivity].
  apply andb_true_iff in E as [E1 E2].
  apply Nat.leb_le in E1. apply Nat.leb_le in E2.
  apply orb_true_iff in H as [H|H]; apply andb_true_iff in H as [H1 H2];
    apply Nat.leb_le in H1; apply Nat.leb_le in H2; lia.
Qed.

Lemma slug_shape_lower (p : bool) (l : list ascii) :
  slug_shape p l = true -> map toLowerCase_ascii l = l.
Proof.
  revert p. induction l as [|c r IH]; intros p; [reflexivity|]. cbn.
  destruct (is_lower_or_digit c) eqn:Hc.
  - intros H. rewrite (toLowerCase_lower_or_digit c Hc). f_equal. by apply (IH false).
  - intros H. apply andb_true_iff in H as [H Hr]. apply andb_true_iff in H as [H _].
    apply Ascii.eqb_eq in H. subst c. f_equal. by apply (IH true).
Qed.

Lemma slug_shape_replace_runs (p q : bool) (l : list ascii) :
  slug_shape p l = true -> (q = true -> p = true) -> replace_runs q l = l.
Proof.
  revert p q. induction l as [|c r IH]; intros p q; [reflexivity|]. cbn.
  destruct (is_lower_or_digit c) eqn:Hc.
  - intros H _. f_equal. apply (IH false false); [exact H | done].
  - intros H Hq. apply andb_true_iff in H as [H Hr]. apply andb_true_iff in H as [H Hp].
    apply Ascii.eqb_eq in H. subst c. apply negb_true_iff in Hp.
    destruct q; [specialize (Hq eq_refl); congruence|].
    f_equal. apply (IH true true); [exact Hr | done].
Qed.

Lemma slug_shape_last (p : bool) (l : list ascii) (c : ascii) :
  slug_shape p (l ++ [c]) = true -> c <> "-"%char.
Proof.
  revert p. induction l as [|d l IH]; intros p; cbn.
  - destruct (is_lower_or_digit c) eqn:Hc; [intros _ ->; discriminate|].
    rewrite andb_true_iff. intros [_ [=]].
  - destruct (is_lower_or_digit d); [apply IH|].
    rewrite andb_true_iff. intros [_ H]. by apply IH in H.
Qed.

Lemma slug_shape_fixed (l : list ascii) :
  slug_shape true l = true -> slugify_chars l = l.
Proof.
  intros H. unfold slugify_chars.
  rewrite (slug_shape_lower _ _ H), (slug_shape_replace_runs true false l H) by done.
  assert (Hlead : strip_leading l = l).
  { destruct l as [|c r]; [reflexivity|]. cbn in *.
    destruct (is_lower_or_digit c) eqn:Hc.
    - destruct (Ascii.eqb_spec c "-"); [subst; discriminate | reflexivity].
    - rewrite andb_false_r in H. discriminate. }
  rewrite Hlead. unfold strip_trailing.
  destruct (rev l) as [|c r] eqn:E; [by apply (f_equal (@rev _)) in E; rewrite rev_involutive in E|].
  apply (f_equal (@rev _)) in E. rewrite rev_involutive in E. cbn in E.
  rewrite E in H. apply slug_shape_last in H.
  cbn. destruct (Ascii.eqb_spec c "-"); [done|]. by rewrite E.
Qed.

(** X23. Every slug the hook computes is empty or made of words of
    [a-z0-9] joined by single hyphens: no other character, no hyphen
    first or last, no two hyphens in a row.  The letters and digits of the
    slug are those of the lower-cased title, in their order. *)
Theorem slugify_is_well_formed (t : string) :
  is_slug (slugify t) = true
  /\ List.filter is_lower_or_digit (list_ascii_of_string (slugify t))
     = List.filter is_lower_or_digit (map toLowerCase_ascii (list_ascii_of_string t)).
Proof.
  split.
  - rewrite slugify_words. unfold slug_of_words.
    apply is_slug_join; [apply words_alnum | apply words_nonempty].
  - unfold slugify, slugify_chars. rewrite list_ascii_of_string_of_list_ascii.
    set (l := map toLowerCase_ascii (list_ascii_of_string t)).
    assert (Hr : forall f k, List.filter is_lower_or_digit (replace_runs f k)
                             = List.filter is_lower_or_digit k).
    { intros f k. revert f. induction k as [|c r IH]; intros f; [reflexivity|]. cbn.
      destruct (is_lower_or_digit c) eqn:Hc.
      - cbn. rewrite Hc. f_equal. apply IH.
      - destruct f; cbn; apply IH. }
    assert (Hl : forall k, List.filter is_lower_or_digit (strip_leading k)
                           = List.filter is_lower_or_digit k).
    { intros [|c r]; [reflexivity|]. cbn.
      destruct (Ascii.eqb_spec c "-"); [subst; reflexivity | reflexivity]. }
    assert (Hrev : forall k, List.filter is_lower_or_digit (rev k)
                             = rev (List.filter is_lower_or_digit k)).
    { induction k as [|c r IH]; [reflexivity|]. cbn.
      rewrite List.filter_app, IH. cbn. destruct (is_lower_or_digit c); cbn;
        [reflexivity | by rewrite app_nil_r]. }
    unfold strip_trailing. rewrite Hrev, Hl, Hrev, rev_involutive, Hl, Hr. reflexivity.
Qed.

(** X24. A well-formed slug is its own slug, so computing the slug of a
    slug changes nothing: [slugify] is idempotent. *)
Theorem slugify_is_idempotent (t : string) :
  (is_slug t = true -> slugify t = t)
  /\ slugify (slugify t) = slugify t.
Proof.
  assert (Hfix : forall x, is_slug x = true -> slugify x = x).
  { intros x Hx. unfold is_slug in Hx. unfold slugify.
    destruct (list_ascii_of_string x) as [|c r] eqn:E.
    - rewrite <- (string_of_list_ascii_of_string x), E. reflexivity.
    - rewrite slug_shape_fixed by exact Hx.
      by rewrite <- E, string_of_list_ascii_of_string. }
  split; [apply Hfix|]. apply Hfix. rewrite slugify_words. unfold slug_of_words.
  apply is_slug_join; [apply words_alnum | apply words_nonempty].
Qed.

(** ** The caller's own posts and account *)

Lemma List_filter_sublist {A : Type} (p : A -> bool) (l : list A) :
  sublist (List.filter p l) l.
Proof.
  induction l as [|x l IH]; cbn; [constructor|].
  destruct (p x); by constructor.
Qed.

Section OwnPosts.

Variable db_sort_createdAt : list (ObjectId * Blog) -> list (ObjectId * Blog).
Variable comparePassword : User -> string -> bool.
Hypothesis db_sort_createdAt_Permutation : forall l, db_sort_createdAt l ≡ₚ l.

(** X25. The route for one of the caller's own posts is owner-only, for
    admins too: it answers with the post exactly when the post exists and
    the caller is its author, whatever the status of the post, answers 404
    "Blog not found" otherwise, and never writes. *)
Theorem my_blog_is_owner_only
    (a : Authorization) (uid : ObjectId) (u : User) (id : ObjectId) (w : World) :
  protect w a = inr (uid, u) ->
  snd (UserRoutes.my_blog a id w) = w
  /\ (forall b, blogs w !! id = Some b -> author b = uid ->
      fst (UserRoutes.my_blog a id w) = Success 200 (Data_blog (Some b)))
  /\ ((forall b, blogs w !! id = Some b -> author b <> uid) ->
      fst (UserRoutes.my_blog a id w) = Failure 404 "Blog not found").
Proof.
  intros Hp. unfold UserRoutes.my_blog. rewrite Hp. cbn.
  destruct (blogs w !! id) as [b|] eqn:Hb; cbn.
  - destruct (N.eqb_spec (author b) uid) as [Ha|Ha]; cbn.
    + split; [reflexivity|]. split; [by intros ? [= <-] _|].
      intros H. destruct (H b eq_refl Ha).
    + split; [reflexivity|]. split; [|reflexivity].
      intros ? [= <-] H. contradiction.
  - repeat split. intros ? [=].
Qed.

(** X26. The caller's listing shows the caller's posts and nothing else:
    every entry is a stored post whose author is the caller, in full, with
    the requested status when the query names one and any status, drafts
    and hidden posts included, when it does not; no post is listed twice,
    and nothing is written. *)
Theorem my_blogs_lists_own_posts
    (a : Authorization) (uid : ObjectId) (u : User) (q : UserRoutes.MyBlogsQuery)
    (w : World) :
  protect w a = inr (uid, u) ->
  let out := UserRoutes.my_blogs db_sort_createdAt a q w in
  snd out = w
  /\ NoDup (map fst (page_entries (fst out)))
  /\ forall i b, (i, b) ∈ page_entries (fst out) ->
       blogs w !! i = Some b
       /\ author b = uid
       /\ forall s, UserRoutes.m_status q = Some s -> truthy (Some s) = true ->
                    status_of_string s = Some (status b).
Proof.
  intros Hp out. subst out. unfold UserRoutes.my_blogs. rewrite Hp. cbn [run].
  destruct (UserRoutes.validate_my_blogs q) as [|e es]; cbn.
  2: { split; [done|]. split; [constructor|]. intros i b H. by apply elem_of_nil in H. }
  set (matching := List.filter _ (map_to_list (blogs w))).
  set (page := take _ (drop _ (db_sort_createdAt matching))).
  assert (Hsub : sublist page (db_sort_createdAt matching)).
  { unfold page. etransitivity; [apply sublist_take | apply sublist_drop]. }
  rewrite res_json_docs_with_content. cbn.
  split; [reflexivity|]. split.
  - apply (sublist_NoDup (map fst page) (map fst (db_sort_createdAt matching)));
      [|by apply fmap_sublist].
    rewrite db_sort_createdAt_Permutation. unfold matching.
    apply (sublist_NoDup _ (map fst (map_to_list (blogs w))));
      [|apply fmap_sublist, List_filter_sublist].
    apply NoDup_fst_map_to_list.
  - intros i b Hin.
    assert (Hb : (i, b) ∈ matching).
    { rewrite <- (db_sort_createdAt_Permutation matching).
      by apply (elem_of_sublist page). }
    unfold matching in Hb. apply list_elem_of_In, filter_In in Hb as [Hb Hm].
    apply list_elem_of_In, elem_of_map_to_list in Hb. cbn in Hm.
    unfold UserRoutes.own_filter in Hm.
    apply andb_true_iff in Hm as [Hm _]. apply andb_true_iff in Hm as [Hm1 Hm2].
    apply N.eqb_eq in Hm1.
    split; [exact Hb|]. split; [exact Hm1|].
    intros s Hs Ht. rewrite Hs in Hm2. unfold truthy in Ht, Hm2.
    rewrite Ht in Hm2. cbn [default] in Hm2.
    change (id s) with s in Hm2.
    destruct (status_of_string s) as [st|]; [|discriminate].
    apply bool_decide_eq_true in Hm2. congruence.
Qed.

(** X27. Deleting an account takes the caller's posts with it and nothing
    else: after a successful call the user is gone, no post of the caller
    is left, every post of another author is as it was (with the caller's
    likes and comments still in it), and the caller's token is no longer
    accepted.  A wrong password answers 400 "Password is incorrect" and a
    missing one is a validation error; neither writes. *)
Theorem delete_account_takes_own_posts
    (a : Authorization) (uid : ObjectId) (u : User) (password : option string)
    (w : World) :
  protect w a = inr (uid, u) ->
  let out := UserRoutes.delete_account comparePassword a password w in
  (truthy password = false ->
   error_kind (fst out) = Some ValidationFailed /\ snd out = w)
  /\ (truthy password = true ->
      comparePassword u (default EmptyString password) = false ->
      out = (Failure 400 "Password is incorrect", w))
  /\ (truthy password = true ->
      comparePassword u (default EmptyString password) = true ->
      fst out = Success 200 Data_none
      /\ users (snd out) = delete uid (users w)
      /\ (forall i b, blogs w !! i = Some b ->
            blogs (snd out) !! i = if N.eqb (author b) uid then None else Some b)
      /\ (forall i, blogs w !! i = None -> blogs (snd out) !! i = None)
      /\ protect (snd out) a = inl (Failure 401 "User not found")).
Proof.
  intros Hp out. subst out.
  destruct (protect_inv _ _ _ _ Hp) as (-> & Hu & Hact).
  unfold UserRoutes.delete_account. rewrite Hp. cbn [run].
  split; [|split].
  - intros ->. cbn. split; reflexivity.
  - intros -> Hcmp. cbn. rewrite Hu. cbn. rewrite Hcmp. reflexivity.
  - intros -> Hcmp. cbn. rewrite Hu. cbn. rewrite Hcmp. cbn.
    split; [reflexivity|]. split; [reflexivity|]. split; [|split].
    + intros i b Hb. unfold UserRoutes.deleteMany_by_author.
      destruct (N.eqb_spec (author b) uid) as [Ha|Ha].
      * apply map_lookup_filter_None. right. intros x Hx. cbn.
        rewrite Hb in Hx. injection Hx as <-. tauto.
      * apply map_lookup_filter_Some. split; [exact Hb | exact Ha].
    + intros i Hb. unfold UserRoutes.deleteMany_by_author.
      apply map_lookup_filter_None. by left.
    + unfold protect. cbn. by rewrite lookup_delete_eq.
Qed.

End OwnPosts.

(** ** Editing and approving again *)

Section Remoderation.

Variable isURL : string -> bool.
Variable update_validators : BlogRoutes.UpdateBody -> bool.

(** X28. Going through moderation again costs a post nothing but its
    dates: when the owner edits a published post and an admin approves the
    edit, the post is published again with the edited text, and its views,
    likes, comments and slug are what they were before the edit, as long
    as the body of the edit did not carry them; the publish date and the
    approval data are those of the second approval.  The approval saves
    the edited post, so the edited post has to pass the validation of the
    schema. *)
Theorem edit_and_approval_keep_engagement
    (clk : Clock) (owner_token admin_token : Authorization) (uid : ObjectId) (u : User)
    (aid : ObjectId) (adm : User) (id : ObjectId) (r : BlogRoutes.UpdateBody)
    (w : World) (b : Blog) :
  protect w owner_token = inr (uid, u) ->
  AdminRoutes.admin_caller w admin_token = inr (aid, adm) ->
  blogs w !! id = Some b ->
  status b = published ->
  author b = uid ->
  BlogRoutes.validate_update isURL r = [] ->
  update_validators (BlogRoutes.set_u_status "pending" r) = true ->
  BlogRoutes.u_slug r = None ->
  BlogRoutes.u_views r = None ->
  BlogRoutes.u_likes r = None ->
  BlogRoutes.u_comments r = None ->
  validate (BlogRoutes.apply_update (BlogRoutes.set_u_status "pending" r) (Some pending) b)
  = true ->
  let w1 := snd (BlogRoutes.update isURL update_validators owner_token id r w) in
  let w2 := snd (AdminRoutes.approve clk admin_token id None w1) in
  exists b1 b2,
    blogs w1 !! id = Some b1 /\ status b1 = pending
    /\ blogs w2 !! id = Some b2 /\ status b2 = published
    /\ title b2 = default (title b) (trim <$> BlogRoutes.u_title r)
    /\ content b2 = default (content b) (BlogRoutes.u_content r)
    /\ views b2 = views b /\ likes b2 = likes b /\ comments b2 = comments b
    /\ slug b2 = slug b
    /\ publishedAt b2 = Some (clk 0%nat)
    /\ approvedBy b2 = Some aid /\ approvedAt b2 = Some (clk 1%nat).
Proof.
  intros Hp Hadm Hb Hst Hauth Hv Hval Hslug Hviews Hlikes Hcomments Hvalid w1 w2.
  assert (He : effective_body b r = BlogRoutes.set_u_status "pending" r)
    by (unfold effective_body; by rewrite bool_decide_eq_true_2).
  rewrite <- He in Hvalid.
  set (b1 := BlogRoutes.apply_update (effective_body b r) (Some pending) b) in *.
  assert (Hw1 : w1 = set_blogs (<[id := b1]> (blogs w)) w).
  { unfold w1. rewrite update_stores, Hp, Hv, Hb, Hauth, N.eqb_refl, orb_true_r.
    rewrite He. cbn. rewrite Hval, Hslug. cbn. rewrite <- He. reflexivity. }
  assert (Hb1 : blogs w1 !! id = Some b1) by (rewrite Hw1; apply lookup_insert_eq).
  assert (Hst1 : status b1 = pending) by apply status_apply_update.
  assert (Hadm1 : AdminRoutes.admin_caller w1 admin_token = inr (aid, adm)).
  { rewrite Hw1. exact Hadm. }
  exists b1, (approved_by aid clk b1).
  split; [exact Hb1|]. split; [exact Hst1|]. split.
  { unfold w2. rewrite approve_stores, Hadm1, Hb1, bool_decide_eq_true_2, Hvalid by done.
    cbn [snd]. apply lookup_insert_eq. }
  destruct (effective_body_paths b r) as (Ev & _ & _ & Ec & El & Eco & Et & Es & _).
  cbn. unfold b1.
  rewrite title_apply_update, content_apply_update, views_apply_update,
    likes_apply_update, comments_apply_update, slug_apply_update.
  rewrite Ev, Ec, El, Eco, Et, Es, Hviews, Hlikes, Hcomments, Hslug.
  repeat split.
Qed.

End Remoderation.

(** ** The posts a caller has liked or commented on *)

Section Engagement.

Variable db_sort_updatedAt : list (ObjectId * Blog) -> list (ObjectId * Blog).
Hypothesis db_sort_updatedAt_Permutation : forall l, db_sort_updatedAt l ≡ₚ l.

Lemma page_query_limits (q : UserRoutes.PageQuery) :
  UserRoutes.validate_page q = [] ->
  1 <= parseInt_or (UserRoutes.p_page q) 1
  /\ 1 <= parseInt_or (UserRoutes.p_limit q) 10 <= 50.
Proof.
  intros Hv. unfold UserRoutes.validate_page in Hv.
  apply app_eq_nil in Hv as [Hpage Hlimit].
  apply expect_nil in Hpage. apply expect_nil in Hlimit. split.
  - apply parseInt_or_valid; [lia | exact Hpage].
  - destruct (UserRoutes.p_limit q) as [k|]; cbn; [|lia].
    apply andb_true_iff in Hlimit as [H1 H2].
    apply Z.leb_le in H1. apply Z.leb_le in H2.
    destruct (k =? 0) eqn:E; lia.
Qed.

Lemma page_of_matching (p : Blog -> bool) (n k : nat) (m : gmap ObjectId Blog)
    (i : ObjectId) (b : Blog) :
  (i, b) ∈ take n (drop k (db_sort_updatedAt
                             (List.filter (fun ib => p (snd ib)) (map_to_list m)))) ->
  m !! i = Some b /\ p b = true.
Proof.
  intros Hin.
  assert (Hb : (i, b) ∈ List.filter (fun ib => p (snd ib)) (map_to_list m)).
  { rewrite <- (db_sort_updatedAt_Permutation _).
    eapply elem_of_sublist; [exact Hin|].
    etransitivity; [apply sublist_take | apply sublist_drop]. }
  apply list_elem_of_In, filter_In in Hb as [Hb Hp].
  apply list_elem_of_In, elem_of_map_to_list in Hb. done.
Qed.

Lemma first_page_is_inhabited (p : Blog -> bool) (limit : Z)
    (m : gmap ObjectId Blog) (i : ObjectId) (b : Blog) :
  1 <= limit -> m !! i = Some b -> p b = true ->
  take (Z.to_nat limit)
    (drop (Z.to_nat ((1 - 1) * limit))
       (db_sort_updatedAt (List.filter (fun ib => p (snd ib)) (map_to_list m))))
  <> [].
Proof.
  intros Hl Hb Hp E. apply (f_equal length) in E.
  change (Z.to_nat ((1 - 1) * limit)) with 0%nat in E.
  rewrite drop_0, length_take,
    (Permutation_length (db_sort_updatedAt_Permutation _)) in E.
  assert (Hin : In (i, b) (List.filter (fun ib => p (snd ib)) (map_to_list m))).
  { apply filter_In. split; [|exact Hp]. by apply list_elem_of_In, elem_of_map_to_list. }
  destruct (List.filter (fun ib => p (snd ib)) (map_to_list m)); [destruct Hin|].
  cbn in E. lia.
Qed.

(** X30. The two listings of the posts a caller has engaged with select
    published posts only, and send nothing but empty pages.  For an active
    caller and a query that passes the validators, the liked listing
    selects stored published posts whose likes hold the caller, the
    commented listing stored published posts with a comment of the caller.
    When the selection is empty the reply is the empty page with its block
    of figures; when it holds a post the reply is never sent, since the
    posts were fetched without their content and serialising the first of
    them throws a TypeError.  So the first page of a caller who likes a
    published post is a server error.  Neither route writes. *)
Theorem engagement_listings_send_empty_pages_only
    (a : Authorization) (uid : ObjectId) (u : User) (q : UserRoutes.PageQuery)
    (w : World) :
  protect w a = inr (uid, u) ->
  UserRoutes.validate_page q = [] ->
  let p := parseInt_or (UserRoutes.p_page q) 1 in
  let L := parseInt_or (UserRoutes.p_limit q) 10 in
  let select (f : Blog -> bool) :=
    take (Z.to_nat L)
      (drop (Z.to_nat ((p - 1) * L))
         (db_sort_updatedAt (List.filter (fun ib => f (snd ib)) (map_to_list (blogs w))))) in
  let figures (f : Blog -> bool) :=
    let n := Z.of_nat (length (List.filter (fun ib => f (snd ib)) (map_to_list (blogs w)))) in
    mkPagination p (Math_ceil_div n L) n (p <? Math_ceil_div n L) (1 <? p) in
  let answer (f : Blog -> bool) :=
    match select f with
    | [] => Success 200 (Data_page [] (figures f))
    | _ :: _ => Thrown "TypeError"
    end in
  UserRoutes.liked_blogs db_sort_updatedAt a q w
  = (answer (UserRoutes.liked_filter uid), w)
  /\ UserRoutes.commented_blogs db_sort_updatedAt a q w
     = (answer (UserRoutes.commented_filter uid), w)
  /\ (forall i b, (i, b) ∈ select (UserRoutes.liked_filter uid) ->
        blogs w !! i = Some b /\ status b = published /\ uid ∈ likes b)
  /\ (forall i b, (i, b) ∈ select (UserRoutes.commented_filter uid) ->
        blogs w !! i = Some b /\ status b = published
        /\ exists c, c ∈ comments b /\ comment_user c = uid)
  /\ (forall i b, blogs w !! i = Some b -> status b = published -> uid ∈ likes b ->
        p = 1 ->
        UserRoutes.liked_blogs db_sort_updatedAt a q w = (Thrown "TypeError", w)).
Proof.
  intros Hp Hv p L select figures answer.
  destruct (page_query_limits q Hv) as [Hpage Hlimit]. fold p L in Hpage, Hlimit.
  assert (Hliked : UserRoutes.liked_blogs db_sort_updatedAt a q w
                   = (answer (UserRoutes.liked_filter uid), w)).
  { unfold UserRoutes.liked_blogs. rewrite Hp, Hv. cbn.
    rewrite res_json_docs_minus_content. fold p L.
    unfold answer, select. by destruct (take _ _). }
  split; [exact Hliked|]. split; [|split; [|split]].
  - unfold UserRoutes.commented_blogs. rewrite Hp, Hv. cbn.
    rewrite res_json_docs_minus_content. fold p L.
    unfold answer, select. by destruct (take _ _).
  - intros i b Hin.
    apply (page_of_matching (UserRoutes.liked_filter uid)) in Hin as [Hb Hf].
    apply andb_true_iff in Hf as [Hl Hs].
    apply bool_decide_eq_true in Hl. apply bool_decide_eq_true in Hs. done.
  - intros i b Hin.
    apply (page_of_matching (UserRoutes.commented_filter uid)) in Hin as [Hb Hf].
    apply andb_true_iff in Hf as [Hc Hs]. apply bool_decide_eq_true in Hs.
    apply existsb_exists in Hc as (c & Hc & Hu). apply N.eqb_eq in Hu.
    repeat split; try assumption. exists c. split; [|exact Hu].
    by apply list_elem_of_In.
  - intros i b Hb Hs Hl H1. rewrite Hliked. unfold answer, select.
    pose proof (first_page_is_inhabited (UserRoutes.liked_filter uid) L (blogs w) i b
                  ltac:(lia) Hb) as Hne.
    rewrite H1.
    destruct (take _ _); [|reflexivity].
    exfalso. apply Hne; [|reflexivity].
    unfold UserRoutes.liked_filter. by rewrite !bool_decide_eq_true_2.
Qed.

End Engagement.

(** * The further properties on the sample data *)

Lemma sample_only_post (st : Status) (p : option Date) (l : list ObjectId) (s : string) :
  only_published_with_slug s 7%N (Sample.world st p l).
Proof.
  intros j c Hc _ _. cbn in Hc. apply lookup_singleton_Some in Hc as [Hj _]. by subst j.
Qed.

Lemma status_moves_along_workflow_witness :
  let w := Sample.world pending None [] in
  let b := Sample.post pending None [] in
  let b' := approved_by 1%N Sample.clock b in
  let rq := ReqApprove 7%N None in
  status b' = status b
  \/ ((exists feedback, rq = ReqApprove 7%N feedback)
      /\ status b = pending /\ status b' = published)
  \/ ((exists rejection, rq = ReqReject 7%N rejection)
      /\ status b = pending /\ status b' = rejected)
  \/ (rq = ReqToggleVisibility 7%N /\ status b = published /\ status b' = hidden)
  \/ (exists r, rq = ReqUpdate 7%N r
        /\ (status b = published /\ status b' = pending
            \/ status b <> published
               /\ exists s, BlogRoutes.u_status r = Some s
                            /\ status_of_string s = Some (status b'))).
Proof.
  intros w b b' rq.
  apply (status_moves_along_workflow (fun _ => true) (fun _ => true) Sample.clock
           (ValidToken 1%N) rq w 7%N b b').
  - reflexivity.
  - vm_compute. reflexivity.
Defined.


Lemma comments_are_append_only_witness :
  let w := Sample.world published (Some 500) [] in
  let b := Sample.post published (Some 500) [] in
  let b' := addComment 2%N "  Well written " b in
  let a := ValidToken 2%N in
  let rq := ReqAddComment 7%N "  Well written " in
  comments b' = comments b
  \/ (exists text uid, rq = ReqAddComment 7%N text /\ a = ValidToken uid
        /\ comments b' = comments b ++ [mkComment uid (trim text) false])
  \/ (exists r cs, rq = ReqUpdate 7%N r /\ BlogRoutes.u_comments r = Some cs
        /\ comments b' = cs).
Proof.
  intros w b b' a rq.
  apply (comments_are_append_only (fun _ => true) (fun _ => true) Sample.clock
           a rq w 7%N b b').
  - reflexivity.
  - vm_compute. reflexivity.
Defined.

Lemma likes_change_only_for_the_caller_witness :
  let w := Sample.world published (Some 500) [1%N] in
  let b := Sample.post published (Some 500) [1%N] in
  let b' := toggleLike 2%N b in
  let a := ValidToken 2%N in
  let rq := ReqLike 7%N in
  (1%N ∈ likes b' <-> 1%N ∈ likes b)
  \/ (rq = ReqLike 7%N /\ a = ValidToken 1%N)
  \/ (exists r l, rq = ReqUpdate 7%N r /\ BlogRoutes.u_likes r = Some l /\ likes b' = l).
Proof.
  intros w b b' a rq.
  apply (likes_change_only_for_the_caller (fun _ => true) (fun _ => true) Sample.clock
           a rq w 7%N b b' 1%N).
  - reflexivity.
  - vm_compute. reflexivity.
Defined.

Lemma only_update_edits_text_and_owner_witness :
  let w := Sample.world pending None [] in
  let b := Sample.post pending None [] in
  let b' := set_rejectionReason (Some "Needs more sources and citations"%string)
              (set_status rejected b) in
  let rq := ReqReject 7%N (Some "Needs more sources and citations"%string) in
  ((exists r, rq = ReqUpdate 7%N r)
   \/ (title b' = title b /\ content b' = content b /\ excerpt b' = excerpt b
       /\ category b' = category b /\ tags b' = tags b
       /\ featuredImage b' = featuredImage b /\ author b' = author b))
  /\ (readTime b' = readTime b
      \/ exists r t, rq = ReqUpdate 7%N r /\ BlogRoutes.u_readTime r = Some t
                     /\ readTime b' = t)
  /\ (author b' = author b
      \/ exists r u, rq = ReqUpdate 7%N r /\ BlogRoutes.u_author r = Some u
                     /\ author b' = u).
Proof.
  intros w b b' rq.
  apply (only_update_edits_text_and_owner (fun _ => true) (fun _ => true) Sample.clock
           (ValidToken 1%N) rq w 7%N b b').
  - reflexivity.
  - vm_compute. reflexivity.
Defined.

Lemma protected_routes_need_active_user_witness :
  let w := Sample.world published (Some 500) [] in
  exists message,
    handle (fun _ => true) (fun _ => true) Sample.clock InvalidToken (ReqLike 7%N) w
    = (Failure 401 message, w).
Proof.
  intros w.
  apply (protected_routes_need_active_user (fun _ => true) (fun _ => true) Sample.clock
           InvalidToken (ReqLike 7%N) w).
  - intros (uid & u & Ha & _). discriminate Ha.
  - reflexivity.
Defined.

Lemma admin_routes_need_admin_role_witness :
  let w := Sample.world pending None [] in
  handle (fun _ => true) (fun _ => true) Sample.clock (ValidToken 2%N) (ReqApprove 7%N None) w
  = (Failure 403 "Access denied. Admin role required.", w).
Proof.
  intros w.
  apply (admin_routes_need_admin_role (fun _ => true) (fun _ => true) Sample.clock
           (ValidToken 2%N) 2%N Sample.bob (ReqApprove 7%N None) w).
  - reflexivity.
  - discriminate.
  - reflexivity.
Defined.

Lemma strangers_cannot_edit_or_delete_witness :
  let carol := mkUser "carol@example.org" "Carol" user true in
  let w0 := Sample.world published (Some 500) [] in
  let w := set_users (<[3%N := carol]> (users w0)) w0 in
  let r := BlogRoutes.mkUpdateBody (Some "An edited title for the post"%string) None None
             None None None None None None None None None None None
             None None None None None None None in
  BlogRoutes.remove (ValidToken 3%N) 7%N w
  = (Failure 403 "Not authorized to delete this blog", w)
  /\ BlogRoutes.update (fun _ => true) (fun _ => true) (ValidToken 3%N) 7%N r w
     = (Failure 403 "Not authorized to update this blog", w).
Proof.
  intros carol w0 w r.
  destruct (strangers_cannot_edit_or_delete (fun _ => true) (fun _ => true)
              (ValidToken 3%N) 3%N carol 7%N r w (Sample.post published (Some 500) []))
    as (Hdel & _ & _ & Hupd).
  - reflexivity.
  - discriminate.
  - reflexivity.
  - discriminate.
  - split; [exact Hdel | apply Hupd; reflexivity].
Defined.

Lemma owner_or_admin_deletes_witness :
  let w := Sample.world draft None [] in
  fst (BlogRoutes.remove (ValidToken 2%N) 7%N w) = Success 200 Data_none
  /\ blogs (snd (BlogRoutes.remove (ValidToken 2%N) 7%N w)) !! 7%N = None.
Proof.
  intros w.
  destruct (owner_or_admin_deletes (ValidToken 2%N) 2%N Sample.bob 7%N w)
    as (_ & Hdel & _).
  - reflexivity.
  - intros b Hb. right. vm_compute in Hb. injection Hb as <-. reflexivity.
  - apply Hdel. eexists. reflexivity.
Defined.



Lemma comment_needs_published_post_witness :
  let w := Sample.world published (Some 500) [] in
  let b := Sample.post published (Some 500) [] in
  BlogRoutes.comment Sample.clock (ValidToken 2%N) 7%N "   " w
  = (Thrown "ValidationError", w)
  /\ BlogRoutes.comment Sample.clock (ValidToken 2%N) 7%N "  Well written " w
     = (Success 200
          (Data_blog (Some (set_comments [mkComment 2%N "Well written" false] b))),
        set_blogs (<[7%N := set_comments [mkComment 2%N "Well written" false] b]> (blogs w))
          w).
Proof.
  intros w b. split.
  - destruct (comment_needs_published_post Sample.clock (ValidToken 2%N) 2%N Sample.bob
                7%N "   " w b) as (_ & _ & Hrefused & _).
    + reflexivity.
    + reflexivity.
    + apply Hrefused; [reflexivity | reflexivity | left; reflexivity].
  - destruct (comment_needs_published_post Sample.clock (ValidToken 2%N) 2%N Sample.bob
                7%N "  Well written " w b) as (_ & _ & _ & Hstored).
    + reflexivity.
    + reflexivity.
    + apply Hstored; [reflexivity | reflexivity | discriminate | vm_compute; reflexivity].
Defined.

Lemma like_reply_reports_the_new_state_witness :
  let w := Sample.world published (Some 500) [2%N] in
  let b := Sample.post published (Some 500) [2%N] in
  exists (count : Z) (liked : bool),
    BlogRoutes.like Sample.clock (ValidToken 2%N) 7%N w
    = (Success 200 (Data_like count liked),
       set_blogs (<[7%N := toggleLike 2%N b]> (blogs w)) w)
    /\ count = likesCount (toggleLike 2%N b)
    /\ liked = negb (bool_decide (2%N ∈ likes b))
    /\ count = if liked then likesCount b + 1 else likesCount b - 1.
Proof.
  intros w b.
  destruct (like_reply_reports_the_new_state Sample.clock (ValidToken 2%N) 2%N Sample.bob
              7%N w b) as (_ & _ & Hpub).
  - reflexivity.
  - reflexivity.
  - apply Hpub; [reflexivity | vm_compute; reflexivity | apply NoDup_singleton].
Defined.

Lemma toggles_of_different_users_commute_witness :
  let b := Sample.post published (Some 500) [1%N] in
  likes (toggleLike 1%N (toggleLike 2%N b)) ≡ₚ likes (toggleLike 2%N (toggleLike 1%N b)).
Proof.
  intros b. apply (toggles_of_different_users_commute 1%N 2%N b). discriminate.
Defined.

Lemma read_time_is_at_least_one_minute_witness :
  let b := Sample.post published (Some 500) [] in
  estimatedReadTime (set_title "Another title for the post" b) = estimatedReadTime b.
Proof.
  intros b.
  destruct (read_time_is_at_least_one_minute b) as (_ & _ & _ & Hsame).
  apply Hsame. reflexivity.
Defined.

Lemma unsavable_post_is_left_alone_witness :
  let b := Sample.short_post published in
  let w := mkWorld {[ 7%N := b ]} (users (Sample.world published None [])) [] in
  let out := handle (fun _ => true) (fun _ => true) Sample.clock (ValidToken 2%N)
               (ReqLike 7%N) w in
  validate (set_rejectionReason None b) = false
  /\ fst out = Thrown "ValidationError"
  /\ (likes b = [] \/ exists r, ReqLike 7%N = ReqUpdate 7%N r).
Proof.
  intros b w out.
  split; [vm_compute; reflexivity|]. split; [vm_compute; reflexivity|].
  destruct (unsavable_post_is_left_alone (fun _ => true) (fun _ => true) Sample.clock
              (ValidToken 2%N) (ReqLike 7%N) w 7%N b b) as [_|Hupd].
  - reflexivity.
  - vm_compute. reflexivity.
  - vm_compute. reflexivity.
  - left. reflexivity.
  - right. exact Hupd.
Defined.

Lemma update_assigns_status_of_unpublished_post_witness :
  let w := Sample.world draft None [] in
  let r := BlogRoutes.mkUpdateBody None None None
             None None (Some "published"%string) None None None None None None None None
             None None None None None None None in
  exists b',
    BlogRoutes.update (fun _ => true) (fun _ => true) (ValidToken 2%N) 7%N r w
    = (Success 200 (Data_blog (Some b')), set_blogs (<[7%N := b']> (blogs w)) w)
    /\ status b' = published
    /\ approvedBy b' = None.
Proof.
  intros w r.
  apply (update_assigns_status_of_unpublished_post (fun _ => true) (fun _ => true)
           (ValidToken 2%N) 2%N Sample.bob 7%N r w (Sample.post draft None [])
           "published" published).
  - reflexivity.
  - reflexivity.
  - reflexivity.
  - discriminate.
  - reflexivity.
  - reflexivity.
  - reflexivity.
  - reflexivity.
  - intros x [=].
Defined.

Lemma decisions_are_never_mailed_witness :
  let w := Sample.world pending None [] in
  let b := Sample.post pending None [] in
  let reason := Some "Needs more sources and citations"%string in
  AdminRoutes.approve Sample.clock (ValidToken 1%N) 7%N None w
  = (Success 200 (Data_blog (Some (approved_by 1%N Sample.clock b))),
     set_blogs (<[7%N := approved_by 1%N Sample.clock b]> (blogs w)) w)
  /\ outbox (snd (AdminRoutes.reject Sample.clock (ValidToken 1%N) 7%N reason w)) = [].
Proof.
  intros w b reason.
  destruct (decisions_are_never_mailed (fun _ => true) (fun _ => true) Sample.clock
              (ValidToken 1%N) 1%N Sample.alice 7%N reason w b)
    as (Happ & _ & Hout).
  - reflexivity.
  - reflexivity.
  - reflexivity.
  - vm_compute. reflexivity.
  - reflexivity.
  - split.
    + exact Happ.
    + exact (Hout (ValidToken 1%N) (ReqReject 7%N reason) w).
Defined.

Lemma posts_come_and_go_by_their_routes_witness :
  let w := Sample.world draft None [] in
  let r := BlogRoutes.mkCreateBody "A brand new beginning for all" Sample.text
             "short excerpt text here" "Technology" None None in
  let run rq := snd (handle (fun _ => true) (fun _ => true) Sample.clock
                       (ValidToken 2%N) rq w) in
  blogs (run (ReqCreate 8%N r)) !! 8%N = None
  /\ blogs (run (ReqDelete 7%N)) !! 7%N = None
  /\ (ReqDelete 7%N = ReqDelete 7%N \/ ReqDelete 7%N = ReqAdminDelete 7%N).
Proof.
  intros w r run.
  destruct (posts_come_and_go_by_their_routes (fun _ => true) (fun _ => true) Sample.clock
              (ValidToken 2%N) (ReqCreate 8%N r) w 8%N) as (_ & Hnone).
  destruct (posts_come_and_go_by_their_routes (fun _ => true) (fun _ => true) Sample.clock
              (ValidToken 2%N) (ReqDelete 7%N) w 7%N) as (Hgone & _).
  split; [apply Hnone; reflexivity|].
  split; [vm_compute; reflexivity|].
  apply Hgone; [eexists; reflexivity | vm_compute; reflexivity].
Defined.

Lemma accounts_change_only_by_admin_routes_witness :
  let w := Sample.world published (Some 500) [] in
  let a := ValidToken 1%N in
  let rq := ReqToggleStatus 2%N in
  let w' := snd (handle (fun _ => true) (fun _ => true) Sample.clock a rq w) in
  users w' !! 2%N = Some Sample.bob
  \/ (rq = ReqToggleStatus 2%N /\ a <> ValidToken 2%N
      /\ users w' !! 2%N = Some (set_isActive (negb (isActive Sample.bob)) Sample.bob))
  \/ (exists new_role r,
        rq = ReqChangeRole 2%N new_role /\ role_of_string new_role = Some r
        /\ a <> ValidToken 2%N /\ users w' !! 2%N = Some (set_role r Sample.bob)).
Proof.
  intros w a rq w'.
  destruct (accounts_change_only_by_admin_routes (fun _ => true) (fun _ => true)
              Sample.clock a rq w 2%N) as (_ & Hkept).
  apply Hkept. reflexivity.
Defined.

Lemma hidden_post_leaves_the_public_routes_witness :
  let w := Sample.world published (Some 500) [] in
  let w' := snd (AdminRoutes.toggle_visibility Sample.clock (ValidToken 1%N) 7%N w) in
  blogs w' !! 7%N = Some (Sample.post hidden (Some 500) [])
  /\ BlogRoutes.get_by_slug Sample.clock NoBearer "a-brand-new-beginning-for-all" w'
     = (Failure 404 "Blog not found", w')
  /\ BlogRoutes.like Sample.clock (ValidToken 2%N) 7%N w'
     = (Failure 400 "Cannot like unpublished blog", w').
Proof.
  intros w w'.
  destruct (hidden_post_leaves_the_public_routes Sample.clock (ValidToken 1%N)
              (1%N, Sample.alice) 7%N w (Sample.post published (Some 500) [])
              "a-brand-new-beginning-for-all") as (_ & Hhidden).
  - reflexivity.
  - reflexivity.
  - reflexivity.
  - reflexivity.
  - apply sample_only_post.
  - destruct Hhidden as (Hb & Hget & Hlike); [vm_compute; reflexivity|].
    split; [exact Hb|]. split; [apply Hget|].
    destruct (Hlike (ValidToken 2%N) 2%N Sample.bob) as (Hl & _); [reflexivity | exact Hl].
Defined.

Lemma slugify_is_idempotent_witness :
  slugify "a-brand-new-beginning-for-all" = "a-brand-new-beginning-for-all"%string.
Proof.
  destruct (slugify_is_idempotent "a-brand-new-beginning-for-all") as (Hfix & _).
  apply Hfix. reflexivity.
Defined.

Lemma my_blog_is_owner_only_witness :
  let w := Sample.world draft None [] in
  fst (UserRoutes.my_blog (ValidToken 2%N) 7%N w)
  = Success 200 (Data_blog (Some (Sample.post draft None [])))
  /\ fst (UserRoutes.my_blog (ValidToken 1%N) 7%N w) = Failure 404 "Blog not found".
Proof.
  intros w. split.
  - destruct (my_blog_is_owner_only (ValidToken 2%N) 2%N Sample.bob 7%N w)
      as (_ & Hown & _); [reflexivity|].
    apply Hown; reflexivity.
  - destruct (my_blog_is_owner_only (ValidToken 1%N) 1%N Sample.alice 7%N w)
      as (_ & _ & Hother); [reflexivity|].
    apply Hother. intros b Hb. vm_compute in Hb. injection Hb as <-. discriminate.
Defined.

Lemma my_blogs_lists_own_posts_witness :
  let q := UserRoutes.mkMyBlogsQuery None None (Some "draft"%string) None in
  let w := Sample.world draft None [] in
  let out := UserRoutes.my_blogs (fun l => l) (ValidToken 2%N) q w in
  snd out = w
  /\ forall i b, (i, b) ∈ page_entries (fst out) ->
       blogs w !! i = Some b /\ author b = 2%N /\ status b = draft.
Proof.
  intros q w out.
  destruct (my_blogs_lists_own_posts (fun l => l) (fun l => reflexivity l)
              (ValidToken 2%N) 2%N Sample.bob q w) as (Hw & _ & Hin).
  - reflexivity.
  - split; [exact Hw|].
    intros i b Hb. destruct (Hin i b Hb) as (Hl & Ha & Hs).
    split; [exact Hl|]. split; [exact Ha|].
    specialize (Hs "draft"%string eq_refl eq_refl). by injection Hs.
Defined.

Lemma delete_account_takes_own_posts_witness :
  let w := Sample.world published (Some 500) [] in
  let out := UserRoutes.delete_account (fun _ p => String.eqb p "secret")
               (ValidToken 2%N) (Some "secret"%string) w in
  fst out = Success 200 Data_none
  /\ users (snd out) = delete 2%N (users w)
  /\ blogs (snd out) !! 7%N = None
  /\ protect (snd out) (ValidToken 2%N) = inl (Failure 401 "User not found").
Proof.
  intros w out.
  destruct (delete_account_takes_own_posts (fun _ p => String.eqb p "secret")
              (ValidToken 2%N) 2%N Sample.bob (Some "secret"%string) w)
    as (_ & _ & Hok).
  - reflexivity.
  - destruct Hok as (Hr & Hu & Hb & _ & Hp); [reflexivity | reflexivity |].
    split; [exact Hr|]. split; [exact Hu|]. split; [|exact Hp].
    apply (Hb 7%N (Sample.post published (Some 500) [])). reflexivity.
Defined.

Lemma edit_and_approval_keep_engagement_witness :
  let w := Sample.world published (Some 500) [1%N] in
  let r := BlogRoutes.mkUpdateBody (Some "An edited title for the post"%string) None None
             None None None None None None None None None None None
             None None None None None None None in
  let w1 := snd (BlogRoutes.update (fun _ => true) (fun _ => true) (ValidToken 2%N) 7%N r w) in
  let w2 := snd (AdminRoutes.approve Sample.clock (ValidToken 1%N) 7%N None w1) in
  exists b2,
    blogs w2 !! 7%N = Some b2 /\ status b2 = published
    /\ title b2 = "An edited title for the post"%string
    /\ views b2 = 5 /\ likes b2 = [1%N]
    /\ publishedAt b2 = Some 1000.
Proof.
  intros w r w1 w2.
  destruct (edit_and_approval_keep_engagement (fun _ => true) (fun _ => true) Sample.clock
              (ValidToken 2%N) (ValidToken 1%N) 2%N Sample.bob 1%N Sample.alice 7%N r w
              (Sample.post published (Some 500) [1%N]))
    as (b1 & b2 & _ & _ & Hb2 & Hst & Ht & _ & Hv & Hl & _ & _ & Hp & _);
    try reflexivity.
  exists b2. repeat split; assumption.
Defined.

Lemma engagement_listings_send_empty_pages_only_witness :
  let w := Sample.world published (Some 500) [2%N] in
  let q := UserRoutes.mkPageQuery None None in
  UserRoutes.liked_blogs (fun l => l) (ValidToken 2%N) q w = (Thrown "TypeError", w)
  /\ UserRoutes.commented_blogs (fun l => l) (ValidToken 2%N) q w
     = (Success 200 (Data_page [] (mkPagination 1 0 0 false false)), w).
Proof.
  intros w q.
  destruct (engagement_listings_send_empty_pages_only (fun l => l)
              (fun l => reflexivity l) (ValidToken 2%N) 2%N Sample.bob q w)
    as (_ & Hcommented & _ & _ & Hliked).
  - reflexivity.
  - reflexivity.
  - split; [|exact Hcommented].
    apply (Hliked 7%N (Sample.post published (Some 500) [2%N])).
    + reflexivity.
    + reflexivity.
    + apply list_elem_of_singleton. reflexivity.
    + reflexivity.
Defined.
